(** * ai-prompt-wrapper: the request-execution core of [AIClient]

    A shallow embedding of the TypeScript sources

      - [errors.ts]: AIClientError, TimeoutError, RetryError;
      - [types.ts]: AIClientConfig, ChatPromptInput, ChatResult, LLMProvider
        and the hook types (the declarations that follow the Gemini provider
        in [src/providers/gemini.ts]);
      - [utils.ts]: parseEnvConfig, isRetryableError (same file);
      - [client.ts]: the AIClient class (it follows PROMPT_TEMPLATES in
        [src/prompts/presets.ts]);

    together with the fragment of JavaScript semantics these files rely on
    (truthiness, [||], [??], [===], relational comparison, object spread,
    [String.prototype.trim/toLowerCase/split], [parseFloat], [parseInt]).
    The provider classes of [src/providers] enter through the [LLMProvider]
    interface they implement.

    Modelling conventions.
      - A JavaScript number is [NaN], an infinity or an exact rational; the
        rounding of a decimal literal to binary64 is not represented, and the
        two zeros are one value.
      - A string is a sequence of code units below 256.
      - Asynchronous code is sequential here: every [await] in the sources
        waits for the awaited promise to settle before the next statement
        runs, so an [async] function is a computation that leaves a trace of
        the effects it performed and ends by returning, throwing or running
        out of fuel.
      - A hook is an observer: it sees its argument and may throw; it does
        not modify the object it is given. *)

From Stdlib Require Import ZArith QArith String Ascii List Bool Lia.
From stdpp Require Import gmap strings.

Set Implicit Arguments.
Open Scope string_scope.
Open Scope list_scope.

(* ===================================================================== *)
(** ** JavaScript values *)
(* ===================================================================== *)

Module JS.

(** *** Numbers *)

Inductive number : Type :=
| NaN
| Fin (q : Q)
| Inf (negative : bool).

Definition of_Z (z : Z) : number := Fin (inject_Z z).
Definition of_nat (n : nat) : number := of_Z (Z.of_nat n).

(** The outcome of comparing two numbers; [None] when one of them is NaN. *)
Definition num_compare (a b : number) : option comparison :=
  match a, b with
  | NaN, _ | _, NaN => None
  | Fin p, Fin q => Some (Qcompare p q)
  | Fin _, Inf neg => Some (if neg then Gt else Lt)
  | Inf neg, Fin _ => Some (if neg then Lt else Gt)
  | Inf n1, Inf n2 =>
      Some (match n1, n2 with
            | true, false => Lt
            | false, true => Gt
            | _, _ => Eq
            end)
  end.

Definition num_eqb (a b : number) : bool :=
  match num_compare a b with Some Eq => true | _ => false end.
Definition num_ltb (a b : number) : bool :=
  match num_compare a b with Some Lt => true | _ => false end.
Definition num_leb (a b : number) : bool :=
  match num_compare a b with Some Lt | Some Eq => true | _ => false end.
Definition num_geb (a b : number) : bool := num_leb b a.

Definition isNaN (a : number) : bool :=
  match a with NaN => true | _ => false end.

Definition num_is_zero (a : number) : bool := num_eqb a (of_Z 0).

Definition num_neg (a : number) : number :=
  match a with
  | NaN => NaN
  | Fin q => Fin (Qopp q)
  | Inf neg => Inf (negb neg)
  end.

(** [a * b] *)
Definition num_mul (a b : number) : number :=
  match a, b with
  | NaN, _ | _, NaN => NaN
  | Fin p, Fin q => Fin (Qmult p q)
  | Inf neg, Fin q | Fin q, Inf neg =>
      match Qcompare q 0 with
      | Eq => NaN
      | Gt => Inf neg
      | Lt => Inf (negb neg)
      end
  | Inf n1, Inf n2 => Inf (xorb n1 n2)
  end.

(** [Math.pow(2, k)] for a loop counter [k]. *)
Definition pow2 (k : nat) : number := of_Z (2 ^ Z.of_nat k).

(** [Math.min(a, b)] and [Math.max(a, b)]: NaN if either argument is. *)
Definition Math_min (a b : number) : number :=
  match num_compare a b with
  | None => NaN
  | Some Gt => b
  | Some _ => a
  end.

Definition Math_max (a b : number) : number :=
  match num_compare a b with
  | None => NaN
  | Some Lt => b
  | Some _ => a
  end.

(** *** Strings *)

Definition code (c : ascii) : nat := nat_of_ascii c.

(** White space and line terminators below U+0100: TAB, LF, VT, FF, CR,
    SP and NBSP. *)
Definition is_space (c : ascii) : bool :=
  let n := code c in
  ((9 <=? n) && (n <=? 13) || (n =? 32) || (n =? 160))%nat.

Fixpoint trimStart (s : string) : string :=
  match s with
  | String c s' => if is_space c then trimStart s' else s
  | EmptyString => EmptyString
  end.

Fixpoint trimEnd (s : string) : string :=
  match s with
  | String c s' =>
      match trimEnd s' with
      | EmptyString => if is_space c then EmptyString else String c EmptyString
      | r => String c r
      end
  | EmptyString => EmptyString
  end.

Definition trim (s : string) : string := trimEnd (trimStart s).

(** Lower-casing of a code unit below U+0100: A-Z, and the Latin-1
    capitals U+00C0..U+00DE except the multiplication sign U+00D7. *)
Definition lower_char (c : ascii) : ascii :=
  let n := code c in
  if ((65 <=? n) && (n <=? 90)
      || (192 <=? n) && (n <=? 222) && negb (n =? 215))%nat
  then ascii_of_nat (n + 32) else c.

Fixpoint toLowerCase (s : string) : string :=
  match s with
  | String c s' => String (lower_char c) (toLowerCase s')
  | EmptyString => EmptyString
  end.

(** [s.split(sep)] for a one-character separator: never the empty list. *)
Fixpoint split (sep : ascii) (s : string) : list string :=
  match s with
  | EmptyString => [EmptyString]
  | String c s' =>
      if Ascii.eqb c sep then EmptyString :: split sep s'
      else match split sep s' with
           | h :: t => String c h :: t
           | [] => [String c EmptyString]
           end
  end.

(** *** Numeric literals inside strings *)

Definition is_digit (c : ascii) : bool :=
  ((48 <=? code c) && (code c <=? 57))%nat.

Definition digit_value (c : ascii) : Z := Z.of_nat (code c) - 48.

(** Reads a maximal run of decimal digits: the value read so far, the
    number of digits consumed and the rest of the input. *)
Fixpoint scan_digits (s : string) (acc : Z) (n : nat) : Z * nat * string :=
  match s with
  | String c s' =>
      if is_digit c then scan_digits s' (10 * acc + digit_value c) (S n)
      else (acc, n, s)
  | EmptyString => (acc, n, s)
  end.

Definition scan_sign (s : string) : bool * string :=
  match s with
  | String "-" s' => (true, s')
  | String "+" s' => (false, s')
  | _ => (false, s)
  end.

(** ExponentPart: [e] or [E], an optional sign and at least one digit.
    When the part is not well formed nothing is consumed. *)
Definition scan_exponent (s : string) : Z * string :=
  match s with
  | String c s1 =>
      if Ascii.eqb c "e" || Ascii.eqb c "E" then
        let '(neg, s2) := scan_sign s1 in
        let '(v, n, rest) := scan_digits s2 0 0 in
        match n with
        | O => (0, s)
        | S _ => ((if neg then - v else v), rest)
        end
      else (0, s)
  | EmptyString => (0, s)
  end%Z.

(** [m * 10^e] as a rational. *)
Definition scale10 (m e : Z) : Q :=
  if (0 <=? e)%Z then inject_Z (m * 10 ^ e) else Qmake m (Z.to_pos (10 ^ (- e))).

Fixpoint starts_with (p s : string) : option string :=
  match p, s with
  | EmptyString, _ => Some s
  | String a p', String b s' => if Ascii.eqb a b then starts_with p' s' else None
  | String _ _, EmptyString => None
  end.

(** StrUnsignedDecimalLiteral: the longest prefix of the input that is
    [Infinity], [digits . digits? exp?], [. digits exp?] or [digits exp?]. *)
Definition scan_unsigned (s : string) : option (number * string) :=
  match starts_with "Infinity" s with
  | Some rest => Some (Inf false, rest)
  | None =>
      let '(ip, ni, s1) := scan_digits s 0 0 in
      match s1 with
      | String "." s2 =>
          let '(m, nf, s3) := scan_digits s2 ip 0 in
          match ni, nf with
          | O, O => None
          | _, _ =>
              let '(e, s4) := scan_exponent s3 in
              Some (Fin (scale10 m (e - Z.of_nat nf)), s4)
          end
      | _ =>
          match ni with
          | O => None
          | S _ =>
              let '(e, s2) := scan_exponent s1 in
              Some (Fin (scale10 ip e), s2)
          end
      end
  end.

(** StrDecimalLiteral: an optional sign and an unsigned literal. *)
Definition scan_decimal (s : string) : option (number * string) :=
  let '(neg, s1) := scan_sign s in
  match scan_unsigned s1 with
  | Some (v, rest) => Some ((if neg then num_neg v else v), rest)
  | None => None
  end.

(** [parseFloat(s)]: leading white space is skipped, the longest prefix
    that is a decimal literal is converted, anything after it is ignored. *)
Definition parseFloat (s : string) : number :=
  match scan_decimal (trimStart s) with
  | Some (v, _) => v
  | None => NaN
  end.

(** [parseInt(s, 10)] *)
Definition parseInt10 (s : string) : number :=
  let '(neg, s1) := scan_sign (trimStart s) in
  let '(v, n, _) := scan_digits s1 0 0 in
  match n with
  | O => NaN
  | S _ => of_Z (if neg then - v else v)
  end.

(** Digits of a non-decimal integer literal ([0x..], [0o..], [0b..]). *)
Definition radix_digit (c : ascii) : option Z :=
  let n := code c in
  if is_digit c then Some (digit_value c)
  else if ((97 <=? n) && (n <=? 102))%nat then Some (Z.of_nat n - 87)%Z
  else if ((65 <=? n) && (n <=? 70))%nat then Some (Z.of_nat n - 55)%Z
  else None.

Fixpoint scan_radix (r : Z) (s : string) (acc : Z) : option Z :=
  match s with
  | EmptyString => Some acc
  | String c s' =>
      match radix_digit c with
      | Some d => if (d <? r)%Z then scan_radix r s' (r * acc + d)%Z else None
      | None => None
      end
  end.

Definition non_decimal (s : string) : option number :=
  match s with
  | String "0" (String p (String c rest)) =>
      let digits := String c rest in
      let r := if Ascii.eqb p "x" || Ascii.eqb p "X" then Some 16
               else if Ascii.eqb p "o" || Ascii.eqb p "O" then Some 8
               else if Ascii.eqb p "b" || Ascii.eqb p "B" then Some 2
               else None in
      match r with
      | Some r => Some (match scan_radix r digits 0 with
                        | Some v => of_Z v
                        | None => NaN
                        end)
      | None => None
      end
  | _ => None
  end%Z.

(** StringToNumber: the whole trimmed string must be a numeric literal;
    the empty string is 0. *)
Definition string_to_number (s : string) : number :=
  match trim s with
  | EmptyString => of_Z 0
  | t =>
      match non_decimal t with
      | Some v => v
      | None =>
          match scan_decimal t with
          | Some (v, EmptyString) => v
          | _ => NaN
          end
      end
  end.

(** *** Primitive values *)

Inductive value : Type :=
| VUndefined
| VNull
| VBool (b : bool)
| VNum (n : number)
| VStr (s : string).

(** ToBoolean *)
Definition truthy (v : value) : bool :=
  match v with
  | VUndefined | VNull => false
  | VBool b => b
  | VNum n => negb (isNaN n || num_is_zero n)
  | VStr s => negb (String.eqb s "")
  end.

(** [a || b] *)
Definition or_else (a b : value) : value := if truthy a then a else b.

(** [a ?? b] *)
Definition nullish (a b : value) : value :=
  match a with VUndefined | VNull => b | _ => a end.

(** [a === b] *)
Definition strict_eq (a b : value) : bool :=
  match a, b with
  | VUndefined, VUndefined | VNull, VNull => true
  | VBool x, VBool y => Bool.eqb x y
  | VNum x, VNum y => num_eqb x y
  | VStr x, VStr y => String.eqb x y
  | _, _ => false
  end.

(** ToNumber *)
Definition to_number (v : value) : number :=
  match v with
  | VUndefined => NaN
  | VNull => of_Z 0
  | VBool b => of_Z (if b then 1 else 0)
  | VNum n => n
  | VStr s => string_to_number s
  end.

(** Relational operators with a number on one side (the operands are
    compared as numbers). *)
Definition less (a b : value) : bool := num_ltb (to_number a) (to_number b).
Definition less_eq (a b : value) : bool := num_leb (to_number a) (to_number b).
Definition greater_eq (a b : value) : bool := num_geb (to_number a) (to_number b).

(** A property of an object literal: [None] when the object has no such
    own property, [Some v] when it has one (whose value may well be
    [undefined]). Reading an absent property gives [undefined]. *)
Definition prop (p : option value) : value :=
  match p with Some v => v | None => VUndefined end.

(** One property of [{...a, ...b}]. *)
Definition spread_prop (a b : option value) : option value :=
  match b with Some _ => b | None => a end.

End JS.

Import JS.

Notation "'num:' z" := (VNum (of_Z z)) (at level 9, z at level 9).


(* ===================================================================== *)
(** ** src/errors.ts *)
(* ===================================================================== *)

Module Errors.

(** The text of an error, kept as the template literal that builds it:
    the interpolated values stay values (no number is rendered as text). *)
Inductive Msg : Type :=
| MsgValue (v : value)
    (** the [message] a foreign error object happens to hold *)
| MsgApiKeyRequired
    (** ["API key is required"] *)
| MsgUnsupportedProvider (p : value)
    (** [`Unsupported provider: ${this.config.provider}`] *)
| MsgMissingEnv
    (** ["Missing required environment variables. ..."] *)
| MsgFailedAfter (maxRetries : value) (inner : Msg)
    (** [`Failed after ${maxRetries} retries: ${error.message}`] *)
| MsgFailedToExecute (operation : string)
    (** [`Failed to execute ${operation}`] *)
| MsgTimedOut (timeout : value)
    (** [`Request timed out after ${timeout}ms`] *)
| MsgStreamingNotSupported
    (** ["Streaming not supported by this provider"] *)
| MsgStreamingError (inner : Msg)
    (** [`Streaming error: ${error.message}`] *)
| MsgCannotRead (target : value)
    (** the engine's text for reading a property of [null] or [undefined] *).

Inductive ErrorClass : Type :=
| PlainObject | ClassError | ClassTypeError
| ClassAIClientError | ClassTimeoutError | ClassRetryError.

(** Whatever a [catch] clause can receive: a primitive, or an object seen
    through the properties this code base reads or writes.
    [response] is [error.response?.status]: [None] when [error.response]
    is null or undefined, the value of its [status] property otherwise. *)
Inductive exn : Type :=
| ExnValue (v : value)
| ExnObject (cls : ErrorClass) (message : Msg)
            (status statusCode : value) (response : option value)
            (code provider retries : value) (originalError : exn).

Definition undefined : exn := ExnValue VUndefined.

(** [class AIClientError extends Error]:
    [constructor(message, provider?, statusCode?, originalError?)] *)
Definition AIClientError (message : Msg) (provider statusCode : value)
    (originalError : exn) : exn :=
  ExnObject ClassAIClientError message
            VUndefined statusCode None VUndefined provider VUndefined
            originalError.

(** [class TimeoutError extends AIClientError]:
    [constructor(message, provider?) { super(message, provider) }] *)
Definition TimeoutError (message : Msg) (provider : value) : exn :=
  ExnObject ClassTimeoutError message
            VUndefined VUndefined None VUndefined provider VUndefined
            undefined.

(** [class RetryError extends AIClientError]:
    [constructor(message, retries, provider?, originalError?)
       { super(message, provider, undefined, originalError) }] *)
Definition RetryError (message : Msg) (retries provider : value)
    (originalError : exn) : exn :=
  ExnObject ClassRetryError message
            VUndefined VUndefined None VUndefined provider retries
            originalError.

(** The TypeError raised by a property read on [null] or [undefined]. *)
Definition TypeError (target : value) : exn :=
  ExnObject ClassTypeError (MsgCannotRead target)
            VUndefined VUndefined None VUndefined VUndefined VUndefined
            undefined.

(** [!error] *)
Definition falsy (e : exn) : bool :=
  match e with
  | ExnValue v => negb (truthy v)
  | ExnObject _ _ _ _ _ _ _ _ _ => false
  end.

(** Property reads on a caught value that is not null or undefined. A
    primitive has none of these properties. *)
Definition get_status (e : exn) : value :=
  match e with ExnObject _ _ s _ _ _ _ _ _ => s | ExnValue _ => VUndefined end.
Definition get_statusCode (e : exn) : value :=
  match e with ExnObject _ _ _ s _ _ _ _ _ => s | ExnValue _ => VUndefined end.
(** [error.response?.status] *)
Definition get_response_status (e : exn) : value :=
  match e with
  | ExnObject _ _ _ _ (Some s) _ _ _ _ => s
  | _ => VUndefined
  end.
Definition get_code (e : exn) : value :=
  match e with ExnObject _ _ _ _ _ c _ _ _ => c | ExnValue _ => VUndefined end.
Definition get_retries (e : exn) : value :=
  match e with ExnObject _ _ _ _ _ _ _ r _ => r | ExnValue _ => VUndefined end.
Definition get_provider (e : exn) : value :=
  match e with ExnObject _ _ _ _ _ _ p _ _ => p | ExnValue _ => VUndefined end.
Definition get_originalError (e : exn) : exn :=
  match e with ExnObject _ _ _ _ _ _ _ _ o => o | ExnValue _ => undefined end.
Definition get_class (e : exn) : option ErrorClass :=
  match e with ExnObject c _ _ _ _ _ _ _ _ => Some c | ExnValue _ => None end.

(** [error.message]: the read itself throws a TypeError when [error] is
    [null] or [undefined]. *)
Definition get_message (e : exn) : exn + Msg :=
  match e with
  | ExnValue VUndefined => inl (TypeError VUndefined)
  | ExnValue VNull => inl (TypeError VNull)
  | ExnValue _ => inr (MsgValue VUndefined)
  | ExnObject _ m _ _ _ _ _ _ _ => inr m
  end.

(** [error instanceof RetryError] *)
Definition is_RetryError (e : exn) : bool :=
  match get_class e with Some ClassRetryError => true | _ => false end.

(** [error instanceof TimeoutError] *)
Definition is_TimeoutError (e : exn) : bool :=
  match get_class e with Some ClassTimeoutError => true | _ => false end.

(** Nesting depth through [originalError]. *)
Fixpoint depth (e : exn) : nat :=
  match e with
  | ExnValue _ => 0
  | ExnObject _ _ _ _ _ _ _ _ o => S (depth o)
  end.

End Errors.

Import Errors.

(* ===================================================================== *)
(** ** src/types.ts *)
(* ===================================================================== *)

(** [interface AIClientConfig]. The object is built by literals and by
    spread, so each property is either absent or present with a value. *)
Record AIClientConfig : Type := mkConfig {
  cfg_provider : option value;
  cfg_apiKey : option value;
  cfg_model : option value;
  cfg_temperature : option value;
  cfg_maxTokens : option value;
  cfg_baseUrl : option value;
  cfg_timeout : option value;
  cfg_maxRetries : option value;
  cfg_retryDelay : option value
}.

(** [{ ...a, ...b }] *)
Definition spread (a b : AIClientConfig) : AIClientConfig :=
  {| cfg_provider := spread_prop (cfg_provider a) (cfg_provider b);
     cfg_apiKey := spread_prop (cfg_apiKey a) (cfg_apiKey b);
     cfg_model := spread_prop (cfg_model a) (cfg_model b);
     cfg_temperature := spread_prop (cfg_temperature a) (cfg_temperature b);
     cfg_maxTokens := spread_prop (cfg_maxTokens a) (cfg_maxTokens b);
     cfg_baseUrl := spread_prop (cfg_baseUrl a) (cfg_baseUrl b);
     cfg_timeout := spread_prop (cfg_timeout a) (cfg_timeout b);
     cfg_maxRetries := spread_prop (cfg_maxRetries a) (cfg_maxRetries b);
     cfg_retryDelay := spread_prop (cfg_retryDelay a) (cfg_retryDelay b) |}.

(** [this.config.model = m] *)
Definition set_model (c : AIClientConfig) (m : value) : AIClientConfig :=
  {| cfg_provider := cfg_provider c; cfg_apiKey := cfg_apiKey c;
     cfg_model := Some m;
     cfg_temperature := cfg_temperature c; cfg_maxTokens := cfg_maxTokens c;
     cfg_baseUrl := cfg_baseUrl c; cfg_timeout := cfg_timeout c;
     cfg_maxRetries := cfg_maxRetries c; cfg_retryDelay := cfg_retryDelay c |}.

Inductive MessageRole : Type := user | assistant | system.

Record Message : Type := { role : MessageRole; msg_content : string }.

Record ChatPromptInput : Type := {
  messages : list Message;
  in_temperature : value;
  in_maxTokens : value;
  in_stream : value
}.

Record ChatResult : Type := {
  content : string;
  tokensUsed : value;
  model : value;
  finishReason : value;
  provider : value
}.

Record ChatOptions : Type := {
  opt_temperature : value;
  opt_maxTokens : value;
  opt_stream : value
}.

Record ChatStreamChunk : Type := { chunk_content : string; done : bool }.

(** How a promise started by one attempt stands when the race in
    [executeWithTimeout] is decided: fulfilled, rejected, or still pending
    when the timer fires. *)
Inductive settled (T : Type) : Type :=
| Fulfilled (v : T)
| Rejected (e : exn)
| Pending.
Arguments Fulfilled {T} v.
Arguments Rejected {T} e.
Arguments Pending {T}.

(** What iterating an [AsyncIterable<ChatStreamChunk>] produces. *)
Inductive chunks : Type :=
| StreamEnd
| StreamChunk (c : ChatStreamChunk) (rest : chunks)
| StreamError (e : exn).

(** [interface LLMProvider]. A provider performs network calls, so its
    behaviour is given from outside: [chat k input] is what the [k]-th
    invocation of [chat] during one client call does ([k] counts from 0).
    [chatStream] is optional. *)
Record LLMProvider : Type := {
  chat : nat -> ChatPromptInput -> settled ChatResult;
  chatStream : option (ChatPromptInput -> chunks)
}.

(** The outcome of calling a hook. *)
Inductive completion : Type := Normal | Throws (e : exn).

Definition RequestHook : Type := AIClientConfig -> ChatPromptInput -> completion.
Definition ResponseHook : Type := ChatResult -> completion.
Definition ErrorHook : Type := exn -> completion.

(* ===================================================================== *)
(** ** Effects *)
(* ===================================================================== *)

(** The observable effects of the client, in the order they happen. *)
Inductive event : Type :=
| EvNewProvider (name : string) (apiKey model baseUrl : value)
    (** [new OpenAIProvider(..)] / [new GeminiProvider(..)] *)
| EvRequestHook (i : nat) (config : AIClientConfig) (input : ChatPromptInput)
    (** [hook(this.config, input)] for [this.requestHooks[i]] *)
| EvProviderChat (k : nat) (input : ChatPromptInput)
    (** [this.provider.chat(input)], for the [k]-th time in this call *)
| EvErrorHook (i : nat) (error : exn)
    (** [hook(error)] for [this.errorHooks[i]] *)
| EvSleep (ms : number)
    (** [await sleep(ms)] *)
| EvResponseHook (i : nat) (result : ChatResult)
    (** [hook(result)] for [this.responseHooks[i]] *)
| EvProviderChatStream (input : ChatPromptInput)
    (** [this.provider.chatStream(input)] *)
| EvYield (c : ChatStreamChunk)
    (** [yield chunk] *).

Inductive outcome (A : Type) : Type :=
| Returned (a : A)
| Thrown (e : exn)
| OutOfFuel.
Arguments Returned {A} a.
Arguments Thrown {A} e.
Arguments OutOfFuel {A}.

(** A computation: the effects it performed and how it ended. *)
Definition Eff (A : Type) : Type := (list event * outcome A)%type.

Definition ret {A} (a : A) : Eff A := ([], Returned a).
Definition throw {A} (e : exn) : Eff A := ([], Thrown e).
Definition emit (evs : list event) : Eff unit := (evs, Returned tt).

Definition bind {A B} (m : Eff A) (f : A -> Eff B) : Eff B :=
  match m with
  | (t, Returned a) => let '(t', o) := f a in (t ++ t', o)
  | (t, Thrown e) => (t, Thrown e)
  | (t, OutOfFuel) => (t, OutOfFuel)
  end.

(** [try { m } catch (error) { h error }] *)
Definition try_catch {A} (m : Eff A) (h : exn -> Eff A) : Eff A :=
  match m with
  | (t, Thrown e) => let '(t', o) := h e in (t ++ t', o)
  | _ => m
  end.

Declare Scope eff_scope.
Delimit Scope eff_scope with eff.
Notation "x <- m ;; k" := (bind m (fun x => k))
  (at level 100, m at next level, right associativity) : eff_scope.
Notation "m ;; k" := (bind m (fun _ => k))
  (at level 100, right associativity) : eff_scope.
Open Scope eff_scope.

Definition trace {A} (m : Eff A) : list event := fst m.
Definition result {A} (m : Eff A) : outcome A := snd m.

(** [for (const hook of hooks) { try { hook(arg) } catch { } }]: every hook
    is called, in registration order, whatever the earlier ones did. *)
Fixpoint dispatch {A} (ev : nat -> A -> event) (hooks : list (A -> completion))
    (i : nat) (arg : A) : list event :=
  match hooks with
  | [] => []
  | hook :: rest =>
      ev i arg ::
      match hook arg with
      | Normal => dispatch ev rest (S i) arg
      | Throws _ => (* Ignore hook errors *) dispatch ev rest (S i) arg
      end
  end.

(* ===================================================================== *)
(** ** src/utils.ts *)
(* ===================================================================== *)

(** [export function isRetryableError(error: any): boolean] *)
Definition isRetryableError (error : exn) : bool :=
  if falsy error then false
  else
    let statusCode :=
      or_else (or_else (get_status error) (get_statusCode error))
              (get_response_status error) in
    if truthy statusCode then
      (* Retry on 429 (rate limit) and 5xx (server errors) *)
      strict_eq statusCode (num: 429)
      || (greater_eq statusCode (num: 500) && less statusCode (num: 600))
    else
      (* Retry on network errors *)
      if strict_eq (get_code error) (VStr "ECONNRESET")
         || strict_eq (get_code error) (VStr "ETIMEDOUT")
         || strict_eq (get_code error) (VStr "ENOTFOUND")
      then true
      else false.

(** [process.env.NAME]: a string, or [undefined] when the variable is unset. *)
Definition getenv (env : gmap string string) (name : string) : value :=
  match env !! name with
  | Some s => VStr s
  | None => VUndefined
  end.

(** [v ? parse(v) : undefined] for an entry [v] of [process.env]. *)
Definition parse_if_set (parse : string -> number) (v : value) : value :=
  match v with
  | VStr s => if truthy v then VNum (parse s) else VUndefined
  | _ => VUndefined
  end.

(** [export function parseEnvConfig(): Partial<AIClientConfig>] *)
Definition parseEnvConfig (env : gmap string string) : AIClientConfig :=
  let provider := or_else (getenv env "AI_PROVIDER") (getenv env "PROVIDER") in
  let openaiKey := getenv env "OPENAI_API_KEY" in
  let geminiKey :=
    or_else (getenv env "GEMINI_API_KEY") (getenv env "GOOGLE_AI_API_KEY") in
  let model := or_else (getenv env "AI_MODEL") (getenv env "MODEL") in
  let temperature := parse_if_set parseFloat (getenv env "AI_TEMPERATURE") in
  let maxTokens := parse_if_set parseInt10 (getenv env "AI_MAX_TOKENS") in
  let timeout := parse_if_set parseInt10 (getenv env "AI_TIMEOUT") in
  let maxRetries := parse_if_set parseInt10 (getenv env "AI_MAX_RETRIES") in
  let '(resolvedProvider, apiKey) :=
    if strict_eq provider (VStr "openai") && truthy openaiKey then
      (provider, openaiKey)
    else if strict_eq provider (VStr "gemini") && truthy geminiKey then
      (provider, geminiKey)
    else if negb (truthy provider) then
      (* Auto-detect based on available keys *)
      if truthy openaiKey then (VStr "openai", openaiKey)
      else if truthy geminiKey then (VStr "gemini", geminiKey)
      else (provider, VUndefined)
    else (provider, VUndefined) in
  {| cfg_provider := Some resolvedProvider;
     cfg_apiKey := Some apiKey;
     cfg_model := Some model;
     cfg_temperature := Some temperature;
     cfg_maxTokens := Some maxTokens;
     cfg_baseUrl := None;
     cfg_timeout := Some timeout;
     cfg_maxRetries := Some maxRetries;
     cfg_retryDelay := None |}.

(* ===================================================================== *)
(** ** src/client.ts *)
(* ===================================================================== *)

(** [class AIClient]'s private fields. A request hook takes its two
    arguments as a pair. *)
Record AIClient : Type := {
  c_provider : LLMProvider;
  c_config : AIClientConfig;
  requestHooks : list (AIClientConfig * ChatPromptInput -> completion);
  responseHooks : list ResponseHook;
  errorHooks : list ErrorHook
}.

(** The two provider classes of [src/providers]: adapters over the vendors'
    SDKs. What an instance does when called is decided by the service, so
    the classes are a parameter of the constructor here. *)
Record Providers : Type := {
  OpenAIProvider : forall (apiKey model baseUrl : value), LLMProvider;
  GeminiProvider : forall (apiKey model baseUrl : value), LLMProvider
}.

(** The literal that precedes [...config] in the constructor. *)
Definition defaults : AIClientConfig :=
  {| cfg_provider := None;
     cfg_apiKey := None;
     cfg_model := None;
     cfg_temperature := Some (VNum (Fin (7 # 10)));
     cfg_maxTokens := None;
     cfg_baseUrl := None;
     cfg_timeout := Some (num: 30000);
     cfg_maxRetries := Some (num: 3);
     cfg_retryDelay := Some (num: 1000) |}.

(** [constructor(config: AIClientConfig)] *)
Definition new_AIClient (sdk : Providers) (config : AIClientConfig) : Eff AIClient :=
  if negb (truthy (prop (cfg_apiKey config))) then
    throw (AIClientError MsgApiKeyRequired VUndefined VUndefined undefined)
  else
    let this_config := spread defaults config in
    (* Set default model based on provider if not specified *)
    let this_config :=
      if negb (truthy (prop (cfg_model this_config))) then
        if strict_eq (prop (cfg_provider this_config)) (VStr "openai") then
          set_model this_config (VStr "gpt-4o-mini")
        else if strict_eq (prop (cfg_provider this_config)) (VStr "gemini") then
          set_model this_config (VStr "gemini-pro")
        else this_config
      else this_config in
    (* Initialize provider *)
    let apiKey := prop (cfg_apiKey this_config) in
    let model := prop (cfg_model this_config) in
    let baseUrl := prop (cfg_baseUrl this_config) in
    let make (p : LLMProvider) : AIClient :=
      {| c_provider := p; c_config := this_config;
         requestHooks := []; responseHooks := []; errorHooks := [] |} in
    if strict_eq (prop (cfg_provider this_config)) (VStr "openai") then
      emit [EvNewProvider "openai" apiKey model baseUrl];;
      ret (make (OpenAIProvider sdk apiKey model baseUrl))
    else if strict_eq (prop (cfg_provider this_config)) (VStr "gemini") then
      emit [EvNewProvider "gemini" apiKey model baseUrl];;
      ret (make (GeminiProvider sdk apiKey model baseUrl))
    else
      throw (AIClientError
               (MsgUnsupportedProvider (prop (cfg_provider this_config)))
               VUndefined VUndefined undefined).

(** [static fromEnv(): AIClient] *)
Definition fromEnv (sdk : Providers) (env : gmap string string) : Eff AIClient :=
  let envConfig := parseEnvConfig env in
  if negb (truthy (prop (cfg_provider envConfig)))
     || negb (truthy (prop (cfg_apiKey envConfig)))
  then throw (AIClientError MsgMissingEnv VUndefined VUndefined undefined)
  else new_AIClient sdk envConfig.

(** [onRequest], [onResponse], [onError]: [this.<registry>.push(hook)] *)
Definition onRequest (c : AIClient)
    (hook : AIClientConfig * ChatPromptInput -> completion) : AIClient :=
  {| c_provider := c_provider c; c_config := c_config c;
     requestHooks := requestHooks c ++ [hook];
     responseHooks := responseHooks c; errorHooks := errorHooks c |}.

Definition onResponse (c : AIClient) (hook : ResponseHook) : AIClient :=
  {| c_provider := c_provider c; c_config := c_config c;
     requestHooks := requestHooks c;
     responseHooks := responseHooks c ++ [hook]; errorHooks := errorHooks c |}.

Definition onError (c : AIClient) (hook : ErrorHook) : AIClient :=
  {| c_provider := c_provider c; c_config := c_config c;
     requestHooks := requestHooks c;
     responseHooks := responseHooks c; errorHooks := errorHooks c ++ [hook] |}.

(** One invocation of the work [fn] handed to the retry engine: the effects
    of starting it, and how its promise stands when the race ends. *)
Definition Attempt (T : Type) : Type := (list event * settled T)%type.

(** [private async executeWithTimeout<T>(fn)]: the result of [fn()] if it
    settles before the timer fires, a rejection with a TimeoutError if the
    timer fires first. *)
Definition executeWithTimeout {T} (c : AIClient) (fn : Attempt T) : Eff T :=
  let timeout := or_else (prop (cfg_timeout (c_config c))) (num: 30000) in
  let '(started, state) := fn in
  match state with
  | Fulfilled r => (started, Returned r)
  | Rejected error => (started, Thrown error)
  | Pending =>
      (started,
       Thrown (TimeoutError (MsgTimedOut timeout)
                            (prop (cfg_provider (c_config c)))))
  end.

(** The [for] loop of [executeWithRetry], entered with the loop variable
    equal to [attempt]. [fn k] is the [k]-th invocation of the work. *)
Fixpoint retry_loop {T} (fuel : nat) (c : AIClient) (fn : nat -> Attempt T)
    (operation : string) (maxRetries : value) (lastError : exn)
    (attempt : nat) : Eff T :=
  match fuel with
  | O => ([], OutOfFuel)
  | S fuel' =>
      if less_eq (VNum (of_nat attempt)) maxRetries then
        try_catch (executeWithTimeout c (fn attempt)) (fun error =>
          (* lastError = error *)
          (* Call error hooks *)
          emit (dispatch EvErrorHook (errorHooks c) 0 error);;
          (* Check if we should retry *)
          if less (VNum (of_nat attempt)) maxRetries && isRetryableError error then
            let delay :=
              num_mul
                (to_number
                   (or_else (prop (cfg_retryDelay (c_config c))) (num: 1000)))
                (pow2 attempt) in
            emit [EvSleep delay];;
            retry_loop fuel' c fn operation maxRetries error (S attempt)
          (* If not retryable or out of retries, throw *)
          else if strict_eq (VNum (of_nat attempt)) maxRetries then
            match get_message error with
            | inl type_error => throw type_error
            | inr message =>
                throw (RetryError (MsgFailedAfter maxRetries message)
                                  maxRetries
                                  (prop (cfg_provider (c_config c)))
                                  error)
            end
          else throw error)
      else
        throw (if falsy lastError
               then AIClientError (MsgFailedToExecute operation)
                                  VUndefined VUndefined undefined
               else lastError)
  end.

(** [private async executeWithRetry<T>(fn, operation)] *)
Definition executeWithRetry {T} (fuel : nat) (c : AIClient)
    (fn : nat -> Attempt T) (operation : string) : Eff T :=
  let maxRetries := or_else (prop (cfg_maxRetries (c_config c))) (num: 3) in
  retry_loop fuel c fn operation maxRetries undefined 0.

(** [() => this.provider.chat(input)] *)
Definition chat_work (c : AIClient) (input : ChatPromptInput)
    : nat -> Attempt ChatResult :=
  fun k => ([EvProviderChat k input], chat (c_provider c) k input).

Definition request_event (i : nat) (a : AIClientConfig * ChatPromptInput) : event :=
  EvRequestHook i (fst a) (snd a).

(** [{ ...result, provider: this.config.provider,
       model: result.model || this.config.model }] *)
Definition decorate (c : AIClient) (r : ChatResult) : ChatResult :=
  {| content := content r;
     tokensUsed := tokensUsed r;
     finishReason := finishReason r;
     provider := prop (cfg_provider (c_config c));
     model := or_else (model r) (prop (cfg_model (c_config c))) |}.

(** [private async callProvider(input)] *)
Definition callProvider (fuel : nat) (c : AIClient) (input : ChatPromptInput)
    : Eff ChatResult :=
  (* Call request hooks *)
  emit (dispatch request_event (requestHooks c) 0 (c_config c, input));;
  r <- executeWithRetry fuel c (chat_work c input) "chat";;
  (* Call response hooks *)
  emit (dispatch EvResponseHook (responseHooks c) 0 r);;
  ret (decorate c r).

(** *** Task methods

    [PROMPT_TEMPLATES] (src/prompts/presets.ts) is string formatting only;
    each method below takes the prompt its template returned. *)

Inductive Payload : Type :=
| Summary (summary : string)
| Corrected (corrected : string)
| Translated (translated : string)
| Answer (answer : string)
| Rewritten (rewritten : string)
| Bullets (bullets : list string)
| Keywords (keywords : list string)
| Language (language : string) (confidence : number)
| Sentiment (sentiment : string) (score : number)
| Custom (custom : string).

(** The result object of a task method: its own properties and the three
    copied from the chat result. *)
Record TaskResult : Type := {
  payload : Payload;
  task_tokensUsed : value;
  task_provider : value;
  task_model : value
}.

Definition task_result (p : Payload) (r : ChatResult) : TaskResult :=
  {| payload := p;
     task_tokensUsed := tokensUsed r;
     task_provider := provider r;
     task_model := model r |}.

(** [{ messages: [{ role: "user", content: prompt }], temperature, maxTokens }] *)
Definition user_prompt (prompt : string) (temperature maxTokens : value)
    : ChatPromptInput :=
  {| messages := [{| role := user; msg_content := prompt |}];
     in_temperature := temperature;
     in_maxTokens := maxTokens;
     in_stream := VUndefined |}.

Definition config_temperature (c : AIClient) : value :=
  prop (cfg_temperature (c_config c)).
Definition config_maxTokens (c : AIClient) : value :=
  prop (cfg_maxTokens (c_config c)).

Definition nonempty (s : string) : bool := negb (String.eqb s "").

(** [line.replace(/^[-*â€¢]\s*/, "")]: the character class as the source
    file spells it (its members below U+0100). *)
Definition strip_bullet (line : string) : string :=
  match line with
  | String ch rest =>
      if Ascii.eqb ch "-" || Ascii.eqb ch "*"
         || (code ch =? 226)%nat || (code ch =? 162)%nat
      then trimStart rest else line
  | EmptyString => EmptyString
  end.

(** Parse bullet points from response *)
Definition parse_bullets (text : string) : list string :=
  List.filter nonempty
    (List.map strip_bullet
       (List.filter nonempty (List.map trim (split "010" text)))).

(** Parse keywords from comma-separated list *)
Definition parse_keywords (text : string) : list string :=
  List.filter nonempty (List.map trim (split "," text)).

(** Parse sentiment and score *)
Definition parse_sentiment (text : string) : string * number :=
  let parts := split "|" text in
  let sentiment := "neutral" in
  let score := Fin (1 # 2) in
  if (2 <=? List.length parts)%nat then
    let sent := toLowerCase (trim (nth 0 parts "")) in
    let sentiment :=
      if String.eqb sent "positive" || String.eqb sent "neutral"
         || String.eqb sent "negative"
      then sent else sentiment in
    let parsedScore := parseFloat (trim (nth 1 parts "")) in
    let score :=
      if negb (isNaN parsedScore)
      then Math_max (of_Z 0) (Math_min (of_Z 1) parsedScore)
      else score in
    (sentiment, score)
  else (sentiment, score).

Section Methods.

Variable fuel : nat.
Variable c : AIClient.

Definition summarize (prompt : string) : Eff TaskResult :=
  r <- callProvider fuel c
         (user_prompt prompt (config_temperature c) (config_maxTokens c));;
  ret (task_result (Summary (content r)) r).

Definition fixGrammar (prompt : string) : Eff TaskResult :=
  r <- callProvider fuel c
         (user_prompt prompt (VNum (Fin (3 # 10))) (config_maxTokens c));;
  ret (task_result (Corrected (content r)) r).

Definition translate (prompt : string) : Eff TaskResult :=
  r <- callProvider fuel c
         (user_prompt prompt (config_temperature c) (config_maxTokens c));;
  ret (task_result (Translated (content r)) r).

(** [options_temperature] is [options?.temperature]. *)
Definition answerQuestion (prompt : string) (options_temperature : value)
    : Eff TaskResult :=
  r <- callProvider fuel c
         (user_prompt prompt
            (nullish options_temperature (config_temperature c))
            (config_maxTokens c));;
  ret (task_result (Answer (content r)) r).

(** [async rewrite(text, style, options?)] *)
Definition rewrite' (prompt : string) : Eff TaskResult :=
  r <- callProvider fuel c
         (user_prompt prompt (config_temperature c) (config_maxTokens c));;
  ret (task_result (Rewritten (content r)) r).

Definition summarizeToBullets (prompt : string) : Eff TaskResult :=
  r <- callProvider fuel c
         (user_prompt prompt (config_temperature c) (config_maxTokens c));;
  ret (task_result (Bullets (parse_bullets (content r))) r).

Definition extractKeywords (prompt : string) : Eff TaskResult :=
  r <- callProvider fuel c
         (user_prompt prompt (VNum (Fin (3 # 10))) (config_maxTokens c));;
  ret (task_result (Keywords (parse_keywords (content r))) r).

Definition detectLanguage (prompt : string) : Eff TaskResult :=
  r <- callProvider fuel c
         (user_prompt prompt (VNum (Fin (1 # 10))) (num: 10));;
  let language := toLowerCase (trim (content r)) in
  (* Simple confidence calculation (could be improved) *)
  let confidence :=
    if (String.length language =? 2)%nat then Fin (9 # 10) else Fin (7 # 10) in
  ret (task_result (Language language confidence) r).

Definition classifySentiment (prompt : string) : Eff TaskResult :=
  r <- callProvider fuel c
         (user_prompt prompt (VNum (Fin (3 # 10))) (num: 20));;
  let '(sentiment, score) := parse_sentiment (content r) in
  ret (task_result (Sentiment sentiment score) r).

(** [options_temperature], [options_maxTokens] are [options?.temperature]
    and [options?.maxTokens]. *)
Definition customPrompt (processedPrompt : string)
    (options_temperature options_maxTokens : value) : Eff TaskResult :=
  r <- callProvider fuel c
         (user_prompt processedPrompt
            (nullish options_temperature (config_temperature c))
            (nullish options_maxTokens (config_maxTokens c)));;
  ret (task_result (Custom (content r)) r).

(** [options?.name] *)
Definition optional (options : option ChatOptions)
    (name : ChatOptions -> value) : value :=
  match options with
  | Some o => name o
  | None => VUndefined
  end.

Definition chat_input (msgs : list Message) (options : option ChatOptions)
    (stream : value) : ChatPromptInput :=
  {| messages := msgs;
     in_temperature :=
       nullish (optional options opt_temperature) (config_temperature c);
     in_maxTokens :=
       nullish (optional options opt_maxTokens) (config_maxTokens c);
     in_stream := stream |}.

(** [async chat(messages, options?)] *)
Definition client_chat (msgs : list Message) (options : option ChatOptions)
    : Eff ChatResult :=
  callProvider fuel c (chat_input msgs options (optional options opt_stream)).

End Methods.

(** [for await (const chunk of stream) { yield chunk }], as seen by a
    consumer that iterates to the end. *)
Fixpoint forward (stream : chunks) : Eff unit :=
  match stream with
  | StreamEnd => ret tt
  | StreamChunk chunk rest => emit [EvYield chunk];; forward rest
  | StreamError e => throw e
  end.

(** [async *chatStream(messages, options?)]: the generator's body, which
    starts to run when the consumer asks for the first chunk. *)
Definition client_chatStream (c : AIClient) (msgs : list Message)
    (options : option ChatOptions) : Eff unit :=
  match chatStream (c_provider c) with
  | None =>
      throw (AIClientError MsgStreamingNotSupported
                           (prop (cfg_provider (c_config c)))
                           VUndefined undefined)
  | Some provider_chatStream =>
      let input := chat_input c msgs options (VBool true) in
      (* Call request hooks *)
      emit (dispatch request_event (requestHooks c) 0 (c_config c, input));;
      try_catch
        (emit [EvProviderChatStream input];;
         forward (provider_chatStream input))
        (fun error =>
           (* Call error hooks *)
           emit (dispatch EvErrorHook (errorHooks c) 0 error);;
           match get_message error with
           | inl type_error => throw type_error
           | inr message =>
               throw (AIClientError (MsgStreamingError message)
                                    (prop (cfg_provider (c_config c)))
                                    VUndefined error)
           end)
  end.

(** The public chat-path methods with their arguments. *)
Inductive request : Type :=
| Summarize (prompt : string)
| FixGrammar (prompt : string)
| Translate (prompt : string)
| AnswerQuestion (prompt : string) (options_temperature : value)
| Rewrite (prompt : string)
| SummarizeToBullets (prompt : string)
| ExtractKeywords (prompt : string)
| DetectLanguage (prompt : string)
| ClassifySentiment (prompt : string)
| CustomPrompt (prompt : string) (options_temperature options_maxTokens : value)
| Chat (msgs : list Message) (options : option ChatOptions).

(** The chat input a method hands to [callProvider]. *)
Definition input_of (c : AIClient) (rq : request) : ChatPromptInput :=
  match rq with
  | Summarize p | Translate p | Rewrite p | SummarizeToBullets p =>
      user_prompt p (config_temperature c) (config_maxTokens c)
  | FixGrammar p | ExtractKeywords p =>
      user_prompt p (VNum (Fin (3 # 10))) (config_maxTokens c)
  | AnswerQuestion p t =>
      user_prompt p (nullish t (config_temperature c)) (config_maxTokens c)
  | DetectLanguage p => user_prompt p (VNum (Fin (1 # 10))) (num: 10)
  | ClassifySentiment p => user_prompt p (VNum (Fin (3 # 10))) (num: 20)
  | CustomPrompt p t m =>
      user_prompt p (nullish t (config_temperature c))
                  (nullish m (config_maxTokens c))
  | Chat msgs options => chat_input c msgs options (optional options opt_stream)
  end.

(** Calling a method: a task result, or the chat result for [chat]. *)
Definition invoke (fuel : nat) (c : AIClient) (rq : request)
    : Eff (TaskResult + ChatResult) :=
  match rq with
  | Summarize p => r <- summarize fuel c p;; ret (inl r)
  | FixGrammar p => r <- fixGrammar fuel c p;; ret (inl r)
  | Translate p => r <- translate fuel c p;; ret (inl r)
  | AnswerQuestion p t => r <- answerQuestion fuel c p t;; ret (inl r)
  | Rewrite p => r <- rewrite' fuel c p;; ret (inl r)
  | SummarizeToBullets p => r <- summarizeToBullets fuel c p;; ret (inl r)
  | ExtractKeywords p => r <- extractKeywords fuel c p;; ret (inl r)
  | DetectLanguage p => r <- detectLanguage fuel c p;; ret (inl r)
  | ClassifySentiment p => r <- classifySentiment fuel c p;; ret (inl r)
  | CustomPrompt p t m => r <- customPrompt fuel c p t m;; ret (inl r)
  | Chat msgs options => r <- client_chat fuel c msgs options;; ret (inr r)
  end.

(* ===================================================================== *)
(** ** Vocabulary for the properties *)
(* ===================================================================== *)

(** The failure of one attempt, as the [catch] clause of the retry loop
    receives it: the rejection of the work, or the guard's TimeoutError. *)
Definition failure_of {T} (c : AIClient) (a : Attempt T) : option exn :=
  match result (executeWithTimeout c a) with
  | Thrown e => Some e
  | _ => None
  end.

(** Attempt [j] fails and the loop goes on to attempt [j + 1]. *)
Definition retried {T} (c : AIClient) (fn : nat -> Attempt T)
    (maxRetries : value) (j : nat) : bool :=
  less (VNum (of_nat j)) maxRetries
  && match failure_of c (fn j) with
     | Some e => isRetryableError e
     | None => false
     end.

(** The loop gets as far as attempt [k]: every earlier attempt failed and
    was retried, and [k <= maxRetries]. *)
Definition reaches {T} (c : AIClient) (fn : nat -> Attempt T)
    (maxRetries : value) (k : nat) : Prop :=
  (forall j, (j < k)%nat -> retried c fn maxRetries j = true)
  /\ less_eq (VNum (of_nat k)) maxRetries = true.

(** The value of [this.config.maxRetries || 3]. *)
Definition retry_limit (c : AIClient) : value :=
  or_else (prop (cfg_maxRetries (c_config c))) (num: 3).

(** [(this.config.retryDelay || 1000) * Math.pow(2, attempt)] *)
Definition backoff (c : AIClient) (attempt : nat) : number :=
  num_mul (to_number (or_else (prop (cfg_retryDelay (c_config c))) (num: 1000)))
          (pow2 attempt).

(** The events of a failed attempt: the work is started, then every error
    hook is given the failure. *)
Definition failed_round {T} (c : AIClient) (fn : nat -> Attempt T) (j : nat)
    : list event :=
  fst (fn j)
  ++ dispatch EvErrorHook (errorHooks c) 0
       (match failure_of c (fn j) with Some e => e | None => undefined end).

(** The events of [n] failed attempts from attempt [a] on, each followed by
    its back-off sleep. *)
Fixpoint retried_rounds {T} (c : AIClient) (fn : nat -> Attempt T)
    (a n : nat) : list event :=
  match n with
  | O => []
  | S n' =>
      failed_round c fn a ++ EvSleep (backoff c a) :: retried_rounds c fn (S a) n'
  end.

Definition is_attempt (e : event) : bool :=
  match e with EvProviderChat _ _ => true | _ => false end.
Definition is_sleep (e : event) : bool :=
  match e with EvSleep _ => true | _ => false end.
Definition is_request_hook (e : event) : bool :=
  match e with EvRequestHook _ _ _ => true | _ => false end.
Definition is_response_hook (e : event) : bool :=
  match e with EvResponseHook _ _ => true | _ => false end.
Definition is_error_hook (e : event) : bool :=
  match e with EvErrorHook _ _ => true | _ => false end.

(** How many times the provider was called. *)
Definition attempts (t : list event) : nat := List.length (List.filter is_attempt t).

(** The [provider] and [model] properties of what a method returned. *)
Definition out_provider (o : TaskResult + ChatResult) : value :=
  match o with inl t => task_provider t | inr r => provider r end.
Definition out_model (o : TaskResult + ChatResult) : value :=
  match o with inl t => task_model t | inr r => model r end.

(** What the loop throws when it stops at the failure [error] of attempt
    [attempt]: the tail of the [catch] block. *)
Definition stop_error (c : AIClient) (maxRetries : value) (attempt : nat)
    (error : exn) : exn :=
  if strict_eq (VNum (of_nat attempt)) maxRetries then
    match get_message error with
    | inl type_error => type_error
    | inr message =>
        RetryError (MsgFailedAfter maxRetries message) maxRetries
                   (prop (cfg_provider (c_config c))) error
    end
  else error.

Module Spec.

(** The three places where a failure may carry an HTTP-style status. *)
Definition statuses (e : exn) : list value :=
  [get_status e; get_statusCode e; get_response_status e].

(** The status is the number 429. *)
Definition is_429 (v : value) : Prop :=
  match v with
  | VNum (Fin q) => (q == 429)%Q
  | _ => False
  end.

(** The status, read as a number, lies in [500, 600). *)
Definition is_5xx (v : value) : Prop :=
  match to_number v with
  | Fin q => (500 <= q)%Q /\ (q < 600)%Q
  | _ => False
  end.

Definition retryable_status (v : value) : Prop := is_429 v \/ is_5xx v.

Definition network_code (e : exn) : Prop :=
  get_code e = VStr "ECONNRESET" \/ get_code e = VStr "ETIMEDOUT"
  \/ get_code e = VStr "ENOTFOUND".

(** The classification as the specification words it: some status the
    failure carries is 429 or 5xx, or its code is a network code. *)
Definition retryable_as_specified (e : exn) : Prop :=
  (exists v, In v (statuses e) /\ retryable_status v) \/ network_code e.

(** The classification the code computes: the first truthy status decides
    alone; the code is consulted only when no status is truthy. *)
Definition retryable (e : exn) : Prop :=
  match List.find truthy (statuses e) with
  | Some v => retryable_status v
  | None => network_code e
  end.

(** [x] clamped to the interval [0, 1]. *)
Definition clamped (x y : number) : Prop :=
  match x, y with
  | Fin p, Fin q =>
      ((p < 0)%Q /\ q = 0%Q) \/ ((1 < p)%Q /\ q = 1%Q)
      \/ ((0 <= p)%Q /\ (p <= 1)%Q /\ (q == p)%Q)
  | Inf neg, Fin q => q = (if neg then 0 else 1)%Q
  | _, _ => False
  end.

Definition is_sentiment (s : string) : Prop :=
  s = "positive" \/ s = "neutral" \/ s = "negative".

(** The construction fails. *)
Definition fails {A} (m : Eff A) : Prop := exists e, result m = Thrown e.

(** The credential is missing or empty: no [apiKey], or [undefined],
    [null] or the empty string (a value of another type counts as empty
    when it is falsy). *)
Definition empty_credential (config : AIClientConfig) : Prop :=
  match cfg_apiKey config with
  | None | Some VUndefined | Some VNull => True
  | Some (VStr s) => s = ""
  | Some v => truthy v = false
  end.

(** A property is filled in: the stored configuration has the caller's
    value when the caller's object has the property, the default
    otherwise. *)
Definition filled_in (default : value) (given stored : option value) : Prop :=
  match given with
  | None => stored = Some default
  | Some v => stored = Some v
  end.

(** The provider identifier is one the client knows. *)
Definition recognized (p : value) : Prop := p = VStr "openai" \/ p = VStr "gemini".

End Spec.

(* ===================================================================== *)
(** ** Concrete clients *)
(* ===================================================================== *)

Module Example.

(** [{ status: 503, message: "Service Unavailable" }] *)
Definition unavailable : exn :=
  ExnObject ClassError (MsgValue (VStr "Service Unavailable"))
            (num: 503) VUndefined None VUndefined VUndefined VUndefined
            undefined.

(** [{ status: 400, message: "Bad Request" }] *)
Definition bad_request : exn :=
  ExnObject ClassError (MsgValue (VStr "Bad Request"))
            (num: 400) VUndefined None VUndefined VUndefined VUndefined
            undefined.

(** [{ status: 400, code: "ECONNRESET", message: "socket hang up" }] *)
Definition reset_after_400 : exn :=
  ExnObject ClassError (MsgValue (VStr "socket hang up"))
            (num: 400) VUndefined None (VStr "ECONNRESET") VUndefined
            VUndefined undefined.

(** A provider result without [model] and without [provider]. *)
Definition reply (text : string) : ChatResult :=
  {| content := text;
     tokensUsed := num: 12;
     model := VUndefined;
     finishReason := VStr "stop";
     provider := VUndefined |}.

(** A provider without [chatStream] that answers every call with [text]. *)
Definition answering (text : string) : LLMProvider :=
  {| chat := fun _ _ => Fulfilled (reply text); chatStream := None |}.

(** A provider whose every call is rejected with status 503. *)
Definition failing : LLMProvider :=
  {| chat := fun _ _ => Rejected unavailable; chatStream := None |}.

(** A provider rejecting the first call with status 503 and every later
    call with status 400. *)
Definition flaky : LLMProvider :=
  {| chat := fun k _ =>
               match k with
               | O => Rejected unavailable
               | S _ => Rejected bad_request
               end;
     chatStream := None |}.

(** A provider that never settles before the deadline. *)
Definition hanging : LLMProvider :=
  {| chat := fun _ _ => Pending; chatStream := None |}.

Definition sdk (p : LLMProvider) : Providers :=
  {| OpenAIProvider := fun _ _ _ => p; GeminiProvider := fun _ _ _ => p |}.

(** [{ provider: "openai", apiKey: "sk-test" }], with [maxRetries] when
    one is given. *)
Definition config (maxRetries : option value) : AIClientConfig :=
  {| cfg_provider := Some (VStr "openai");
     cfg_apiKey := Some (VStr "sk-test");
     cfg_model := None;
     cfg_temperature := None;
     cfg_maxTokens := None;
     cfg_baseUrl := None;
     cfg_timeout := None;
     cfg_maxRetries := maxRetries;
     cfg_retryDelay := None |}.

(** The client [new AIClient(config maxRetries)] builds, its provider
    replaced by [p] and one hook registered of each kind; the response
    hook throws. *)
Definition client (p : LLMProvider) (maxRetries : option value) : AIClient :=
  {| c_provider := p;
     c_config :=
       set_model (spread defaults (config maxRetries)) (VStr "gpt-4o-mini");
     requestHooks := [fun _ => Normal];
     responseHooks := [fun _ => Throws (ExnValue (VStr "hook failed"))];
     errorHooks := [fun _ => Normal] |}.

Definition hello : ChatPromptInput :=
  user_prompt "Hello" (VNum (Fin (7 # 10))) VUndefined.

(** [AI_PROVIDER=openai OPENAI_API_KEY=sk-test] and nothing else. *)
Definition env : gmap string string :=
  <["AI_PROVIDER" := "openai"]> (<["OPENAI_API_KEY" := "sk-test"]> ∅).

(** [chat([{ role: "user", content: "Hello" }])] *)
Definition greeting : request :=
  Chat [{| role := user; msg_content := "Hello" |}] None.

(** A client whose provider answers "Hi". *)
Definition responder : AIClient := client (answering "Hi") None.

(** A client with [maxRetries: 0] whose provider always fails with 503. *)
Definition no_retries : AIClient := client failing (Some (num: 0)).

(** A client with [maxRetries: 2] whose provider always fails with 503. *)
Definition two_retries : AIClient := client failing (Some (num: 2)).

(** A client with [maxRetries: 1] whose provider fails with 503, then
    with 400. *)
Definition one_retry_flaky : AIClient := client flaky (Some (num: 1)).

(** A client with the default [maxRetries] whose provider fails with 503,
    then with 400. *)
Definition default_flaky : AIClient := client flaky None.

(** A client with the default [maxRetries] whose provider never answers
    in time. *)
Definition timing_out : AIClient := client hanging None.

(** [{ provider: "anthropic", apiKey: "sk-test" }] *)
Definition unknown_provider : AIClientConfig :=
  {| cfg_provider := Some (VStr "anthropic");
     cfg_apiKey := Some (VStr "sk-test");
     cfg_model := None;
     cfg_temperature := None;
     cfg_maxTokens := None;
     cfg_baseUrl := None;
     cfg_timeout := None;
     cfg_maxRetries := None;
     cfg_retryDelay := None |}.

(** [new Error("boom")]: no status and no code. *)
Definition plain_error : exn :=
  ExnObject ClassError (MsgValue (VStr "boom"))
            VUndefined VUndefined None VUndefined VUndefined VUndefined
            undefined.

End Example.

(* ===================================================================== *)
(** ** src/prompts/presets.ts: PROMPT_TEMPLATES *)
(* ===================================================================== *)

(** The options objects of the templates, with the declared types of their
    properties: [None] is an absent (or [undefined]) property. *)
Record SummarizeOptions : Type := {
  so_length : option string;
  so_language : option string;
  so_tone : option string
}.

Record FixGrammarOptions : Type := {
  fo_keepTone : option bool;
  fo_language : option string
}.

Record TranslateOptions : Type := {
  to_sourceLanguage : option string;
  to_preserveFormatting : option bool
}.

Record RewriteOptions : Type := {
  ro_tone : option string;
  ro_preserveLength : option bool
}.

Record AnswerQuestionOptions : Type := { ao_maxLength : option number }.

Record SummarizeToBulletsOptions : Type := {
  bo_maxBullets : option number;
  bo_language : option string
}.

Record ExtractKeywordsOptions : Type := {
  ko_maxKeywords : option number;
  ko_minLength : option number
}.

Module PROMPT_TEMPLATES.

(** The line feed. *)
Definition nl : string := String "010" EmptyString.

(** The double quote. *)
Definition quote : string := String "034" EmptyString.

(** [options?.name] *)
Definition get {O A : Type} (options : option O) (name : O -> option A)
    : option A :=
  match options with
  | Some o => name o
  | None => None
  end.

(** [s || default] for a string or [undefined]. *)
Definition or_string (s : option string) (default : string) : string :=
  match s with
  | Some t => if nonempty t then t else default
  | None => default
  end.

(** [s ? f(s) : ""] for a string or [undefined]. *)
Definition with_string (s : option string) (f : string -> string) : string :=
  match s with
  | Some t => if nonempty t then f t else ""
  | None => ""
  end.

(** [b ? text : ""] for a boolean or [undefined]. *)
Definition with_flag (b : option bool) (text : string) : string :=
  match b with
  | Some true => text
  | _ => ""
  end.

Definition summarize (text : string) (options : option SummarizeOptions)
    : string :=
  let length := or_string (get options so_length) "medium" in
  let language :=
    with_string (get options so_language) (fun l => " in " +:+ l) in
  let tone :=
    with_string (get options so_tone)
                (fun t => " with a " +:+ t +:+ " tone") in
  "Please summarize the following text" +:+ language +:+ tone
  +:+ ". Make it " +:+ length +:+ " in length:" +:+ nl +:+ nl +:+ text.

Definition fixGrammar (text : string) (options : option FixGrammarOptions)
    : string :=
  (* options?.keepTone !== false *)
  let keepTone :=
    match get options fo_keepTone with Some false => false | _ => true end in
  let language :=
    with_string (get options fo_language)
                (fun l => " (language: " +:+ l +:+ ")") in
  "Please correct the grammar, spelling, and punctuation in the following text"
  +:+ language +:+ ". "
  +:+ (if keepTone then "Maintain the original tone and style." else "")
  +:+ nl +:+ nl +:+ text.

Definition translate (text targetLang : string)
    (options : option TranslateOptions) : string :=
  let source :=
    with_string (get options to_sourceLanguage) (fun s => " from " +:+ s) in
  let preserve :=
    with_flag (get options to_preserveFormatting)
              " Preserve formatting, line breaks, and structure." in
  "Translate the following text" +:+ source +:+ " to " +:+ targetLang
  +:+ "." +:+ preserve +:+ nl +:+ nl +:+ text.

Definition rewrite (text style : string) (options : option RewriteOptions)
    : string :=
  let tone :=
    with_string (get options ro_tone)
                (fun t => " with a " +:+ t +:+ " tone") in
  let preserve :=
    with_flag (get options ro_preserveLength)
              " Maintain approximately the same length." in
  "Rewrite the following text in a " +:+ style +:+ " style" +:+ tone
  +:+ "." +:+ preserve +:+ nl +:+ nl +:+ text.

Definition detectLanguage (text : string) : string :=
  "Detect the language of the following text and return only the ISO 639-1 language code (e.g., "
  +:+ quote +:+ "en" +:+ quote +:+ ", " +:+ quote +:+ "fr" +:+ quote
  +:+ ", " +:+ quote +:+ "es" +:+ quote +:+ "):" +:+ nl +:+ nl +:+ text.

Definition classifySentiment (text : string) : string :=
  "Classify the sentiment of the following text as "
  +:+ quote +:+ "positive" +:+ quote +:+ ", "
  +:+ quote +:+ "neutral" +:+ quote +:+ ", or "
  +:+ quote +:+ "negative" +:+ quote
  +:+ ". Return your response in the format: SENTIMENT|SCORE where SENTIMENT is one of the three options and SCORE is a number between 0 and 1:"
  +:+ nl +:+ nl +:+ text.

Section NumberToString.

(** [Number.prototype.toString], as used by [`${n}`]: a built-in, taken as
    given. *)
Variable toString : number -> string.

(** [n ? f(n) : ""] for a number or [undefined]. *)
Definition with_number (n : option number) (f : string -> string) : string :=
  match n with
  | Some x => if truthy (VNum x) then f (toString x) else ""
  | None => ""
  end.

Definition answerQuestion (context question : string)
    (options : option AnswerQuestionOptions) : string :=
  let maxLength :=
    with_number (get options ao_maxLength)
                (fun n => " (maximum " +:+ n +:+ " words)") in
  "Based on the following context, answer the question" +:+ maxLength
  +:+ ":" +:+ nl +:+ nl +:+ "Context:" +:+ nl +:+ context
  +:+ nl +:+ nl +:+ "Question: " +:+ question
  +:+ nl +:+ nl +:+ "Answer:".

Definition summarizeToBullets (text : string)
    (options : option SummarizeToBulletsOptions) : string :=
  let maxBullets :=
    with_number (get options bo_maxBullets)
                (fun n => " (maximum " +:+ n +:+ " bullets)") in
  let language :=
    with_string (get options bo_language) (fun l => " in " +:+ l) in
  "Summarize the following text into bullet points" +:+ maxBullets
  +:+ language +:+ ":" +:+ nl +:+ nl +:+ text.

Definition extractKeywords (text : string)
    (options : option ExtractKeywordsOptions) : string :=
  let maxKeywords :=
    with_number (get options ko_maxKeywords)
                (fun n => " (maximum " +:+ n +:+ " keywords)") in
  let minLength :=
    with_number (get options ko_minLength)
                (fun n => " (minimum " +:+ n +:+ " characters per keyword)") in
  "Extract the most important keywords or keyphrases from the following text"
  +:+ maxKeywords +:+ minLength
  +:+ ". Return only a comma-separated list of keywords:"
  +:+ nl +:+ nl +:+ text.

End NumberToString.

End PROMPT_TEMPLATES.

(* ===================================================================== *)
(** ** src/providers: what the adapters compute *)
(* ===================================================================== *)

Module Gemini.

(** [{ role, parts: [{ text }] }] *)
Record Content : Type := { g_role : string; g_text : string }.

(** The argument of [generateContent] / [generateContentStream]: each of
    [temperature], [maxOutputTokens] and [systemInstruction] is a property
    the object may lack. *)
Record Request : Type := {
  g_contents : list Content;
  g_temperature : option value;
  g_maxOutputTokens : option value;
  g_systemInstruction : option string
}.

(** One turn of [for (const msg of input.messages)]: the state is
    [contents] and [systemInstruction]. *)
Definition convert (state : list Content * option string) (msg : Message)
    : list Content * option string :=
  let '(contents, systemInstruction) := state in
  match role msg with
  | system =>
      (contents,
       Some (PROMPT_TEMPLATES.or_string systemInstruction ""
             +:+ msg_content msg +:+ PROMPT_TEMPLATES.nl))
  | user =>
      (contents ++ [{| g_role := "user"; g_text := msg_content msg |}],
       systemInstruction)
  | assistant =>
      (contents ++ [{| g_role := "model"; g_text := msg_content msg |}],
       systemInstruction)
  end.

(** [if (v !== undefined) config.name = v] *)
Definition defined (v : value) : option value :=
  match v with
  | VUndefined => None
  | _ => Some v
  end.

(** The request that [chat] and [chatStream] build from a chat input. *)
Definition request (input : ChatPromptInput) : Request :=
  let '(contents, systemInstruction) :=
    List.fold_left convert (messages input) ([], None) in
  {| g_contents := contents;
     g_temperature := defined (in_temperature input);
     g_maxOutputTokens := defined (in_maxTokens input);
     g_systemInstruction :=
       match systemInstruction with
       | Some s => if nonempty s then Some (trim s) else None
       | None => None
       end |}.

End Gemini.

Module OpenAI.

(** [response.choices[0]] seen through what [chat] reads: [message] is
    [None] when the choice has no message, otherwise the message's
    [content] ([None] for [null]). *)
Record Choice : Type := {
  message : option (option string);
  finish_reason : value
}.

(** The completion: [first_choice] is [response.choices[0]], [total_tokens]
    is [response.usage?.total_tokens], [used_model] is [response.model]. *)
Record Completion : Type := {
  first_choice : option Choice;
  total_tokens : value;
  used_model : value
}.

(** [new Error("No response from OpenAI")] *)
Definition no_response : exn :=
  ExnObject ClassError (MsgValue (VStr "No response from OpenAI"))
            VUndefined VUndefined None VUndefined VUndefined VUndefined
            undefined.

(** What [chat] does with the completion once the SDK call has returned. *)
Definition to_result (response : Completion) : exn + ChatResult :=
  match first_choice response with
  | Some choice =>
      match message choice with
      | Some message_content =>
          inr {| content := PROMPT_TEMPLATES.or_string message_content "";
                 tokensUsed := total_tokens response;
                 model := used_model response;
                 finishReason := or_else (finish_reason choice) VUndefined;
                 provider := VUndefined |}
      | None => inl no_response
      end
  | None => inl no_response
  end.

(** [chat]: the SDK call, then [to_result]. *)
Definition chat_outcome (call : settled Completion) : settled ChatResult :=
  match call with
  | Fulfilled response =>
      match to_result response with
      | inr r => Fulfilled r
      | inl e => Rejected e
      end
  | Rejected e => Rejected e
  | Pending => Pending
  end.

(** An [OpenAIProvider] over a given behaviour of the SDK: [create k input]
    is what the [k]-th call of [client.chat.completions.create] does. *)
Definition provider_over (create : nat -> ChatPromptInput -> settled Completion)
    (stream : ChatPromptInput -> chunks) : LLMProvider :=
  {| chat := fun k input => chat_outcome (create k input);
     chatStream := Some stream |}.

End OpenAI.

(* ===================================================================== *)
(** ** More vocabulary *)
(* ===================================================================== *)

(** The back-off delays slept, in order. *)
Fixpoint sleeps (t : list event) : list number :=
  match t with
  | [] => []
  | EvSleep ms :: rest => ms :: sleeps rest
  | _ :: rest => sleeps rest
  end.

(** The inputs the provider was called with, in order. *)
Fixpoint sent (t : list event) : list ChatPromptInput :=
  match t with
  | [] => []
  | EvProviderChat _ input :: rest => input :: sent rest
  | _ :: rest => sent rest
  end.

(** The chunks handed to the consumer, in order. *)
Fixpoint yielded (t : list event) : list ChatStreamChunk :=
  match t with
  | [] => []
  | EvYield chunk :: rest => chunk :: yielded rest
  | _ :: rest => yielded rest
  end.

(** What the engine does apart from calling hooks: provider calls and
    sleeps. *)
Definition is_engine_step (e : event) : bool := is_attempt e || is_sleep e.

(** The chunks a stream delivers before it ends or fails, and the failure
    if it fails. *)
Fixpoint delivered (s : chunks) : list ChatStreamChunk :=
  match s with
  | StreamChunk chunk rest => chunk :: delivered rest
  | _ => []
  end.

Fixpoint failure (s : chunks) : option exn :=
  match s with
  | StreamChunk _ rest => failure rest
  | StreamError e => Some e
  | StreamEnd => None
  end.

(** Two clients with the same provider and the same stored configuration:
    they differ in their hook registries only. *)
Definition same_setup (c c' : AIClient) : Prop :=
  c_provider c = c_provider c' /\ c_config c = c_config c'.

(** A string without the character [ch]. *)
Fixpoint lacks (ch : ascii) (s : string) : bool :=
  match s with
  | EmptyString => true
  | String a s' => negb (Ascii.eqb a ch) && lacks ch s'
  end.

(** [parts.join(", ")] *)
Fixpoint join_comma (parts : list string) : string :=
  match parts with
  | [] => ""
  | [p] => p
  | p :: rest => p +:+ ", " +:+ join_comma rest
  end.

(** A well-formed keyword: not empty, no comma, no white space at either
    end. *)
Definition keyword (k : string) : Prop :=
  k <> "" /\ lacks "," k = true /\ trim k = k.

(** [s] ends with [suffix]. *)
Definition ends_with (suffix s : string) : Prop :=
  exists prefix, s = prefix +:+ suffix.

(** The messages of a given role, and the others, in order. *)
Definition is_system (m : Message) : bool :=
  match role m with system => true | _ => false end.

(** A chat message as Gemini content: the assistant speaks as "model",
    anyone else as "user". *)
Definition gemini_content (m : Message) : Gemini.Content :=
  {| Gemini.g_role := match role m with assistant => "model" | _ => "user" end;
     Gemini.g_text := msg_content m |}.

(** The contents of the system messages, each followed by a line feed. *)
Fixpoint system_text (msgs : list Message) : string :=
  match msgs with
  | [] => ""
  | m :: rest =>
      if is_system m
      then msg_content m +:+ PROMPT_TEMPLATES.nl +:+ system_text rest
      else system_text rest
  end.

(* ===================================================================== *)
(** ** Further scenarios *)
(* ===================================================================== *)

Module Scenario.

(** A provider whose every call is rejected with status 400. *)
Definition rejecting : LLMProvider :=
  {| chat := fun _ _ => Rejected Example.bad_request; chatStream := None |}.

(** A provider rejecting the first call with status 503 and answering
    every later call with "Hi". *)
Definition recovering : LLMProvider :=
  {| chat := fun k _ =>
               match k with
               | O => Rejected Example.unavailable
               | S _ => Fulfilled (Example.reply "Hi")
               end;
     chatStream := None |}.

Definition hel : ChatStreamChunk := {| chunk_content := "Hel"; done := false |}.
Definition lo : ChatStreamChunk := {| chunk_content := "lo"; done := true |}.

(** A provider streaming "Hel", "lo". *)
Definition streaming : LLMProvider :=
  {| chat := fun _ _ => Fulfilled (Example.reply "Hello");
     chatStream := Some (fun _ => StreamChunk hel (StreamChunk lo StreamEnd)) |}.

(** A provider whose stream breaks with status 503 after "Hel". *)
Definition breaking : LLMProvider :=
  {| chat := fun _ _ => Fulfilled (Example.reply "Hello");
     chatStream :=
       Some (fun _ => StreamChunk hel (StreamError Example.unavailable)) |}.

(** [{ choices: [], model: "gpt-4o-mini" }] *)
Definition empty_completion : OpenAI.Completion :=
  {| OpenAI.first_choice := None;
     OpenAI.total_tokens := VUndefined;
     OpenAI.used_model := VStr "gpt-4o-mini" |}.

(** The SDK answering every call with the empty completion. *)
Definition create (k : nat) (input : ChatPromptInput)
    : settled OpenAI.Completion :=
  Fulfilled empty_completion.

Definition no_stream (input : ChatPromptInput) : chunks := StreamEnd.

(** [AI_PROVIDER=openai OPENAI_API_KEY=sk-test AI_MAX_RETRIES=5] *)
Definition env : gmap string string :=
  <["AI_MAX_RETRIES" := "5"]> Example.env.

(** A conversation with a system message. *)
Definition conversation : list Message :=
  [{| role := system; msg_content := "Be brief." |};
   {| role := user; msg_content := "Hello" |}].

End Scenario.

(* ===================================================================== *)
(** ** Basic facts *)
(* ===================================================================== *)

Unset Implicit Arguments.

Section NumberFacts.

Lemma compare_of_Z (a b : Z) :
  num_compare (of_Z a) (of_Z b) = Some (Z.compare a b).
Proof.
  unfold of_Z, num_compare, Qcompare, inject_Z. simpl.
  now rewrite !Z.mul_1_r.
Qed.

Lemma less_of_nat (j : nat) (z : Z) :
  less (VNum (of_nat j)) (num: z) = (Z.of_nat j <? z)%Z.
Proof.
  unfold less, num_ltb, of_nat. cbn [to_number]. rewrite compare_of_Z.
  unfold Z.ltb. now destruct (Z.of_nat j ?= z)%Z.
Qed.

Lemma less_eq_of_nat (j : nat) (z : Z) :
  less_eq (VNum (of_nat j)) (num: z) = (Z.of_nat j <=? z)%Z.
Proof.
  unfold less_eq, num_leb, of_nat. cbn [to_number]. rewrite compare_of_Z.
  unfold Z.leb. now destruct (Z.of_nat j ?= z)%Z.
Qed.

Lemma strict_eq_of_nat (j : nat) (z : Z) :
  strict_eq (VNum (of_nat j)) (num: z) = (Z.of_nat j =? z)%Z.
Proof.
  unfold strict_eq, num_eqb, of_nat. rewrite compare_of_Z, Z.eqb_compare.
  now destruct (Z.of_nat j ?= z)%Z.
Qed.

Lemma truthy_of_Z (z : Z) : truthy (num: z) = negb (z =? 0)%Z.
Proof.
  unfold truthy, num_is_zero, num_eqb. rewrite compare_of_Z, Z.eqb_compare.
  now destruct (z ?= 0)%Z.
Qed.

(** [a < b] excludes [a === b], whatever [b] is. *)
Lemma less_not_strict_eq (a : number) (b : value) :
  less (VNum a) b = true -> strict_eq (VNum a) b = false.
Proof.
  unfold less, strict_eq, num_ltb, num_eqb.
  destruct b as [| | x | n | s]; simpl; try reflexivity.
  now destruct (num_compare a n) as [[]|].
Qed.

(** [a < b] implies [a <= b]. *)
Lemma less_less_eq (a b : value) : less a b = true -> less_eq a b = true.
Proof.
  unfold less, less_eq, num_ltb, num_leb.
  now destruct (num_compare (to_number a) (to_number b)) as [[]|].
Qed.

(** [a === b] implies [a <= b] for a number [a] that is not NaN. *)
Lemma strict_eq_less_eq (a : number) (b : value) :
  strict_eq (VNum a) b = true -> less_eq (VNum a) b = true.
Proof.
  unfold strict_eq, less_eq, num_eqb, num_leb.
  destruct b as [| | x | n | s]; simpl; try discriminate.
  now destruct (num_compare a n) as [[]|].
Qed.

End NumberFacts.

(* ===================================================================== *)
(** ** The retry classification *)
(* ===================================================================== *)

Section Classification.

Lemma first_truthy (a b d : value) :
  List.find truthy [a; b; d]
  = if truthy (or_else (or_else a b) d)
    then Some (or_else (or_else a b) d) else None.
Proof.
  unfold or_else. cbn [List.find].
  destruct (truthy a) eqn:Ha, (truthy b) eqn:Hb, (truthy d) eqn:Hd;
    repeat (cbn; rewrite ?Ha, ?Hb, ?Hd); reflexivity.
Qed.

Lemma strict_eq_429 (v : value) :
  strict_eq v (num: 429) = true <-> Spec.is_429 v.
Proof.
  destruct v as [| | b | [|q|neg] | s]; simpl; try (split; [discriminate|tauto]).
  - unfold num_eqb. simpl. rewrite Qeq_alt.
    destruct (q ?= inject_Z 429)%Q eqn:E; try (split; [discriminate|]);
      try tauto; intros H; unfold inject_Z in *; simpl in *; congruence.
  - unfold num_eqb. simpl. destruct neg; split; (discriminate || tauto).
Qed.

Lemma status_5xx_decide (v : value) :
  greater_eq v (num: 500) && less v (num: 600) = true <-> Spec.is_5xx v.
Proof.
  unfold greater_eq, less, num_geb, num_leb, num_ltb, Spec.is_5xx.
  cbn [to_number]. destruct (to_number v) as [|q|neg]; simpl.
  - split; [discriminate | tauto].
  - rewrite Qle_alt, Qlt_alt. unfold of_Z.
    change (inject_Z 500) with 500%Q. change (inject_Z 600) with 600%Q.
    destruct (500 ?= q)%Q, (q ?= 600)%Q; simpl; split;
      try discriminate; try (intros [H1 H2]; congruence);
      try (intros _; split; congruence).
  - destruct neg; simpl; split; try discriminate; tauto.
Qed.

Lemma strict_eq_string (v : value) (s : string) :
  strict_eq v (VStr s) = true <-> v = VStr s.
Proof.
  destruct v as [| | b | n | t]; simpl; try (split; discriminate).
  rewrite String.eqb_eq. split; congruence.
Qed.

Lemma retryable_status_decide (v : value) :
  strict_eq v (num: 429) || (greater_eq v (num: 500) && less v (num: 600)) = true
  <-> Spec.retryable_status v.
Proof.
  unfold Spec.retryable_status.
  rewrite orb_true_iff, strict_eq_429, status_5xx_decide. reflexivity.
Qed.

Lemma network_code_decide (e : exn) :
  (if strict_eq (get_code e) (VStr "ECONNRESET")
      || strict_eq (get_code e) (VStr "ETIMEDOUT")
      || strict_eq (get_code e) (VStr "ENOTFOUND")
   then true else false) = true
  <-> Spec.network_code e.
Proof.
  unfold Spec.network_code.
  rewrite <- !strict_eq_string.
  destruct (strict_eq (get_code e) (VStr "ECONNRESET")),
           (strict_eq (get_code e) (VStr "ETIMEDOUT")),
           (strict_eq (get_code e) (VStr "ENOTFOUND")); simpl;
    intuition discriminate.
Qed.

(** A primitive carries no status and no code. *)
Lemma primitive_not_retryable (v : value) : isRetryableError (ExnValue v) = false.
Proof. unfold isRetryableError. simpl. now destruct (truthy v). Qed.

Lemma isRetryableError_retryable (e : exn) :
  isRetryableError e = true <-> Spec.retryable e.
Proof.
  unfold Spec.retryable, Spec.statuses. rewrite first_truthy.
  destruct e as [v | cls m s sc r cd p rt o].
  - rewrite primitive_not_retryable. simpl.
    unfold Spec.network_code. simpl. intuition discriminate.
  - unfold isRetryableError. cbn [falsy].
    destruct (truthy _) eqn:Ht.
    + apply retryable_status_decide.
    + apply network_code_decide.
Qed.

End Classification.

(* ===================================================================== *)
(** ** The retry engine *)
(* ===================================================================== *)

Section RetryEngine.

Context {T : Type}.
Variable c : AIClient.
Variable fn : nat -> Attempt T.
Variable operation : string.
Variable maxRetries : value.

Local Opaque strict_eq less less_eq isRetryableError get_message dispatch.

Lemma executeWithTimeout_trace (a : Attempt T) :
  trace (executeWithTimeout c a) = fst a.
Proof. unfold executeWithTimeout. now destruct a as [t [r|e|]]. Qed.

Lemma executeWithTimeout_never_out_of_fuel (a : Attempt T) :
  result (executeWithTimeout c a) <> OutOfFuel.
Proof. unfold executeWithTimeout. now destruct a as [t [r|e|]]. Qed.

(** An attempt whose promise is pending when the timer fires fails with
    the guard's TimeoutError. *)
Lemma failure_of_pending (t : list event) :
  failure_of c ((t, Pending) : Attempt T)
  = Some (TimeoutError
            (MsgTimedOut (or_else (prop (cfg_timeout (c_config c))) (num: 30000)))
            (prop (cfg_provider (c_config c)))).
Proof. reflexivity. Qed.

Lemma failure_of_rejected (t : list event) (e : exn) :
  failure_of c ((t, Rejected e) : Attempt T) = Some e.
Proof. reflexivity. Qed.

Lemma failure_of_fulfilled (t : list event) (r : T) :
  failure_of c ((t, Fulfilled r) : Attempt T) = None.
Proof. reflexivity. Qed.

(** One round in which the work succeeds. *)
Lemma retry_loop_success fuel last k r :
  less_eq (VNum (of_nat k)) maxRetries = true ->
  snd (fn k) = Fulfilled r ->
  retry_loop (S fuel) c fn operation maxRetries last k
  = (fst (fn k), Returned r).
Proof.
  intros Hle Hr. cbn [retry_loop]. rewrite Hle.
  destruct (fn k) as [t s]. simpl in Hr. subst s. reflexivity.
Qed.

(** One round in which the work fails and the loop goes on. *)
Lemma retry_loop_retry fuel last k :
  retried c fn maxRetries k = true ->
  exists last',
    retry_loop (S fuel) c fn operation maxRetries last k
    = (failed_round c fn k ++ EvSleep (backoff c k)
         :: trace (retry_loop fuel c fn operation maxRetries last' (S k)),
       result (retry_loop fuel c fn operation maxRetries last' (S k))).
Proof.
  unfold retried, failed_round, failure_of. intros H.
  apply andb_true_iff in H as [Hlt H].
  cbn [retry_loop]. rewrite (less_less_eq _ _ Hlt).
  destruct (fn k) as [t [r|e|]]; cbn in *; try discriminate.
  - exists e. rewrite Hlt, H. cbn.
    destruct (retry_loop fuel c fn operation maxRetries e (S k)) as [t' o].
    cbn. rewrite <- app_assoc. reflexivity.
Qed.

(** One round in which the work fails and the loop stops. *)
Lemma retry_loop_stop fuel last k e :
  less_eq (VNum (of_nat k)) maxRetries = true ->
  failure_of c (fn k) = Some e ->
  less (VNum (of_nat k)) maxRetries && isRetryableError e = false ->
  retry_loop (S fuel) c fn operation maxRetries last k
  = (failed_round c fn k, Thrown (stop_error c maxRetries k e)).
Proof.
  unfold failed_round, failure_of, stop_error. intros Hle He Hstop.
  cbn [retry_loop]. rewrite Hle.
  destruct (fn k) as [t [r|e'|]]; cbn in *; try discriminate.
  - injection He as ->. rewrite Hstop.
    destruct (strict_eq (VNum (of_nat k)) maxRetries).
    + destruct (get_message e); cbn; now rewrite ?app_nil_r.
    + cbn. now rewrite ?app_nil_r.
  - injection He as <-. rewrite Hstop.
    destruct (strict_eq (VNum (of_nat k)) maxRetries).
    + destruct (get_message _); cbn; now rewrite ?app_nil_r.
    + cbn. now rewrite ?app_nil_r.
Qed.

(** [n] rounds of failure and retry, from attempt [a] on. *)
Lemma retry_loop_rounds n : forall fuel last a,
  (forall j, (a <= j < a + n)%nat -> retried c fn maxRetries j = true) ->
  exists last',
    retry_loop (n + fuel) c fn operation maxRetries last a
    = (retried_rounds c fn a n
         ++ trace (retry_loop fuel c fn operation maxRetries last' (a + n)),
       result (retry_loop fuel c fn operation maxRetries last' (a + n))).
Proof.
  induction n as [|n IH]; intros fuel last a H.
  - exists last. rewrite Nat.add_0_r. cbn [Nat.add retried_rounds app].
    now destruct (retry_loop fuel c fn operation maxRetries last a).
  - destruct (retry_loop_retry (n + fuel) last a) as [l1 E1].
    { apply H. lia. }
    destruct (IH fuel l1 (S a)) as [l2 E2].
    { intros j Hj. apply H. lia. }
    exists l2. cbn [Nat.add retried_rounds]. rewrite E1, E2.
    unfold trace, result. cbn [fst snd].
    replace (a + S n)%nat with (S a + n)%nat by lia.
    now rewrite <- app_assoc.
Qed.

(** A run that gets as far as attempt [k] consists of [k] retried rounds
    followed by whatever the loop does from attempt [k] on. *)
Lemma run_reaches fuel k :
  reaches c fn maxRetries k ->
  exists last,
    retry_loop (k + fuel) c fn operation maxRetries undefined 0
    = (retried_rounds c fn 0 k
         ++ trace (retry_loop fuel c fn operation maxRetries last k),
       result (retry_loop fuel c fn operation maxRetries last k)).
Proof.
  intros [Hk _].
  destruct (retry_loop_rounds k fuel undefined 0) as [last E].
  { intros j Hj. apply Hk. lia. }
  exists last. exact E.
Qed.

(** The run stops at attempt [k] when that attempt fails and is not
    retried. *)
Lemma run_stops fuel k e :
  reaches c fn maxRetries k ->
  failure_of c (fn k) = Some e ->
  less (VNum (of_nat k)) maxRetries && isRetryableError e = false ->
  (k < fuel)%nat ->
  retry_loop fuel c fn operation maxRetries undefined 0
  = (retried_rounds c fn 0 k ++ failed_round c fn k,
     Thrown (stop_error c maxRetries k e)).
Proof.
  intros Hr He Hstop Hfuel.
  replace fuel with (k + S (fuel - S k))%nat by lia.
  destruct (run_reaches (S (fuel - S k)) k Hr) as [last ->].
  rewrite (retry_loop_stop _ last k e (proj2 Hr) He Hstop). reflexivity.
Qed.

(** The run ends at attempt [k] when that attempt succeeds. *)
Lemma run_succeeds fuel k r :
  reaches c fn maxRetries k ->
  snd (fn k) = Fulfilled r ->
  (k < fuel)%nat ->
  retry_loop fuel c fn operation maxRetries undefined 0
  = (retried_rounds c fn 0 k ++ fst (fn k), Returned r).
Proof.
  intros Hr He Hfuel.
  replace fuel with (k + S (fuel - S k))%nat by lia.
  destruct (run_reaches (S (fuel - S k)) k Hr) as [last ->].
  rewrite (retry_loop_success _ last k r (proj2 Hr) He). reflexivity.
Qed.

End RetryEngine.

(* ===================================================================== *)
(** ** Hook dispatch and the events of a call *)
(* ===================================================================== *)

Section Dispatch.

Context {A : Type}.
Variable ev : nat -> A -> event.

(** Every registered hook is called once, in registration order, with
    the same argument, whether or not earlier hooks threw. *)
Lemma dispatch_calls (hooks : list (A -> completion)) : forall i arg,
  dispatch ev hooks i arg
  = List.map (fun j => ev j arg) (seq i (List.length hooks)).
Proof.
  induction hooks as [|h hooks IH]; intros i arg; [reflexivity|].
  cbn [dispatch List.length seq List.map].
  destruct (h arg); now rewrite IH.
Qed.

Lemma dispatch_filter (keep : event -> bool) (b : bool) hooks i arg :
  (forall j x, keep (ev j x) = b) ->
  List.filter keep (dispatch ev hooks i arg)
  = if b then dispatch ev hooks i arg else [].
Proof.
  intros H. rewrite dispatch_calls.
  induction (seq i (List.length hooks)) as [|j l IH]; cbn.
  - now destruct b.
  - rewrite H, IH. now destruct b.
Qed.

Lemma dispatch_In hooks i arg e :
  In e (dispatch ev hooks i arg) -> exists j, e = ev j arg.
Proof.
  rewrite dispatch_calls, in_map_iff. intros (j & <- & _). now exists j.
Qed.

End Dispatch.

Section ChatRuns.

Variable c : AIClient.
Variable input : ChatPromptInput.

Let fn := chat_work c input.

Lemma failed_round_chat k :
  failed_round c fn k
  = EvProviderChat k input
      :: dispatch EvErrorHook (errorHooks c) 0
           (match failure_of c (fn k) with Some e => e | None => undefined end).
Proof. reflexivity. Qed.

Lemma attempts_app t1 t2 : attempts (t1 ++ t2) = (attempts t1 + attempts t2)%nat.
Proof. unfold attempts. now rewrite List.filter_app, List.length_app. Qed.

Lemma attempts_dispatch_error hooks i e :
  attempts (dispatch EvErrorHook hooks i e) = 0%nat.
Proof.
  unfold attempts. now rewrite (dispatch_filter EvErrorHook is_attempt false).
Qed.

Lemma attempts_failed_round k : attempts (failed_round c fn k) = 1%nat.
Proof.
  rewrite failed_round_chat. unfold attempts. cbn [List.filter is_attempt].
  cbn [List.length]. f_equal. apply attempts_dispatch_error.
Qed.

Lemma attempts_retried_rounds n : forall a,
  attempts (retried_rounds c fn a n) = n.
Proof.
  induction n as [|n IH]; intros a; [reflexivity|].
  cbn [retried_rounds]. rewrite attempts_app, attempts_failed_round.
  change (EvSleep (backoff c a) :: retried_rounds c fn (S a) n)
    with ([EvSleep (backoff c a)] ++ retried_rounds c fn (S a) n).
  rewrite attempts_app, IH. reflexivity.
Qed.

(** Every error-hook call in the retried rounds passes the failure of one
    of those attempts, and that failure is retryable. *)
Lemma retried_rounds_error_hooks mr n : forall a i x,
  (forall j, (a <= j < a + n)%nat -> retried c fn mr j = true) ->
  In (EvErrorHook i x) (retried_rounds c fn a n) ->
  exists j, (a <= j < a + n)%nat /\ failure_of c (fn j) = Some x
            /\ isRetryableError x = true.
Proof.
  induction n as [|n IH]; intros a i x Hr H; [contradiction|].
  cbn [retried_rounds] in H. rewrite failed_round_chat in H.
  apply in_app_or in H as [H|H].
  - destruct H as [H|H]; [discriminate|].
    apply dispatch_In in H as [j H]. injection H as -> Hx.
    exists a. split; [lia|].
    assert (Ha : retried c fn mr a = true) by (apply Hr; lia).
    unfold retried in Ha. apply andb_true_iff in Ha as [_ Ha].
    destruct (failure_of c (fn a)) as [e|]; [|discriminate].
    now subst x.
  - destruct H as [H|H]; [discriminate|].
    destruct (IH (S a) i x) as (j & Hj & Hf & Hx); [|exact H|].
    + intros j Hj. apply Hr. lia.
    + exists j. split; [lia|]. now split.
Qed.

Lemma failed_round_error_hooks k i x :
  In (EvErrorHook i x) (failed_round c fn k) ->
  forall e, failure_of c (fn k) = Some e -> x = e.
Proof.
  rewrite failed_round_chat. intros [H|H] e He; [discriminate|].
  apply dispatch_In in H as [j H]. injection H as -> Hx.
  now rewrite He in Hx.
Qed.

(** No back-off sleep and no provider call among error-hook calls. *)
Lemma dispatch_error_quiet hooks i e :
  Forall (fun ev => is_error_hook ev = true)
         (dispatch EvErrorHook hooks i e).
Proof.
  rewrite dispatch_calls. apply List.Forall_forall. intros ev H.
  apply in_map_iff in H as (j & <- & _). reflexivity.
Qed.

(** A retryable failure is an object, so its [message] can be read. *)
Lemma retryable_has_message e :
  isRetryableError e = true -> exists m, get_message e = inr m.
Proof.
  destruct e as [v|cls m s sc r cd p rt o]; intros H.
  - now rewrite primitive_not_retryable in H.
  - now exists m.
Qed.

(** An error built by [new RetryError(..)] is never retryable. *)
Lemma RetryError_not_retryable m r p e :
  isRetryableError (RetryError m r p e) = false.
Proof. reflexivity. Qed.

(** An error built by [new TimeoutError(..)] is never retryable. *)
Lemma TimeoutError_not_retryable m p :
  isRetryableError (TimeoutError m p) = false.
Proof. reflexivity. Qed.

(** A RetryError is not the error it wraps. *)
Lemma RetryError_fresh m r p e : RetryError m r p e <> e.
Proof.
  intros H. apply (f_equal depth) in H. cbn in H. lia.
Qed.

End ChatRuns.

(* ===================================================================== *)
(** ** Properties of the retry engine *)
(* ===================================================================== *)

Lemma retry_limit_of_nat (c : AIClient) (N : nat) :
  cfg_maxRetries (c_config c) = Some (num: (Z.of_nat N)) ->
  retry_limit c = num: (Z.of_nat (match N with O => 3 | S _ => N end)).
Proof.
  intros H. unfold retry_limit, or_else. rewrite H. cbn [prop].
  rewrite truthy_of_Z. destruct N; [reflexivity|].
  now replace (Z.of_nat (S N) =? 0)%Z with false by (symmetry; apply Z.eqb_neq; lia).
Qed.

(** C3. With [maxRetries] configured to [N] and a provider whose every
    attempt fails with a retryable failure, [executeWithRetry] calls the
    provider exactly [L + 1] times and then throws a RetryError that wraps
    the failure of the last attempt and carries [retries = L] and the
    configured provider name, where [L] is [N] for [N >= 1] -- but [L] is 3
    for [N = 0], because the loop bound is [this.config.maxRetries || 3]. *)
Theorem retry_exhaustion (c : AIClient) (input : ChatPromptInput) (N fuel : nat) :
  cfg_maxRetries (c_config c) = Some (num: (Z.of_nat N)) ->
  (forall k, exists e, failure_of c (chat_work c input k) = Some e
                       /\ isRetryableError e = true) ->
  let L := match N with O => 3%nat | S _ => N end in
  (L < fuel)%nat ->
  let run := executeWithRetry fuel c (chat_work c input) "chat" in
  attempts (trace run) = S L
  /\ exists e m,
       failure_of c (chat_work c input L) = Some e
       /\ get_message e = inr m
       /\ result run
          = Thrown (RetryError (MsgFailedAfter (num: (Z.of_nat L)) m)
                               (num: (Z.of_nat L))
                               (prop (cfg_provider (c_config c))) e).
Proof.
  intros HN Hfail L Hfuel run.
  pose proof (retry_limit_of_nat c N HN) as Hlim. fold L in Hlim.
  assert (Hreach : reaches c (chat_work c input) (retry_limit c) L).
  { rewrite Hlim. split.
    - intros j Hj. unfold retried. rewrite less_of_nat.
      destruct (Hfail j) as (e & -> & ->).
      apply andb_true_iff. split; [apply Z.ltb_lt; lia | reflexivity].
    - rewrite less_eq_of_nat. apply Z.leb_le. lia. }
  destruct (Hfail L) as (e & He & Hretry).
  destruct (retryable_has_message e Hretry) as [m Hm].
  assert (Hrun : run = (retried_rounds c (chat_work c input) 0 L
                          ++ failed_round c (chat_work c input) L,
                        Thrown (stop_error c (retry_limit c) L e))).
  { apply run_stops; trivial.
    rewrite Hlim, less_of_nat.
    now replace (Z.of_nat L <? Z.of_nat L)%Z with false
      by (symmetry; apply Z.ltb_ge; lia). }
  rewrite Hrun. cbn [trace result fst snd]. split.
  - rewrite attempts_app, attempts_retried_rounds, attempts_failed_round. lia.
  - exists e, m. repeat split; trivial.
    unfold stop_error. rewrite Hlim, strict_eq_of_nat, Z.eqb_refl, Hm.
    reflexivity.
Qed.

(** C2 (amended). When the run gets as far as attempt [k] and that attempt
    fails with a failure classified non-retryable, the provider is not
    called again. The original error propagates unchanged if [k] is not the
    loop bound; when [k === maxRetries] (the last permitted attempt) the
    failure is wrapped in a RetryError all the same. *)
Theorem non_retryable_stops (c : AIClient) (input : ChatPromptInput)
    (fuel k : nat) (e : exn) :
  reaches c (chat_work c input) (retry_limit c) k ->
  failure_of c (chat_work c input k) = Some e ->
  isRetryableError e = false ->
  (k < fuel)%nat ->
  let run := executeWithRetry fuel c (chat_work c input) "chat" in
  attempts (trace run) = S k
  /\ (strict_eq (VNum (of_nat k)) (retry_limit c) = false ->
      result run = Thrown e)
  /\ (strict_eq (VNum (of_nat k)) (retry_limit c) = true ->
      forall m, get_message e = inr m ->
      result run
      = Thrown (RetryError (MsgFailedAfter (retry_limit c) m) (retry_limit c)
                           (prop (cfg_provider (c_config c))) e)).
Proof.
  intros Hreach He Hno Hfuel run.
  assert (Hrun : run = (retried_rounds c (chat_work c input) 0 k
                          ++ failed_round c (chat_work c input) k,
                        Thrown (stop_error c (retry_limit c) k e))).
  { apply run_stops; trivial. rewrite Hno. apply andb_false_r. }
  rewrite Hrun. cbn [trace result fst snd]. unfold stop_error. repeat split.
  - rewrite attempts_app, attempts_retried_rounds, attempts_failed_round. lia.
  - now intros ->.
  - now intros -> m ->.
Qed.

(** C5. The TimeoutError of the timeout guard has no [status], no
    [statusCode], no [response] and no [code], and [isRetryableError]
    rejects it. When the run gets as far as attempt [k] and that attempt
    times out, the run ends there with an error: after the provider call of
    attempt [k] the trace holds the error-hook calls only -- no back-off
    sleep and no further provider call -- whatever the retry bound is. *)
Theorem timeout_not_retried (c : AIClient) (input : ChatPromptInput)
    (fuel k : nat) :
  reaches c (chat_work c input) (retry_limit c) k ->
  chat (c_provider c) k input = Pending ->
  (k < fuel)%nat ->
  let timeoutError :=
    TimeoutError
      (MsgTimedOut (or_else (prop (cfg_timeout (c_config c))) (num: 30000)))
      (prop (cfg_provider (c_config c))) in
  let run := executeWithRetry fuel c (chat_work c input) "chat" in
  (get_status timeoutError = VUndefined
   /\ get_statusCode timeoutError = VUndefined
   /\ get_response_status timeoutError = VUndefined
   /\ get_code timeoutError = VUndefined
   /\ isRetryableError timeoutError = false)
  /\ failure_of c (chat_work c input k) = Some timeoutError
  /\ trace run
     = retried_rounds c (chat_work c input) 0 k
       ++ EvProviderChat k input
          :: dispatch EvErrorHook (errorHooks c) 0 timeoutError
  /\ Forall (fun ev => is_sleep ev = false /\ is_attempt ev = false)
            (dispatch EvErrorHook (errorHooks c) 0 timeoutError)
  /\ attempts (trace run) = S k
  /\ exists error, result run = Thrown error.
Proof.
  intros Hreach Hpending Hfuel timeoutError run.
  assert (He : failure_of c (chat_work c input k) = Some timeoutError).
  { unfold chat_work. rewrite Hpending. reflexivity. }
  assert (Hrun : run = (retried_rounds c (chat_work c input) 0 k
                          ++ failed_round c (chat_work c input) k,
                        Thrown (stop_error c (retry_limit c) k timeoutError))).
  { apply run_stops; trivial. apply andb_false_r. }
  split; [repeat split|]. split; [exact He|].
  rewrite Hrun. cbn [trace result fst snd]. repeat split.
  - rewrite failed_round_chat, He. reflexivity.
  - eapply List.Forall_impl; [|apply dispatch_error_quiet].
    intros ev H. destruct ev; try discriminate. now split.
  - rewrite attempts_app, attempts_retried_rounds, attempts_failed_round. lia.
  - eexists. reflexivity.
Qed.

Lemma strict_eq_not_less (a : number) (b : value) :
  strict_eq (VNum a) b = true -> less (VNum a) b = false.
Proof.
  intros H. destruct (less (VNum a) b) eqn:E; [|reflexivity].
  apply less_not_strict_eq in E. congruence.
Qed.

(** One turn of the loop, by cases on what the attempt does. *)
Lemma retry_loop_cases {T} (c : AIClient) (fn : nat -> Attempt T)
    (operation : string) (mr : value) (fuel : nat) (last : exn) (a : nat) :
  let turn := retry_loop (S fuel) c fn operation mr last a in
  (less_eq (VNum (of_nat a)) mr = false /\ trace turn = [])
  \/ (exists r, failure_of c (fn a) = None /\ turn = (fst (fn a), Returned r))
  \/ (exists e, failure_of c (fn a) = Some e
                /\ turn = (failed_round c fn a, Thrown (stop_error c mr a e)))
  \/ (exists last',
        retried c fn mr a = true
        /\ turn
           = (failed_round c fn a ++ EvSleep (backoff c a)
                :: trace (retry_loop fuel c fn operation mr last' (S a)),
              result (retry_loop fuel c fn operation mr last' (S a)))).
Proof.
  intros turn. subst turn.
  destruct (less_eq (VNum (of_nat a)) mr) eqn:Hle.
  2: { left. split; [reflexivity|]. cbn [retry_loop]. now rewrite Hle. }
  right.
  destruct (failure_of c (fn a)) as [e|] eqn:He.
  - right.
    destruct (less (VNum (of_nat a)) mr && isRetryableError e) eqn:Hgo.
    + right.
      assert (Hr : retried c fn mr a = true) by (unfold retried; now rewrite He).
      destruct (retry_loop_retry c fn operation mr fuel last a Hr) as [l E].
      exists l. now split.
    + left. exists e. split; [reflexivity|].
      now apply retry_loop_stop.
  - left. unfold failure_of, executeWithTimeout in He.
    destruct (fn a) as [t [r|e|]] eqn:Hfn; cbn in He; try discriminate.
    exists r. split; [reflexivity|].
    rewrite <- Hfn. apply retry_loop_success; [exact Hle|].
    now rewrite Hfn.
Qed.

(** A run that gets as far as attempt [k], which fails, contains the
    events of that failed round. *)
Lemma run_failed_round {T} (c : AIClient) (fn : nat -> Attempt T)
    (operation : string) (mr : value) (fuel k : nat) (e : exn) :
  reaches c fn mr k ->
  failure_of c (fn k) = Some e ->
  (k < fuel)%nat ->
  exists rest,
    trace (retry_loop fuel c fn operation mr undefined 0)
    = retried_rounds c fn 0 k ++ failed_round c fn k ++ rest.
Proof.
  intros Hreach He Hfuel.
  replace fuel with (k + S (fuel - S k))%nat by lia.
  destruct (run_reaches c fn operation mr (S (fuel - S k)) k Hreach)
    as [last ->].
  cbn [trace fst]. unfold trace.
  destruct (retry_loop_cases c fn operation mr (fuel - S k) last k)
    as [[Hle _] | [(r & Hn & _) | [(e' & _ & E) | (l & _ & E)]]].
  - destruct Hreach as [_ Hle']. congruence.
  - congruence.
  - rewrite E. exists []. now rewrite app_nil_r.
  - rewrite E. eexists. reflexivity.
Qed.

Section ChatRunEvents.

Variable c : AIClient.
Variable input : ChatPromptInput.
Variable mr : value.

Local Abbreviation fn := (chat_work c input).

(** Every error-hook call of a run passes the failure of an attempt. *)
Lemma retry_loop_error_hooks fuel : forall last a i x,
  In (EvErrorHook i x) (trace (retry_loop fuel c fn "chat" mr last a)) ->
  exists j, failure_of c (fn j) = Some x.
Proof.
  induction fuel as [|fuel IH]; intros last a i x H; [contradiction|].
  destruct (retry_loop_cases c fn "chat" mr fuel last a)
    as [[_ E] | [(r & _ & E) | [(e & He & E) | (l & Hr & E)]]];
    rewrite E in H; cbn [trace fst] in H.
  - contradiction.
  - destruct H as [H|[]]. discriminate.
  - exists a. rewrite He. f_equal. symmetry.
    now apply (failed_round_error_hooks c input a i).
  - apply in_app_or in H as [H|[H|H]].
    + unfold retried in Hr. apply andb_true_iff in Hr as [_ Hr].
      destruct (failure_of c (fn a)) as [e|] eqn:He; [|discriminate].
      exists a. rewrite He. f_equal. symmetry.
      now apply (failed_round_error_hooks c input a i).
    + discriminate.
    + now apply (IH l (S a) i).
Qed.

(** The engine itself calls no request hook and no response hook. *)
Lemma retry_loop_events fuel : forall last a,
  Forall (fun ev => is_request_hook ev = false /\ is_response_hook ev = false)
         (trace (retry_loop fuel c fn "chat" mr last a)).
Proof.
  assert (Hround : forall a,
    Forall (fun ev => is_request_hook ev = false /\ is_response_hook ev = false)
           (failed_round c fn a)).
  { intros a. rewrite failed_round_chat. constructor; [now split|].
    eapply List.Forall_impl; [|apply dispatch_error_quiet].
    intros ev H. destruct ev; try discriminate. now split. }
  induction fuel as [|fuel IH]; intros last a; [constructor|].
  destruct (retry_loop_cases c fn "chat" mr fuel last a)
    as [[_ E] | [(r & _ & E) | [(e & He & E) | (l & Hr & E)]]];
    rewrite E; cbn [trace fst].
  - constructor.
  - constructor; [now split | constructor].
  - apply Hround.
  - apply Forall_app. split; [apply Hround|].
    constructor; [now split | apply IH].
Qed.

End ChatRunEvents.

(** C10. In every run of [executeWithRetry], each error-hook call passes
    the failure of one of the attempts as the [catch] clause received it:
    the rejection of the provider call, or the guard's TimeoutError when
    the attempt timed out; and every registered error hook is given the
    failure of every failed attempt the run gets to. When the run is
    exhausted at attempt [k], the trace ends with the error-hook calls for
    that attempt's failure, and the RetryError the loop then builds is
    given to no error hook. *)
Theorem error_hooks_receive_attempt_failures (c : AIClient)
    (input : ChatPromptInput) (fuel : nat) :
  let run := executeWithRetry fuel c (chat_work c input) "chat" in
  (forall i x, In (EvErrorHook i x) (trace run) ->
     exists j, failure_of c (chat_work c input j) = Some x)
  /\ (forall k, chat (c_provider c) k input = Pending ->
        failure_of c (chat_work c input k)
        = Some (TimeoutError
                  (MsgTimedOut
                     (or_else (prop (cfg_timeout (c_config c))) (num: 30000)))
                  (prop (cfg_provider (c_config c)))))
  /\ (forall k e, reaches c (chat_work c input) (retry_limit c) k ->
        failure_of c (chat_work c input k) = Some e ->
        (k < fuel)%nat ->
        forall i, (i < List.length (errorHooks c))%nat ->
        In (EvErrorHook i e) (trace run))
  /\ (forall k e m, reaches c (chat_work c input) (retry_limit c) k ->
        failure_of c (chat_work c input k) = Some e ->
        strict_eq (VNum (of_nat k)) (retry_limit c) = true ->
        get_message e = inr m ->
        (k < fuel)%nat ->
        let retryError :=
          RetryError (MsgFailedAfter (retry_limit c) m) (retry_limit c)
                     (prop (cfg_provider (c_config c))) e in
        result run = Thrown retryError
        /\ trace run
           = retried_rounds c (chat_work c input) 0 k
             ++ EvProviderChat k input
                :: dispatch EvErrorHook (errorHooks c) 0 e
        /\ forall i x, In (EvErrorHook i x) (trace run) -> x <> retryError).
Proof.
  intros run. split; [|split; [|split]].
  - intros i x. apply retry_loop_error_hooks.
  - intros k Hpending. unfold chat_work. now rewrite Hpending.
  - intros k e Hreach He Hfuel i Hi.
    destruct (run_failed_round c (chat_work c input) "chat" (retry_limit c)
                fuel k e Hreach He Hfuel) as [rest Hrun].
    subst run. unfold executeWithRetry. fold (retry_limit c). rewrite Hrun.
    apply in_or_app. right. apply in_or_app. left.
    rewrite failed_round_chat. right. rewrite He, dispatch_calls.
    apply in_map_iff. exists i. split; [reflexivity|].
    apply List.in_seq. unfold ErrorHook in *. lia.
  - intros k e m Hreach He Hlast Hm Hfuel retryError.
    assert (Hrun : run = (retried_rounds c (chat_work c input) 0 k
                            ++ failed_round c (chat_work c input) k,
                          Thrown (stop_error c (retry_limit c) k e))).
    { apply run_stops; trivial.
      now rewrite (strict_eq_not_less _ _ Hlast). }
    rewrite Hrun. cbn [trace result fst snd]. split; [|split].
    + unfold stop_error. now rewrite Hlast, Hm.
    + rewrite failed_round_chat. now rewrite He.
    + intros i x H. apply in_app_or in H as [H|H].
      * destruct (retried_rounds_error_hooks c input (retry_limit c) k 0 i x)
          as (j & _ & _ & Hx); trivial.
        { intros j Hj. apply (proj1 Hreach). lia. }
        intros ->. discriminate.
      * rewrite (failed_round_error_hooks c input k i x H e He).
        intros Heq. symmetry in Heq. now apply RetryError_fresh in Heq.
Qed.

(* ===================================================================== *)
(** ** The call path *)
(* ===================================================================== *)

Lemma callProvider_returned (fuel : nat) (c : AIClient)
    (input : ChatPromptInput) (r : ChatResult) :
  result (executeWithRetry fuel c (chat_work c input) "chat") = Returned r ->
  callProvider fuel c input
  = (dispatch request_event (requestHooks c) 0 (c_config c, input)
       ++ trace (executeWithRetry fuel c (chat_work c input) "chat")
       ++ dispatch EvResponseHook (responseHooks c) 0 r,
     Returned (decorate c r)).
Proof.
  unfold callProvider, bind, emit, ret, trace, result.
  destruct (executeWithRetry fuel c (chat_work c input) "chat") as [t o].
  cbn [fst snd]. intros ->. now rewrite app_nil_r.
Qed.

Lemma callProvider_thrown (fuel : nat) (c : AIClient)
    (input : ChatPromptInput) (e : exn) :
  result (executeWithRetry fuel c (chat_work c input) "chat") = Thrown e ->
  callProvider fuel c input
  = (dispatch request_event (requestHooks c) 0 (c_config c, input)
       ++ trace (executeWithRetry fuel c (chat_work c input) "chat"),
     Thrown e).
Proof.
  unfold callProvider, bind, emit, ret, trace, result.
  destruct (executeWithRetry fuel c (chat_work c input) "chat") as [t o].
  cbn [fst snd]. now intros ->.
Qed.

(** A method is [callProvider] on its input followed by a pure step. *)
Lemma invoke_callProvider (fuel : nat) (c : AIClient) (rq : request) :
  trace (invoke fuel c rq) = trace (callProvider fuel c (input_of c rq))
  /\ forall d, result (callProvider fuel c (input_of c rq)) = Returned d ->
       exists out, result (invoke fuel c rq) = Returned out
                   /\ out_provider out = provider d
                   /\ out_model out = model d.
Proof.
  destruct rq; cbn [invoke input_of];
    unfold summarize, fixGrammar, translate, answerQuestion, rewrite',
      summarizeToBullets, extractKeywords, detectLanguage, classifySentiment,
      customPrompt, client_chat, bind, ret, trace, result;
    match goal with
    | |- context [callProvider ?f ?c ?i] =>
        destruct (callProvider f c i) as [t [d'| |]]
    end; cbn [fst snd];
    try (destruct (parse_sentiment (content d')) as [s sc]);
    cbn [fst snd]; rewrite ?app_nil_r;
    (split; [reflexivity|]); intros d Hd; try discriminate;
    injection Hd as ->; eexists; (split; [reflexivity|]); now split.
Qed.

(** C1 (amended). For every chat-path method, when the provider call
    eventually succeeds with the result [r], each registered response hook
    is called exactly once, in registration order, and its argument is [r],
    the result as the provider returned it. The provider tag and the model
    fallback are attached afterwards, to the value handed back to the
    caller. *)
Theorem response_hooks_receive_provider_result (fuel : nat) (c : AIClient)
    (rq : request) (r : ChatResult) :
  result (executeWithRetry fuel c (chat_work c (input_of c rq)) "chat")
  = Returned r ->
  List.filter is_response_hook (trace (invoke fuel c rq))
  = List.map (fun i => EvResponseHook i r)
             (seq 0 (List.length (responseHooks c)))
  /\ exists out,
       result (invoke fuel c rq) = Returned out
       /\ out_provider out = prop (cfg_provider (c_config c))
       /\ out_model out = or_else (model r) (prop (cfg_model (c_config c))).
Proof.
  intros Hr.
  destruct (invoke_callProvider fuel c rq) as [Ht Hout].
  rewrite Ht, (callProvider_returned fuel c (input_of c rq) r Hr).
  cbn [trace fst]. split.
  - rewrite !List.filter_app.
    rewrite (dispatch_filter request_event is_response_hook false)
      by reflexivity.
    rewrite (dispatch_filter EvResponseHook is_response_hook true)
      by reflexivity.
    rewrite dispatch_calls. cbn [app].
    replace (List.filter is_response_hook _) with (@nil event);
      [reflexivity|].
    symmetry. unfold executeWithRetry.
    pose proof (retry_loop_events c (input_of c rq) (retry_limit c) fuel
                  undefined 0) as H.
    unfold retry_limit in H.
    induction H as [|ev l [_ Hev] _ IH]; [reflexivity|].
    cbn [List.filter]. now rewrite Hev.
  - apply (Hout (decorate c r)).
    now rewrite (callProvider_returned fuel c (input_of c rq) r Hr).
Qed.

(* ===================================================================== *)
(** ** Construction *)
(* ===================================================================== *)

Lemma truthy_string (s : string) : truthy (VStr s) = false <-> s = "".
Proof.
  cbn [truthy]. rewrite negb_false_iff. apply String.eqb_eq.
Qed.

Lemma empty_credential_falsy (config : AIClientConfig) :
  Spec.empty_credential config <-> truthy (prop (cfg_apiKey config)) = false.
Proof.
  unfold Spec.empty_credential.
  destruct (cfg_apiKey config) as [[| | b | n | s]|]; cbn [prop];
    try tauto; try (cbn; tauto).
  symmetry. apply truthy_string.
Qed.

Lemma recognized_decide (p : value) :
  strict_eq p (VStr "openai") || strict_eq p (VStr "gemini") = true
  <-> Spec.recognized p.
Proof.
  unfold Spec.recognized. now rewrite orb_true_iff, !strict_eq_string.
Qed.

(** The stored configuration of a constructed client, and the events of
    its construction. *)
Lemma new_AIClient_cases (sdk : Providers) (config : AIClientConfig) :
  let stored := spread defaults config in
  let provider := prop (cfg_provider config) in
  (truthy (prop (cfg_apiKey config)) = false
   /\ new_AIClient sdk config
      = ([], Thrown (AIClientError MsgApiKeyRequired
                                   VUndefined VUndefined undefined)))
  \/ (truthy (prop (cfg_apiKey config)) = true
      /\ ~ Spec.recognized provider
      /\ new_AIClient sdk config
         = ([], Thrown (AIClientError (MsgUnsupportedProvider provider)
                                      VUndefined VUndefined undefined)))
  \/ (truthy (prop (cfg_apiKey config)) = true
      /\ Spec.recognized provider
      /\ exists c t,
           new_AIClient sdk config = (t, Returned c)
           /\ (c_config c = stored
               /\ truthy (prop (cfg_model config)) = true
               \/ exists m, c_config c = set_model stored (VStr m)
                            /\ (provider = VStr "openai" /\ m = "gpt-4o-mini"
                                \/ provider = VStr "gemini" /\ m = "gemini-pro")
                            /\ truthy (prop (cfg_model config)) = false)).
Proof.
  intros stored provider. unfold new_AIClient.
  destruct (truthy (prop (cfg_apiKey config))) eqn:Hkey; cbn [negb].
  2: { left. now split. }
  right.
  assert (Hp : forall cfg', prop (cfg_provider (spread defaults config)) = provider
                            /\ prop (cfg_provider
                                       (set_model (spread defaults config) cfg'))
                               = provider).
  { intros cfg'. subst provider. cbn. now destruct (cfg_provider config). }
  assert (Hm : prop (cfg_model (spread defaults config)) = prop (cfg_model config)).
  { cbn. now destruct (cfg_model config). }
  fold stored in Hp, Hm |- *.
  destruct (strict_eq provider (VStr "openai")) eqn:Ho;
    [|destruct (strict_eq provider (VStr "gemini")) eqn:Hg].
  - right. split; [reflexivity|]. split.
    { apply recognized_decide. now rewrite Ho. }
    rewrite Hm. destruct (truthy (prop (cfg_model config))) eqn:Hmodel; cbn [negb].
    + rewrite (proj1 (Hp VUndefined)), Ho. cbn.
      eexists _, _. split; [reflexivity|]. left. now split.
    + rewrite (proj1 (Hp VUndefined)), Ho.
      rewrite (proj2 (Hp (VStr "gpt-4o-mini"))), Ho. cbn.
      eexists _, _. split; [reflexivity|]. right.
      exists "gpt-4o-mini". split; [reflexivity|]. split; [|reflexivity].
      left. split; [|reflexivity]. now apply strict_eq_string.
  - right. split; [reflexivity|]. split.
    { apply recognized_decide. rewrite Hg. apply orb_true_r. }
    rewrite Hm. destruct (truthy (prop (cfg_model config))) eqn:Hmodel; cbn [negb].
    + rewrite (proj1 (Hp VUndefined)), Ho, Hg. cbn.
      eexists _, _. split; [reflexivity|]. left. now split.
    + rewrite (proj1 (Hp VUndefined)), Ho, Hg.
      rewrite (proj2 (Hp (VStr "gemini-pro"))), Ho, Hg. cbn.
      eexists _, _. split; [reflexivity|]. right.
      exists "gemini-pro". split; [reflexivity|]. split; [|reflexivity].
      right. split; [|reflexivity]. now apply strict_eq_string.
  - left. split; [reflexivity|]. split.
    { rewrite <- recognized_decide, Ho, Hg. discriminate. }
    rewrite Hm. destruct (truthy (prop (cfg_model config))) eqn:Hmodel; cbn [negb].
    + now rewrite (proj1 (Hp VUndefined)), Ho, Hg.
    + rewrite (proj1 (Hp VUndefined)), Ho, Hg.
      now rewrite (proj1 (Hp VUndefined)), Ho, Hg.
Qed.

(** C6. Constructing the client fails if and only if the credential is
    empty or the provider identifier is not a recognized one; a failed
    construction has created no provider (its trace is empty); a
    successful one stores a non-empty model: the caller's, or the default
    of the provider ("gpt-4o-mini" for openai, "gemini-pro" for gemini) when
    the caller gave none. *)
Theorem construction_fails_iff (sdk : Providers) (config : AIClientConfig) :
  let construction := new_AIClient sdk config in
  (Spec.fails construction
   <-> Spec.empty_credential config
       \/ ~ Spec.recognized (prop (cfg_provider config)))
  /\ (Spec.fails construction -> trace construction = [])
  /\ (forall c, result construction = Returned c ->
        (exists m, cfg_model (c_config c) = Some m /\ truthy m = true)
        /\ (truthy (prop (cfg_model config)) = true ->
            cfg_model (c_config c) = cfg_model config)
        /\ (truthy (prop (cfg_model config)) = false ->
            prop (cfg_provider config) = VStr "openai"
            /\ cfg_model (c_config c) = Some (VStr "gpt-4o-mini")
            \/ prop (cfg_provider config) = VStr "gemini"
               /\ cfg_model (c_config c) = Some (VStr "gemini-pro")))
  /\ (Spec.fails construction \/ exists c, result construction = Returned c).
Proof.
  intros construction. subst construction.
  rewrite empty_credential_falsy. unfold Spec.fails.
  destruct (new_AIClient_cases sdk config)
    as [[Hkey E] | [(Hkey & Hp & E) | (Hkey & Hp & c & t & E & Hc)]];
    rewrite E; cbn [result trace fst snd].
  - repeat split; eauto; intros; try discriminate.
  - repeat split; eauto; intros; try discriminate.
  - split; [|split; [|split]].
    + split; [intros [e He]; discriminate|].
      intros [H|H]; [congruence | contradiction].
    + intros [e He]. discriminate.
    + intros c' Hc'. injection Hc' as <-.
      destruct Hc as [[-> Hm] | (m & -> & Hdef & Hm)].
      * cbn [spread cfg_model defaults spread_prop].
        destruct (cfg_model config) as [v|] eqn:Ev; [|discriminate].
        split; [now exists v|]. split; [reflexivity|].
        intros H. congruence.
      * cbn [set_model cfg_model]. split; [|split].
        -- exists (VStr m). split; [reflexivity|].
           now destruct Hdef as [[_ ->]|[_ ->]].
        -- intros H. congruence.
        -- intros _. destruct Hdef as [[Ho ->]|[Hg ->]]; [left|right];
             now split.
    + right. now exists c.
Qed.

Lemma new_AIClient_stored (sdk : Providers) (config : AIClientConfig)
    (c : AIClient) :
  result (new_AIClient sdk config) = Returned c ->
  cfg_temperature (c_config c) = cfg_temperature (spread defaults config)
  /\ cfg_maxRetries (c_config c) = cfg_maxRetries (spread defaults config)
  /\ cfg_retryDelay (c_config c) = cfg_retryDelay (spread defaults config)
  /\ cfg_timeout (c_config c) = cfg_timeout (spread defaults config).
Proof.
  destruct (new_AIClient_cases sdk config)
    as [[_ E] | [(_ & _ & E) | (_ & _ & c' & t & E & Hc)]];
    rewrite E; cbn [result snd]; try discriminate.
  intros H. injection H as <-.
  destruct Hc as [[-> _] | (m & -> & _)]; now repeat split.
Qed.

Lemma filled_in_spread (default : value) (given : option value) :
  Spec.filled_in default given (spread_prop (Some default) given).
Proof. now destruct given. Qed.

Lemma getenv_unset (env : gmap string string) (name : string) :
  env !! name = None -> getenv env name = VUndefined.
Proof. unfold getenv. now intros ->. Qed.

(** C7. The constructor fills in a default exactly for the properties the
    caller's object does not have: a property that is present keeps its
    value, [undefined] included. [parseEnvConfig] returns an object that has
    [temperature], [timeout] and [maxRetries] (with the value [undefined]
    when the variable is unset), so a client built by [fromEnv] stores
    [undefined] for them, not 0.7, 30000 and 3; only [retryDelay], which the
    loader's object lacks, gets its default. *)
Theorem defaults_fill_absent_properties_only (sdk : Providers) :
  (forall config c,
     result (new_AIClient sdk config) = Returned c ->
     Spec.filled_in (VNum (Fin (7 # 10))) (cfg_temperature config)
                    (cfg_temperature (c_config c))
     /\ Spec.filled_in (num: 3) (cfg_maxRetries config)
                       (cfg_maxRetries (c_config c))
     /\ Spec.filled_in (num: 1000) (cfg_retryDelay config)
                       (cfg_retryDelay (c_config c))
     /\ Spec.filled_in (num: 30000) (cfg_timeout config)
                       (cfg_timeout (c_config c)))
  /\ (forall env c,
        result (fromEnv sdk env) = Returned c ->
        (env !! "AI_TEMPERATURE" = None ->
         cfg_temperature (c_config c) = Some VUndefined)
        /\ (env !! "AI_MAX_RETRIES" = None ->
            cfg_maxRetries (c_config c) = Some VUndefined)
        /\ (env !! "AI_TIMEOUT" = None ->
            cfg_timeout (c_config c) = Some VUndefined)
        /\ cfg_retryDelay (c_config c) = Some (num: 1000)).
Proof.
  split.
  - intros config c H.
    destruct (new_AIClient_stored sdk config c H) as (-> & -> & -> & ->).
    repeat split; apply filled_in_spread.
  - intros env c H. unfold fromEnv in H.
    destruct (_ || _) in H; [discriminate|].
    destruct (new_AIClient_stored sdk _ c H) as (-> & -> & -> & ->).
    unfold parseEnvConfig.
    destruct (if strict_eq _ _ && truthy _ then _ else _) as [p k].
    cbn [spread defaults spread_prop cfg_temperature cfg_maxRetries
         cfg_timeout cfg_retryDelay].
    repeat split; intros Hunset; now rewrite (getenv_unset env _ Hunset).
Qed.

(** C9. When the provider has no [chatStream], the client's [chatStream]
    throws the streaming-unsupported error at once: no request hook has
    been called and the provider has not been touched (the trace is
    empty). *)
Theorem chatStream_unsupported (c : AIClient) (msgs : list Message)
    (options : option ChatOptions) :
  chatStream (c_provider c) = None ->
  client_chatStream c msgs options
  = ([], Thrown (AIClientError MsgStreamingNotSupported
                               (prop (cfg_provider (c_config c)))
                               VUndefined undefined)).
Proof.
  intros H. unfold client_chatStream. now rewrite H.
Qed.

(* ===================================================================== *)
(** ** Sentiment parsing *)
(* ===================================================================== *)

Lemma is_sentiment_decide (s : string) :
  String.eqb s "positive" || String.eqb s "neutral" || String.eqb s "negative"
  = true
  <-> Spec.is_sentiment s.
Proof.
  unfold Spec.is_sentiment. rewrite !orb_true_iff, !String.eqb_eq. tauto.
Qed.

(** [Math.max(0, Math.min(1, x))] clamps a number that is not NaN. *)
Lemma clamp_spec (x : number) :
  isNaN x = false ->
  exists q, Math_max (of_Z 0) (Math_min (of_Z 1) x) = Fin q
            /\ Spec.clamped x (Fin q).
Proof.
  destruct x as [|p|neg]; [discriminate| |]; intros _.
  - unfold Math_min, Math_max, of_Z. cbn [num_compare Spec.clamped].
    change (inject_Z 1) with 1%Q. change (inject_Z 0) with 0%Q.
    destruct (1 ?= p)%Q eqn:E1.
    + (* p == 1 *)
      apply Qeq_alt in E1. eexists. split; [reflexivity|].
      right. right. rewrite <- E1. repeat split; (discriminate || reflexivity).
    + (* 1 < p *)
      apply Qlt_alt in E1. eexists. split; [reflexivity|]. right. now left.
    + (* p < 1 *)
      apply Qgt_alt in E1. cbn [num_compare].
      destruct (0 ?= p)%Q eqn:E0.
      * apply Qeq_alt in E0. eexists. split; [reflexivity|].
        right. right. rewrite <- E0. repeat split; (discriminate || reflexivity).
      * apply Qlt_alt in E0. eexists. split; [reflexivity|].
        right; right.
        split; [now apply Qlt_le_weak | split; [now apply Qlt_le_weak|]].
        reflexivity.
      * apply Qgt_alt in E0. eexists. split; [reflexivity|]. now left.
  - destruct neg; eexists; (split; [reflexivity|]); reflexivity.
Qed.

Lemma parse_sentiment_spec (text : string) :
  let parts := split "|" text in
  let first := toLowerCase (trim (nth 0 parts "")) in
  let second := parseFloat (trim (nth 1 parts "")) in
  ((List.length parts < 2)%nat ->
   parse_sentiment text = ("neutral", Fin (1 # 2)))
  /\ ((2 <= List.length parts)%nat ->
      (Spec.is_sentiment first -> fst (parse_sentiment text) = first)
      /\ (~ Spec.is_sentiment first -> fst (parse_sentiment text) = "neutral")
      /\ (isNaN second = true -> snd (parse_sentiment text) = Fin (1 # 2))
      /\ (isNaN second = false ->
          Spec.clamped second (snd (parse_sentiment text)))).
Proof.
  intros parts first second. unfold parse_sentiment. fold parts.
  split; intros Hlen.
  - now replace (2 <=? List.length parts)%nat with false
      by (symmetry; apply Nat.leb_gt; exact Hlen).
  - replace (2 <=? List.length parts)%nat with true
      by (symmetry; apply Nat.leb_le; exact Hlen).
    fold first second. cbn [fst snd]. repeat split.
    + intros H. apply is_sentiment_decide in H. now rewrite H.
    + intros H. rewrite <- is_sentiment_decide in H.
      now apply not_true_is_false in H; rewrite H.
    + now intros ->.
    + intros H. rewrite H. cbn [negb].
      destruct (clamp_spec second H) as (q & -> & Hq). exact Hq.
Qed.

(** C8 (amended). [classifySentiment] splits the provider's text on [|].
    With two parts or more, the sentiment is the first part, trimmed and
    lower-cased, when that is positive, neutral or negative, and neutral
    otherwise; the score is the second part parsed as a float and clamped
    to [0, 1], and 0.5 when it does not parse. With a single part (no [|]
    in the text) the result is neutral with score 0.5 whatever the text
    says. In particular "positive|0.95" gives positive with 0.95 and
    "maybe" gives neutral with 0.5. *)
Theorem classifySentiment_parses (fuel : nat) (c : AIClient) (prompt : string)
    (r : ChatResult) :
  result (executeWithRetry fuel c
            (chat_work c (input_of c (ClassifySentiment prompt))) "chat")
  = Returned r ->
  let parts := split "|" (content r) in
  let first := toLowerCase (trim (nth 0 parts "")) in
  let second := parseFloat (trim (nth 1 parts "")) in
  exists sentiment score,
    result (classifySentiment fuel c prompt)
    = Returned (task_result (Sentiment sentiment score) (decorate c r))
    /\ ((List.length parts < 2)%nat ->
        sentiment = "neutral" /\ score = Fin (1 # 2))
    /\ ((2 <= List.length parts)%nat ->
        (Spec.is_sentiment first -> sentiment = first)
        /\ (~ Spec.is_sentiment first -> sentiment = "neutral")
        /\ (isNaN second = true -> score = Fin (1 # 2))
        /\ (isNaN second = false -> Spec.clamped second score))
    /\ (content r = "positive|0.95" ->
        sentiment = "positive" /\ score = Fin (95 # 100))
    /\ (content r = "maybe" -> sentiment = "neutral" /\ score = Fin (1 # 2)).
Proof.
  intros Hr parts first second.
  exists (fst (parse_sentiment (content r))), (snd (parse_sentiment (content r))).
  split; [|split; [|split; [|split]]].
  - unfold classifySentiment, bind, ret.
    change (user_prompt prompt (VNum (Fin (3 # 10))) (num: 20))
      with (input_of c (ClassifySentiment prompt)).
    rewrite (callProvider_returned fuel c _ r Hr).
    cbn [content decorate]. destruct (parse_sentiment (content r)).
    reflexivity.
  - intros H. destruct (parse_sentiment_spec (content r)) as [E _].
    now rewrite (E H).
  - intros H. destruct (parse_sentiment_spec (content r)) as [_ E].
    exact (E H).
  - now intros ->.
  - now intros ->.
Qed.

(* ===================================================================== *)
(** ** Concrete runs *)
(* ===================================================================== *)

(** C4 (amended). [isRetryableError] answers true exactly when the first
    truthy value among [error.status], [error.statusCode] and
    [error.response?.status] is 429 or lies in [500, 600), or -- when none
    of the three is truthy -- [error.code] is ECONNRESET, ETIMEDOUT or
    ENOTFOUND. A failure with no truthy status and no such code is not
    retryable, and neither is [null] or [undefined]. *)
Theorem retry_classification :
  (forall e, isRetryableError e = true <-> Spec.retryable e)
  /\ isRetryableError (ExnValue VNull) = false
  /\ isRetryableError (ExnValue VUndefined) = false
  /\ (forall e,
        (forall v, In v (Spec.statuses e) -> truthy v = false) ->
        ~ Spec.network_code e ->
        isRetryableError e = false).
Proof.
  split; [exact isRetryableError_retryable|].
  split; [reflexivity|]. split; [reflexivity|].
  intros e Hs Hc. apply not_true_is_false.
  rewrite isRetryableError_retryable. unfold Spec.retryable.
  destruct (List.find truthy (Spec.statuses e)) as [v|] eqn:E; [|exact Hc].
  apply List.find_some in E as [Hin Hv].
  rewrite (Hs v Hin) in Hv. discriminate.
Qed.

(** A plain [new Error("boom")] has no status and no code: not retryable. *)
Lemma retry_classification_witness :
  isRetryableError Example.plain_error = false.
Proof.
  destruct retry_classification as (_ & _ & _ & H).
  apply (H Example.plain_error).
  - intros v [<-|[<-|[<-|[]]]]; reflexivity.
  - intros [H1|[H1|H1]]; discriminate H1.
Defined.

(** C4 as the specification words it fails on a failure that carries the
    status 400 together with the code ECONNRESET: the specification calls
    it retryable (it carries a network code), the function does not. *)
Lemma status_overrides_network_code :
  Spec.retryable_as_specified Example.reset_after_400
  /\ isRetryableError Example.reset_after_400 = false.
Proof.
  split; [|reflexivity]. right. left. reflexivity.
Qed.

(** A [chat] call on a client whose provider answers "Hi": the one response
    hook sees the provider's result, the caller gets the tagged one. *)
Lemma response_hooks_receive_provider_result_witness :
  result (executeWithRetry 1 Example.responder
            (chat_work Example.responder
               (input_of Example.responder Example.greeting)) "chat")
  = Returned (Example.reply "Hi")
  /\ List.filter is_response_hook
       (trace (invoke 1 Example.responder Example.greeting))
     = [EvResponseHook 0 (Example.reply "Hi")]
  /\ exists out,
       result (invoke 1 Example.responder Example.greeting) = Returned out
       /\ out_provider out = VStr "openai"
       /\ out_model out = VStr "gpt-4o-mini".
Proof.
  split; [reflexivity|].
  apply (response_hooks_receive_provider_result
           1 Example.responder Example.greeting (Example.reply "Hi")).
  reflexivity.
Defined.

(** C1 as stated fails: the response hook is called with the provider's
    result, which has no provider tag, while the caller receives the
    decorated result, tagged "openai". *)
Lemma response_hook_argument_not_decorated :
  result (executeWithRetry 1 Example.responder
            (chat_work Example.responder
               (input_of Example.responder Example.greeting)) "chat")
  = Returned (Example.reply "Hi")
  /\ In (EvResponseHook 0 (Example.reply "Hi"))
        (trace (invoke 1 Example.responder Example.greeting))
  /\ ~ In (EvResponseHook 0 (decorate Example.responder (Example.reply "Hi")))
          (trace (invoke 1 Example.responder Example.greeting))
  /\ result (invoke 1 Example.responder Example.greeting)
     = Returned (inr (decorate Example.responder (Example.reply "Hi")))
  /\ provider (Example.reply "Hi") = VUndefined
  /\ provider (decorate Example.responder (Example.reply "Hi")) = VStr "openai".
Proof.
  split; [reflexivity|]. split; [|split; [|repeat split]].
  - vm_compute. right. right. left. reflexivity.
  - vm_compute. intros [H|[H|[H|[]]]]; discriminate H.
Qed.

Lemma reaches_first {T} (c : AIClient) (fn : nat -> Attempt T) (mr : value) :
  less_eq (VNum (of_nat 0)) mr = true -> reaches c fn mr 0.
Proof. intros H. split; [intros j Hj; lia | exact H]. Qed.

Lemma reaches_next {T} (c : AIClient) (fn : nat -> Attempt T) (mr : value)
    (k : nat) :
  reaches c fn mr k -> retried c fn mr k = true ->
  less_eq (VNum (of_nat (S k))) mr = true -> reaches c fn mr (S k).
Proof.
  intros [Hk _] Hr Hle. split; [|exact Hle].
  intros j Hj. destruct (Nat.eq_dec j k) as [->|Hne]; [exact Hr|].
  apply Hk. lia.
Qed.

(** With the default bound of 3, a 503 followed by a 400 ends the run at the
    second attempt and the 400 itself reaches the caller. *)
Lemma non_retryable_stops_witness :
  isRetryableError Example.bad_request = false
  /\ attempts (trace (executeWithRetry 5 Example.default_flaky
                        (chat_work Example.default_flaky Example.hello) "chat"))
     = 2%nat
  /\ result (executeWithRetry 5 Example.default_flaky
               (chat_work Example.default_flaky Example.hello) "chat")
     = Thrown Example.bad_request.
Proof.
  split; [reflexivity|].
  destruct (non_retryable_stops Example.default_flaky Example.hello 5 1
              Example.bad_request) as (Ha & Hne & _).
  - apply reaches_next; [apply reaches_first| |]; reflexivity.
  - reflexivity.
  - reflexivity.
  - lia.
  - split; [exact Ha | apply Hne; reflexivity].
Defined.

(** C2 as stated fails: with [maxRetries: 1] the second attempt is the
    last one permitted; its failure (status 400) is classified
    non-retryable, and yet the caller receives a RetryError that wraps it,
    not the failure itself. *)
Lemma non_retryable_last_attempt_wrapped :
  isRetryableError Example.bad_request = false
  /\ failure_of Example.one_retry_flaky
       (chat_work Example.one_retry_flaky Example.hello 1)
     = Some Example.bad_request
  /\ result (executeWithRetry 5 Example.one_retry_flaky
               (chat_work Example.one_retry_flaky Example.hello) "chat")
     = Thrown (RetryError
                 (MsgFailedAfter (num: 1) (MsgValue (VStr "Bad Request")))
                 (num: 1) (VStr "openai") Example.bad_request)
  /\ result (executeWithRetry 5 Example.one_retry_flaky
               (chat_work Example.one_retry_flaky Example.hello) "chat")
     <> Thrown Example.bad_request.
Proof.
  repeat split. vm_compute. discriminate.
Qed.

(** A provider that always fails with 503: [maxRetries: 0] gives four
    attempts and [retries = 3]; [maxRetries: 2] gives three attempts. *)
Lemma retry_exhaustion_witness :
  (attempts (trace (executeWithRetry 5 Example.no_retries
                      (chat_work Example.no_retries Example.hello) "chat"))
   = 4%nat
   /\ exists e m,
        failure_of Example.no_retries
          (chat_work Example.no_retries Example.hello 3) = Some e
        /\ get_message e = inr m
        /\ result (executeWithRetry 5 Example.no_retries
                     (chat_work Example.no_retries Example.hello) "chat")
           = Thrown (RetryError (MsgFailedAfter (num: 3) m) (num: 3)
                                (VStr "openai") e))
  /\ attempts (trace (executeWithRetry 5 Example.two_retries
                        (chat_work Example.two_retries Example.hello) "chat"))
     = 3%nat.
Proof.
  split.
  - apply (retry_exhaustion Example.no_retries Example.hello 0 5).
    + reflexivity.
    + intros k. exists Example.unavailable. split; reflexivity.
    + cbn. lia.
  - apply (retry_exhaustion Example.two_retries Example.hello 2 5).
    + reflexivity.
    + intros k. exists Example.unavailable. split; reflexivity.
    + cbn. lia.
Defined.

(** A provider that never answers in time: one provider call, one error-hook
    call with the TimeoutError, and nothing after it. *)
Lemma timeout_not_retried_witness :
  trace (executeWithRetry 5 Example.timing_out
           (chat_work Example.timing_out Example.hello) "chat")
  = [EvProviderChat 0 Example.hello;
     EvErrorHook 0 (TimeoutError (MsgTimedOut (num: 30000)) (VStr "openai"))]
  /\ attempts (trace (executeWithRetry 5 Example.timing_out
                        (chat_work Example.timing_out Example.hello) "chat"))
     = 1%nat.
Proof.
  destruct (timeout_not_retried Example.timing_out Example.hello 5 0)
    as (_ & _ & Ht & _ & Ha & _).
  - apply reaches_first. reflexivity.
  - reflexivity.
  - lia.
  - split; [exact Ht | exact Ha].
Defined.

(** With [maxRetries: 1], a 503 followed by a 400 ends in a RetryError that
    no error hook has seen. *)
Lemma error_hooks_receive_attempt_failures_witness :
  result (executeWithRetry 5 Example.one_retry_flaky
            (chat_work Example.one_retry_flaky Example.hello) "chat")
  = Thrown (RetryError
              (MsgFailedAfter (num: 1) (MsgValue (VStr "Bad Request")))
              (num: 1) (VStr "openai") Example.bad_request)
  /\ forall i x,
       In (EvErrorHook i x)
          (trace (executeWithRetry 5 Example.one_retry_flaky
                    (chat_work Example.one_retry_flaky Example.hello) "chat")) ->
       x <> RetryError
              (MsgFailedAfter (num: 1) (MsgValue (VStr "Bad Request")))
              (num: 1) (VStr "openai") Example.bad_request.
Proof.
  destruct (error_hooks_receive_attempt_failures
              Example.one_retry_flaky Example.hello 5) as (_ & _ & _ & H).
  destruct (H 1%nat Example.bad_request (MsgValue (VStr "Bad Request")))
    as (Hr & _ & Hx).
  - apply reaches_next; [apply reaches_first| |]; reflexivity.
  - reflexivity.
  - reflexivity.
  - reflexivity.
  - lia.
  - split; [exact Hr | exact Hx].
Defined.

(** [provider: "anthropic"] is refused before any provider is created. *)
Lemma construction_fails_iff_witness :
  Spec.fails (new_AIClient (Example.sdk Example.failing) Example.unknown_provider)
  /\ trace (new_AIClient (Example.sdk Example.failing) Example.unknown_provider)
     = [].
Proof.
  destruct (construction_fails_iff (Example.sdk Example.failing)
              Example.unknown_provider) as (Hiff & Htrace & _).
  assert (Hf : Spec.fails (new_AIClient (Example.sdk Example.failing)
                                        Example.unknown_provider)).
  { apply Hiff. right. intros [H|H]; discriminate H. }
  split; [exact Hf | exact (Htrace Hf)].
Defined.

(** [fromEnv] with only the provider and the key set in the environment. *)
Lemma defaults_fill_absent_properties_only_witness :
  exists c,
    result (fromEnv (Example.sdk Example.failing) Example.env) = Returned c
    /\ cfg_temperature (c_config c) = Some VUndefined
    /\ cfg_maxRetries (c_config c) = Some VUndefined
    /\ cfg_timeout (c_config c) = Some VUndefined
    /\ cfg_retryDelay (c_config c) = Some (num: 1000).
Proof.
  destruct (fromEnv (Example.sdk Example.failing) Example.env)
    as [t [c| |]] eqn:E; try (vm_compute in E; discriminate E).
  exists c. split; [reflexivity|].
  destruct (defaults_fill_absent_properties_only (Example.sdk Example.failing))
    as [_ H].
  destruct (H Example.env c) as (Ht & Hm & Hto & Hd).
  - now rewrite E.
  - repeat split; [apply Ht | apply Hm | apply Hto | exact Hd]; reflexivity.
Defined.

(** The response "positive|0.95". *)
Lemma classifySentiment_parses_witness :
  exists sentiment score,
    result (classifySentiment 1 (Example.client (Example.answering "positive|0.95") None)
                              "I love this product!")
    = Returned (task_result (Sentiment sentiment score)
                  (decorate (Example.client (Example.answering "positive|0.95") None)
                            (Example.reply "positive|0.95")))
    /\ sentiment = "positive" /\ score = Fin (95 # 100).
Proof.
  destruct (classifySentiment_parses 1
              (Example.client (Example.answering "positive|0.95") None)
              "I love this product!" (Example.reply "positive|0.95"))
    as (s & sc & Hr & _ & _ & Hp & _).
  - reflexivity.
  - exists s, sc. split; [exact Hr|]. apply Hp. reflexivity.
Defined.

(** C8 as stated fails: for the response "negative" the first part is one
    of the three labels, and the method still answers neutral, because the
    text has no [|]. *)
Lemma sentiment_without_separator :
  Spec.is_sentiment (toLowerCase (trim (nth 0 (split "|" "negative") "")))
  /\ toLowerCase (trim (nth 0 (split "|" "negative") "")) = "negative"
  /\ result (classifySentiment 1 (Example.client (Example.answering "negative") None)
                               "This is awful.")
     = Returned (task_result (Sentiment "neutral" (Fin (1 # 2)))
                   (decorate (Example.client (Example.answering "negative") None)
                             (Example.reply "negative"))).
Proof.
  split; [right; right; reflexivity|]. split; reflexivity.
Qed.

(** A provider object without [chatStream]; the client has a request hook,
    which is not called. *)
Lemma chatStream_unsupported_witness :
  chatStream (c_provider Example.responder) = None
  /\ client_chatStream Example.responder
       [{| role := user; msg_content := "Hello" |}] None
     = ([], Thrown (AIClientError MsgStreamingNotSupported (VStr "openai")
                                  VUndefined undefined)).
Proof.
  split; [reflexivity|].
  apply (chatStream_unsupported Example.responder). reflexivity.
Defined.

(* ===================================================================== *)
(** ** More on the retry engine *)
(* ===================================================================== *)

Lemma num_eqb_sym (a b : number) : num_eqb a b = num_eqb b a.
Proof.
  unfold num_eqb.
  destruct a as [|p|n1], b as [|q|n2]; cbn [num_compare]; try reflexivity.
  - destruct (Qcompare p q) eqn:E1, (Qcompare q p) eqn:E2; try reflexivity.
    + apply Qeq_alt in E1. symmetry in E1. apply Qeq_alt in E1. congruence.
    + apply Qeq_alt in E1. symmetry in E1. apply Qeq_alt in E1. congruence.
    + apply Qeq_alt in E2. symmetry in E2. apply Qeq_alt in E2. congruence.
    + apply Qeq_alt in E2. symmetry in E2. apply Qeq_alt in E2. congruence.
  - now destruct n2.
  - now destruct n1.
  - now destruct n1, n2.
Qed.

(** [this.config.maxRetries || 3] is truthy, so it is never zero. *)
Lemma retry_limit_truthy (c : AIClient) : truthy (retry_limit c) = true.
Proof.
  unfold retry_limit, or_else.
  now destruct (truthy (prop (cfg_maxRetries (c_config c)))) eqn:E.
Qed.

Lemma first_attempt_not_last (c : AIClient) :
  strict_eq (VNum (of_nat 0)) (retry_limit c) = false.
Proof.
  pose proof (retry_limit_truthy c) as H.
  destruct (retry_limit c) as [| | b | n | s]; try reflexivity.
  cbn [strict_eq]. cbn [truthy] in H. unfold num_is_zero in H.
  rewrite num_eqb_sym. change (of_nat 0) with (of_Z 0).
  apply negb_true_iff in H. apply orb_false_iff in H. tauto.
Qed.

(** A turn of the loop in which the attempt fails and is retried, with the
    failure it hands to the next turn. *)
Lemma retry_loop_retry_with {T} (c : AIClient) (fn : nat -> Attempt T)
    (operation : string) (mr : value) (fuel : nat) (last : exn) (k : nat)
    (e : exn) :
  failure_of c (fn k) = Some e ->
  retried c fn mr k = true ->
  retry_loop (S fuel) c fn operation mr last k
  = (failed_round c fn k ++ EvSleep (backoff c k)
       :: trace (retry_loop fuel c fn operation mr e (S k)),
     result (retry_loop fuel c fn operation mr e (S k))).
Proof.
  unfold retried, failed_round, failure_of. intros He H.
  apply andb_true_iff in H as [Hlt H].
  cbn [retry_loop]. rewrite (less_less_eq _ _ Hlt).
  destruct (fn k) as [t [r|e'|]]; cbn [executeWithTimeout result snd fst] in *;
    try discriminate.
  - injection He as ->. unfold try_catch, bind, emit. rewrite Hlt, H.
    destruct (retry_loop fuel c fn operation mr e (S k)) as [t' o].
    cbn. rewrite <- app_assoc. reflexivity.
Qed.

(** A turn of the loop when the loop variable is past the bound. *)
Lemma retry_loop_exit {T} (c : AIClient) (fn : nat -> Attempt T)
    (operation : string) (mr : value) (fuel : nat) (last : exn) (k : nat) :
  less_eq (VNum (of_nat k)) mr = false ->
  retry_loop (S fuel) c fn operation mr last k
  = ([], Thrown (if falsy last
                 then AIClientError (MsgFailedToExecute operation)
                                    VUndefined VUndefined undefined
                 else last)).
Proof. intros H. cbn [retry_loop]. now rewrite H. Qed.


Lemma callProvider_trace (fuel : nat) (c : AIClient) (input : ChatPromptInput) :
  exists rest,
    trace (callProvider fuel c input)
    = dispatch request_event (requestHooks c) 0 (c_config c, input)
      ++ trace (executeWithRetry fuel c (chat_work c input) "chat") ++ rest
    /\ (rest = []
        \/ exists r,
             result (executeWithRetry fuel c (chat_work c input) "chat")
             = Returned r
             /\ rest = dispatch EvResponseHook (responseHooks c) 0 r).
Proof.
  destruct (result (executeWithRetry fuel c (chat_work c input) "chat"))
    as [r|e|] eqn:E.
  - rewrite (callProvider_returned fuel c input r E).
    eexists. split; [reflexivity|]. right. now exists r.
  - rewrite (callProvider_thrown fuel c input e E).
    exists []. rewrite app_nil_r. split; [reflexivity | now left].
  - exists []. rewrite app_nil_r. split; [|now left].
    unfold callProvider, bind, emit, trace, result in *.
    destruct (executeWithRetry fuel c (chat_work c input) "chat") as [t o].
    cbn [fst snd] in *. now subst o.
Qed.

(** X1. Fail fast: when the loop runs at all (its bound is at least 0)
    and the first attempt fails with a failure classified non-retryable,
    the provider has been called once, every error hook has been given the
    failure, and the caller receives that failure itself -- never a
    RetryError, because [maxRetries || 3] cannot be 0. *)
Theorem first_failure_propagates_unchanged (fuel : nat) (c : AIClient)
    (input : ChatPromptInput) (e : exn) :
  less_eq (VNum (of_nat 0)) (retry_limit c) = true ->
  failure_of c (chat_work c input 0) = Some e ->
  isRetryableError e = false ->
  (0 < fuel)%nat ->
  callProvider fuel c input
  = (dispatch request_event (requestHooks c) 0 (c_config c, input)
       ++ EvProviderChat 0 input
          :: dispatch EvErrorHook (errorHooks c) 0 e,
     Thrown e).
Proof.
  intros Hle He Hno Hfuel.
  assert (Hrun : executeWithRetry fuel c (chat_work c input) "chat"
                 = ([] ++ failed_round c (chat_work c input) 0,
                    Thrown (stop_error c (retry_limit c) 0 e))).
  { apply (run_stops c (chat_work c input) "chat" (retry_limit c) fuel 0 e);
      trivial.
    - split; [intros j Hj; lia | exact Hle].
    - rewrite Hno. apply andb_false_r. }
  unfold stop_error in Hrun. rewrite first_attempt_not_last in Hrun.
  rewrite (callProvider_thrown fuel c input e) by now rewrite Hrun.
  rewrite Hrun. cbn [trace fst app]. rewrite failed_round_chat, He.
  reflexivity.
Qed.

Lemma retry_loop_bounded (c : AIClient) (input : ChatPromptInput) (L : nat) :
  forall n fuel a last,
    (a + n = L)%nat -> (n < fuel)%nat ->
    let turn := retry_loop fuel c (chat_work c input) "chat"
                           (num: (Z.of_nat L)) last a in
    result turn <> OutOfFuel
    /\ (1 <= attempts (trace turn) <= S n)%nat.
Proof.
  induction n as [|n IH]; intros fuel a last Ha Hfuel turn; subst turn;
    (destruct fuel as [|fuel]; [lia|]);
    destruct (retry_loop_cases c (chat_work c input) "chat"
                (num: (Z.of_nat L)) fuel last a)
      as [[Hle _] | [(r & _ & E) | [(e & _ & E) | (l & Hr & E)]]].
  all: try (rewrite less_eq_of_nat in Hle; apply Z.leb_gt in Hle; lia).
  all: try (rewrite E; cbn [trace result fst snd];
            split; [discriminate|]; cbn [chat_work fst];
            rewrite ?attempts_failed_round; cbn; lia).
  - unfold retried in Hr. apply andb_true_iff in Hr as [Hr _].
    rewrite less_of_nat in Hr. apply Z.ltb_lt in Hr. lia.
  - rewrite E. cbn [trace result fst snd].
    destruct (IH fuel (S a) l) as [Hres Hatt]; [lia | lia |].
    split; [exact Hres|].
    rewrite attempts_app, attempts_failed_round.
    change (attempts (EvSleep (backoff c a) :: ?[t]))
      with (attempts (trace (retry_loop fuel c (chat_work c input) "chat"
                               (num: (Z.of_nat L)) l (S a)))).
    lia.
Qed.

(** X2. Bounded retries: with a retry bound ([maxRetries || 3]) that is a
    natural number [L], a call ends -- whatever the provider does -- after
    at least one and at most [L + 1] provider calls. *)
Theorem attempts_bounded (fuel : nat) (c : AIClient) (input : ChatPromptInput)
    (L : nat) :
  retry_limit c = num: (Z.of_nat L) ->
  (L < fuel)%nat ->
  result (callProvider fuel c input) <> OutOfFuel
  /\ (1 <= attempts (trace (callProvider fuel c input)) <= S L)%nat.
Proof.
  intros Hlim Hfuel.
  destruct (retry_loop_bounded c input L L fuel 0 undefined) as [Hres Hatt];
    [lia | exact Hfuel |].
  fold (retry_limit c) in Hres, Hatt.
  assert (Hexec : executeWithRetry fuel c (chat_work c input) "chat"
                  = retry_loop fuel c (chat_work c input) "chat"
                               (num: (Z.of_nat L)) undefined 0).
  { unfold executeWithRetry. fold (retry_limit c). now rewrite Hlim. }
  destruct (callProvider_trace fuel c input) as (rest & Ht & Hrest).
  split.
  - unfold callProvider, bind, emit, result in *. rewrite Hexec.
    destruct (retry_loop fuel c (chat_work c input) "chat"
                (num: (Z.of_nat L)) undefined 0) as [t [r| |]];
      cbn [fst snd] in *; try discriminate. now contradiction Hres.
  - rewrite Ht, Hexec, !attempts_app.
    replace (attempts (dispatch request_event _ _ _)) with 0%nat.
    2: { unfold attempts.
         now rewrite (dispatch_filter request_event is_attempt false). }
    replace (attempts rest) with 0%nat; [lia|].
    destruct Hrest as [-> | (r & _ & ->)]; [reflexivity|].
    unfold attempts.
    now rewrite (dispatch_filter EvResponseHook is_attempt false).
Qed.

Lemma sleeps_app (t1 t2 : list event) : sleeps (t1 ++ t2) = sleeps t1 ++ sleeps t2.
Proof.
  induction t1 as [|e t1 IH]; [reflexivity|].
  destruct e; cbn [app sleeps]; now rewrite ?IH.
Qed.

Lemma sleeps_dispatch {A} (ev : nat -> A -> event) hooks i arg :
  (forall j x, is_sleep (ev j x) = false) ->
  sleeps (dispatch ev hooks i arg) = [].
Proof.
  intros H. rewrite dispatch_calls.
  induction (seq i (List.length hooks)) as [|j l IH]; [reflexivity|].
  cbn [List.map]. specialize (H j arg).
  destruct (ev j arg); cbn [sleeps]; (discriminate || exact IH).
Qed.

Lemma sleeps_failed_round (c : AIClient) (input : ChatPromptInput) (k : nat) :
  sleeps (failed_round c (chat_work c input) k) = [].
Proof.
  rewrite failed_round_chat. cbn [sleeps]. now apply sleeps_dispatch.
Qed.

Lemma sleeps_retried_rounds (c : AIClient) (input : ChatPromptInput) (n : nat) :
  forall a,
    sleeps (retried_rounds c (chat_work c input) a n)
    = List.map (backoff c) (seq a n).
Proof.
  induction n as [|n IH]; intros a; [reflexivity|].
  cbn [retried_rounds seq List.map].
  rewrite sleeps_app, sleeps_failed_round. cbn [app sleeps]. now rewrite IH.
Qed.

(** X3. Success after retries: when the first [k] attempts fail and are
    retried and attempt [k] succeeds with [r], the call consists of the
    request hooks, the [k] failed rounds each followed by its sleep, the
    successful provider call and the response hooks on [r]; it returns [r]
    decorated, after [k + 1] provider calls. *)
Theorem success_after_retries (fuel : nat) (c : AIClient)
    (input : ChatPromptInput) (k : nat) (r : ChatResult) :
  reaches c (chat_work c input) (retry_limit c) k ->
  chat (c_provider c) k input = Fulfilled r ->
  (k < fuel)%nat ->
  callProvider fuel c input
  = (dispatch request_event (requestHooks c) 0 (c_config c, input)
       ++ (retried_rounds c (chat_work c input) 0 k
             ++ [EvProviderChat k input])
       ++ dispatch EvResponseHook (responseHooks c) 0 r,
     Returned (decorate c r))
  /\ attempts (trace (callProvider fuel c input)) = S k.
Proof.
  intros Hreach Hok Hfuel.
  assert (Hrun : executeWithRetry fuel c (chat_work c input) "chat"
                 = (retried_rounds c (chat_work c input) 0 k
                      ++ [EvProviderChat k input],
                    Returned r)).
  { apply (run_succeeds c (chat_work c input) "chat" (retry_limit c)
             fuel k r Hreach); [|exact Hfuel].
    unfold chat_work. cbn [snd]. exact Hok. }
  assert (Hcall : callProvider fuel c input
                  = (dispatch request_event (requestHooks c) 0 (c_config c, input)
                       ++ (retried_rounds c (chat_work c input) 0 k
                             ++ [EvProviderChat k input])
                       ++ dispatch EvResponseHook (responseHooks c) 0 r,
                     Returned (decorate c r))).
  { rewrite (callProvider_returned fuel c input r) by now rewrite Hrun.
    now rewrite Hrun. }
  split; [exact Hcall|].
  rewrite Hcall. cbn [trace fst]. rewrite !attempts_app.
  rewrite attempts_retried_rounds. unfold attempts at 1 3.
  rewrite (dispatch_filter request_event is_attempt false) by reflexivity.
  rewrite (dispatch_filter EvResponseHook is_attempt false) by reflexivity.
  cbn. lia.
Qed.

(** A run that ends at attempt [k]: what follows the retried rounds holds
    no sleep. *)
Lemma run_ends (c : AIClient) (input : ChatPromptInput) (fuel k : nat) :
  reaches c (chat_work c input) (retry_limit c) k ->
  retried c (chat_work c input) (retry_limit c) k = false ->
  (k < fuel)%nat ->
  exists tail,
    trace (executeWithRetry fuel c (chat_work c input) "chat")
    = retried_rounds c (chat_work c input) 0 k ++ tail
    /\ sleeps tail = [] /\ attempts tail = 1%nat.
Proof.
  intros Hreach Hend Hfuel. unfold executeWithRetry. fold (retry_limit c).
  replace fuel with (k + S (fuel - S k))%nat by lia.
  destruct (run_reaches c (chat_work c input) "chat" (retry_limit c)
              (S (fuel - S k)) k Hreach) as [last ->].
  cbn [trace fst]. eexists. split; [reflexivity|]. unfold trace.
  destruct (retry_loop_cases c (chat_work c input) "chat" (retry_limit c)
              (fuel - S k) last k)
    as [[Hle _] | [(r & _ & E) | [(e & _ & E) | (l & Hr & _)]]].
  - destruct Hreach as [_ Hle']. congruence.
  - rewrite E. now split.
  - rewrite E. cbn [fst]. split; [apply sleeps_failed_round|].
    apply attempts_failed_round.
  - congruence.
Qed.

(** X4. Exponential back-off: in a call that ends at attempt [k], the
    sleeps are, in order, [d * 2^0, d * 2^1, ..., d * 2^(k-1)], where [d] is
    the configured [retryDelay] when that is a non-zero integer; no other
    sleep happens. *)
Theorem backoff_schedule (fuel : nat) (c : AIClient) (input : ChatPromptInput)
    (k : nat) (d : Z) :
  cfg_retryDelay (c_config c) = Some (num: d) ->
  d <> 0%Z ->
  reaches c (chat_work c input) (retry_limit c) k ->
  retried c (chat_work c input) (retry_limit c) k = false ->
  (k < fuel)%nat ->
  sleeps (trace (callProvider fuel c input))
  = List.map (fun j => of_Z (d * 2 ^ Z.of_nat j)) (seq 0 k).
Proof.
  intros Hd Hnz Hreach Hend Hfuel.
  destruct (callProvider_trace fuel c input) as (rest & -> & Hrest).
  destruct (run_ends c input fuel k Hreach Hend Hfuel) as (tail & -> & Hs & _).
  rewrite !sleeps_app, Hs, sleeps_retried_rounds.
  rewrite (sleeps_dispatch request_event) by reflexivity.
  replace (sleeps rest) with (@nil number).
  2: { destruct Hrest as [-> | (r & _ & ->)]; [reflexivity|].
       symmetry. now apply sleeps_dispatch. }
  cbn [app]. rewrite !app_nil_r. apply List.map_ext. intros j.
  unfold backoff, or_else. rewrite Hd. cbn [prop].
  rewrite truthy_of_Z.
  replace (d =? 0)%Z with false by (symmetry; now apply Z.eqb_neq).
  cbn [negb to_number]. unfold pow2, of_Z, num_mul, inject_Z, Qmult.
  cbn [Qnum Qden]. reflexivity.
Qed.

(** X5. A negative retry bound: the loop body never runs, so the provider
    is not called at all and the call fails with the AIClientError
    "Failed to execute chat"; the request hooks have been called. *)
Theorem negative_bound_makes_no_attempt (fuel : nat) (c : AIClient)
    (input : ChatPromptInput) (z : Z) :
  cfg_maxRetries (c_config c) = Some (num: z) ->
  (z < 0)%Z ->
  (0 < fuel)%nat ->
  callProvider fuel c input
  = (dispatch request_event (requestHooks c) 0 (c_config c, input),
     Thrown (AIClientError (MsgFailedToExecute "chat")
                           VUndefined VUndefined undefined)).
Proof.
  intros Hcfg Hneg Hfuel.
  assert (Hlim : retry_limit c = num: z).
  { unfold retry_limit, or_else. rewrite Hcfg. cbn [prop].
    rewrite truthy_of_Z.
    now replace (z =? 0)%Z with false by (symmetry; apply Z.eqb_neq; lia). }
  assert (Hrun : executeWithRetry fuel c (chat_work c input) "chat"
                 = ([], Thrown (AIClientError (MsgFailedToExecute "chat")
                                              VUndefined VUndefined undefined))).
  { unfold executeWithRetry. fold (retry_limit c). rewrite Hlim.
    destruct fuel as [|fuel]; [lia|].
    rewrite retry_loop_exit; [reflexivity|].
    change (of_nat 0) with (of_Z 0).
    unfold less_eq, num_leb. cbn [to_number]. rewrite compare_of_Z.
    now replace (0 ?= z)%Z with Gt by (symmetry; apply Z.compare_gt_iff; lia). }
  rewrite (callProvider_thrown fuel c input _) by now rewrite Hrun.
  rewrite Hrun. cbn [trace fst]. now rewrite app_nil_r.
Qed.

Lemma engine_steps_app (t1 t2 : list event) :
  List.filter is_engine_step (t1 ++ t2)
  = List.filter is_engine_step t1 ++ List.filter is_engine_step t2.
Proof. apply List.filter_app. Qed.

Lemma engine_steps_failed_round (c : AIClient) (input : ChatPromptInput) (k : nat) :
  List.filter is_engine_step (failed_round c (chat_work c input) k)
  = [EvProviderChat k input].
Proof.
  rewrite failed_round_chat. cbn [List.filter is_engine_step is_attempt orb].
  now rewrite (dispatch_filter EvErrorHook is_engine_step false).
Qed.

(** Two clients that differ in their hooks only run the loop alike. *)
Lemma retry_loop_same_setup (c c' : AIClient) (input : ChatPromptInput)
    (mr : value) :
  same_setup c c' ->
  forall fuel last a,
    result (retry_loop fuel c (chat_work c input) "chat" mr last a)
    = result (retry_loop fuel c' (chat_work c' input) "chat" mr last a)
    /\ List.filter is_engine_step
         (trace (retry_loop fuel c (chat_work c input) "chat" mr last a))
       = List.filter is_engine_step
           (trace (retry_loop fuel c' (chat_work c' input) "chat" mr last a)).
Proof.
  intros [Hp Hc].
  assert (Hf : forall k, failure_of c (chat_work c input k)
                         = failure_of c' (chat_work c' input k)).
  { intros k. unfold failure_of, chat_work, executeWithTimeout.
    now rewrite Hp, Hc. }
  assert (Hb : forall k, backoff c k = backoff c' k).
  { intros k. unfold backoff. now rewrite Hc. }
  assert (Hs : forall k e, stop_error c mr k e = stop_error c' mr k e).
  { intros k e. unfold stop_error. now rewrite Hc. }
  induction fuel as [|fuel IH]; intros last a; [now split|].
  destruct (less_eq (VNum (of_nat a)) mr) eqn:Hle.
  2: { now rewrite !retry_loop_exit. }
  destruct (failure_of c (chat_work c input a)) as [e|] eqn:He.
  - pose proof He as He'. rewrite Hf in He'.
    destruct (less (VNum (of_nat a)) mr && isRetryableError e) eqn:Hgo.
    + assert (Hr : retried c (chat_work c input) mr a = true)
        by (unfold retried; now rewrite He).
      assert (Hr' : retried c' (chat_work c' input) mr a = true)
        by (unfold retried; now rewrite He').
      rewrite (retry_loop_retry_with c _ "chat" mr fuel last a e He Hr).
      rewrite (retry_loop_retry_with c' _ "chat" mr fuel last a e He' Hr').
      destruct (IH e (S a)) as [IHr IHt]. cbn [result trace fst snd].
      split; [exact IHr|].
      rewrite !engine_steps_app, !engine_steps_failed_round.
      cbn [List.filter is_engine_step is_attempt is_sleep orb].
      now rewrite IHt, Hb.
    + rewrite (retry_loop_stop c _ "chat" mr fuel last a e Hle He Hgo).
      rewrite (retry_loop_stop c' _ "chat" mr fuel last a e Hle He' Hgo).
      cbn [result trace fst snd]. rewrite !engine_steps_failed_round.
      now rewrite Hs.
  - pose proof He as He'. rewrite Hf in He'.
    unfold failure_of, executeWithTimeout, chat_work in He, He'.
    assert (exists r, chat (c_provider c) a input = Fulfilled r) as [r Hr].
    { destruct (chat (c_provider c) a input) as [r| |]; try discriminate.
      now exists r. }
    rewrite (retry_loop_success c _ "chat" mr fuel last a r Hle)
      by (unfold chat_work; exact Hr).
    rewrite Hp in Hr.
    rewrite (retry_loop_success c' _ "chat" mr fuel last a r Hle)
      by (unfold chat_work; exact Hr).
    now split.
Qed.

(** X6. Hook isolation: hooks are observers here (a hook returns or
    throws; it does not modify the objects it is handed). Two clients with
    the same provider and the same configuration then behave alike
    whatever hooks are registered on them and whether those hooks return
    or throw: the call has the same outcome, and the same provider calls
    and sleeps happen in the same order. *)
Theorem hooks_do_not_influence_call (fuel : nat) (c c' : AIClient)
    (input : ChatPromptInput) :
  same_setup c c' ->
  result (callProvider fuel c input) = result (callProvider fuel c' input)
  /\ List.filter is_engine_step (trace (callProvider fuel c input))
     = List.filter is_engine_step (trace (callProvider fuel c' input)).
Proof.
  intros Hsame.
  destruct (retry_loop_same_setup c c' input (retry_limit c) Hsame
              fuel undefined 0) as [Hr Ht].
  assert (Hlim : retry_limit c = retry_limit c').
  { unfold retry_limit. now rewrite (proj2 Hsame). }
  assert (Hdec : forall r, decorate c r = decorate c' r).
  { intros r. unfold decorate. now rewrite (proj2 Hsame). }
  rewrite Hlim in Hr at 2. rewrite Hlim in Ht at 2.
  change (retry_loop fuel c (chat_work c input) "chat" (retry_limit c)
                     undefined 0)
    with (executeWithRetry fuel c (chat_work c input) "chat") in Hr, Ht.
  change (retry_loop fuel c' (chat_work c' input) "chat" (retry_limit c')
                     undefined 0)
    with (executeWithRetry fuel c' (chat_work c' input) "chat") in Hr, Ht.
  unfold callProvider, bind, emit, ret, trace, result in *.
  destruct (executeWithRetry fuel c (chat_work c input) "chat") as [t o].
  destruct (executeWithRetry fuel c' (chat_work c' input) "chat") as [t' o'].
  cbn [fst snd] in *. subst o'.
  destruct o as [r|e|]; cbn [fst snd]; rewrite ?Hdec; (split; [reflexivity|]);
    rewrite ?app_nil_r, !engine_steps_app;
    rewrite ?(dispatch_filter request_event is_engine_step false) by reflexivity;
    rewrite ?(dispatch_filter EvResponseHook is_engine_step false) by reflexivity;
    cbn [app]; now rewrite ?app_nil_r, Ht.
Qed.

Lemma filter_none {A} (keep : A -> bool) (l : list A) :
  Forall (fun x => keep x = false) l -> List.filter keep l = [].
Proof.
  induction 1 as [|x l Hx _ IH]; [reflexivity|].
  cbn [List.filter]. now rewrite Hx.
Qed.

Lemma engine_calls_no_request_hook (fuel : nat) (c : AIClient)
    (input : ChatPromptInput) :
  Forall (fun ev => is_request_hook ev = false)
         (trace (executeWithRetry fuel c (chat_work c input) "chat")).
Proof.
  eapply List.Forall_impl; [|apply retry_loop_events].
  now intros ev [H _].
Qed.

Lemma engine_calls_no_response_hook (fuel : nat) (c : AIClient)
    (input : ChatPromptInput) :
  Forall (fun ev => is_response_hook ev = false)
         (trace (executeWithRetry fuel c (chat_work c input) "chat")).
Proof.
  eapply List.Forall_impl; [|apply retry_loop_events].
  now intros ev [_ H].
Qed.

(** X7. Order of the hooks in a call: every request hook is called exactly
    once, with the stored configuration and the chat input, before
    anything else happens and whatever the outcome; when the call fails,
    no response hook is called. *)
Theorem request_hooks_first (fuel : nat) (c : AIClient)
    (input : ChatPromptInput) :
  (exists rest,
     trace (callProvider fuel c input)
     = List.map (fun i => EvRequestHook i (c_config c) input)
                (seq 0 (List.length (requestHooks c)))
       ++ rest
     /\ Forall (fun ev => is_request_hook ev = false) rest)
  /\ (forall e, result (callProvider fuel c input) = Thrown e ->
      List.filter is_response_hook (trace (callProvider fuel c input)) = []).
Proof.
  destruct (callProvider_trace fuel c input) as (rest & Ht & Hrest).
  split.
  - rewrite Ht, dispatch_calls. eexists. split; [reflexivity|].
    apply Forall_app. split; [apply engine_calls_no_request_hook|].
    destruct Hrest as [-> | (r & _ & ->)]; [constructor|].
    rewrite dispatch_calls. apply List.Forall_forall. intros ev H.
    apply in_map_iff in H as (j & <- & _). reflexivity.
  - intros e He.
    assert (Hx : result (executeWithRetry fuel c (chat_work c input) "chat")
                 = Thrown e).
    { unfold callProvider, bind, emit, ret, result in *.
      destruct (executeWithRetry fuel c (chat_work c input) "chat")
        as [t [r| |]]; cbn [fst snd] in *; congruence. }
    rewrite (callProvider_thrown fuel c input e Hx). cbn [trace fst].
    rewrite List.filter_app.
    rewrite (dispatch_filter request_event is_response_hook false)
      by reflexivity.
    apply filter_none, engine_calls_no_response_hook.
Qed.

Lemma retry_loop_attempt_events (c : AIClient) (input : ChatPromptInput)
    (mr : value) (fuel : nat) : forall last a,
  List.filter is_attempt
    (trace (retry_loop fuel c (chat_work c input) "chat" mr last a))
  = List.map (fun k => EvProviderChat k input)
      (seq a (attempts
                (trace (retry_loop fuel c (chat_work c input) "chat" mr last a)))).
Proof.
  assert (Hround : forall a,
    List.filter is_attempt (failed_round c (chat_work c input) a)
    = [EvProviderChat a input]).
  { intros a. rewrite failed_round_chat. cbn [List.filter is_attempt].
    now rewrite (dispatch_filter EvErrorHook is_attempt false). }
  induction fuel as [|fuel IH]; intros last a; [reflexivity|].
  destruct (retry_loop_cases c (chat_work c input) "chat" mr fuel last a)
    as [[_ E] | [(r & _ & E) | [(e & _ & E) | (l & _ & E)]]];
    rewrite E; cbn [trace fst].
  - reflexivity.
  - reflexivity.
  - rewrite attempts_failed_round. apply Hround.
  - rewrite attempts_app, attempts_failed_round, List.filter_app, Hround.
    cbn [List.filter is_attempt app Nat.add seq List.map]. f_equal.
    change (attempts (EvSleep (backoff c a) :: ?[t]))
      with (attempts (trace (retry_loop fuel c (chat_work c input) "chat"
                               mr l (S a)))).
    apply IH.
Qed.

(** X8. Every attempt of a call sends the same chat input: the provider
    calls of a call are numbered 0, 1, 2, ... without a gap and each one
    passes the input the call was made with. *)
Theorem every_attempt_sends_the_input (fuel : nat) (c : AIClient)
    (input : ChatPromptInput) :
  List.filter is_attempt (trace (callProvider fuel c input))
  = List.map (fun k => EvProviderChat k input)
      (seq 0 (attempts (trace (callProvider fuel c input)))).
Proof.
  destruct (callProvider_trace fuel c input) as (rest & -> & Hrest).
  assert (Hr : List.filter is_attempt rest = []).
  { destruct Hrest as [-> | (r & _ & ->)]; [reflexivity|].
    now rewrite (dispatch_filter EvResponseHook is_attempt false). }
  unfold attempts. rewrite !List.filter_app, Hr.
  rewrite (dispatch_filter request_event is_attempt false) by reflexivity.
  cbn [app]. rewrite app_nil_r.
  apply (retry_loop_attempt_events c input (retry_limit c) fuel undefined 0).
Qed.

Lemma dispatch_snoc {A} (ev : nat -> A -> event) (hooks : list (A -> completion))
    (hook : A -> completion) (arg : A) :
  dispatch ev (hooks ++ [hook]) 0 arg
  = dispatch ev hooks 0 arg ++ [ev (List.length hooks) arg].
Proof.
  rewrite !dispatch_calls, List.length_app. cbn [List.length].
  rewrite Nat.add_1_r, List.seq_S, List.map_app. reflexivity.
Qed.

Lemma retry_loop_onResponse (c : AIClient) (hook : ResponseHook)
    (input : ChatPromptInput) (mr : value) (fuel : nat) : forall last a,
  retry_loop fuel (onResponse c hook) (chat_work (onResponse c hook) input)
             "chat" mr last a
  = retry_loop fuel c (chat_work c input) "chat" mr last a.
Proof.
  induction fuel as [|fuel IH]; intros last a; [reflexivity|].
  cbn [retry_loop].
  destruct (less_eq (VNum (of_nat a)) mr); [|reflexivity].
  unfold chat_work at 1 3. unfold executeWithTimeout, try_catch.
  cbn [onResponse c_provider c_config errorHooks].
  destruct (chat (c_provider c) a input) as [r|e|]; [reflexivity| |];
    (destruct (less _ _ && isRetryableError _); [|reflexivity]);
    unfold bind, emit; now rewrite IH.
Qed.

(** X9. Registering one more response hook does not disturb a call that
    succeeds: the call returns the same value, every earlier event happens
    as before, and the new hook is called once, last, with the provider's
    result. *)
Theorem later_response_hook_is_called_last (fuel : nat) (c : AIClient)
    (hook : ResponseHook) (input : ChatPromptInput) (r : ChatResult) :
  result (executeWithRetry fuel c (chat_work c input) "chat") = Returned r ->
  callProvider fuel (onResponse c hook) input
  = (trace (callProvider fuel c input)
       ++ [EvResponseHook (List.length (responseHooks c)) r],
     result (callProvider fuel c input)).
Proof.
  intros Hr.
  assert (Hsame : executeWithRetry fuel (onResponse c hook)
                    (chat_work (onResponse c hook) input) "chat"
                  = executeWithRetry fuel c (chat_work c input) "chat").
  { apply retry_loop_onResponse. }
  rewrite (callProvider_returned fuel (onResponse c hook) input r)
    by now rewrite Hsame.
  rewrite (callProvider_returned fuel c input r Hr), Hsame.
  cbn [trace result fst snd onResponse requestHooks responseHooks c_config].
  unfold ResponseHook in *.
  rewrite (dispatch_snoc EvResponseHook (responseHooks c) hook r).
  rewrite <- !app_assoc. reflexivity.
Qed.

(* ===================================================================== *)
(** ** More on construction and the environment *)
(* ===================================================================== *)

Lemma invoke_returns (fuel : nat) (c : AIClient) (rq : request)
    (out : TaskResult + ChatResult) :
  result (invoke fuel c rq) = Returned out ->
  exists d, result (callProvider fuel c (input_of c rq)) = Returned d
            /\ out_provider out = provider d /\ out_model out = model d.
Proof.
  destruct rq; cbn [invoke input_of];
    unfold summarize, fixGrammar, translate, answerQuestion, rewrite',
      summarizeToBullets, extractKeywords, detectLanguage, classifySentiment,
      customPrompt, client_chat, bind, ret, trace, result;
    match goal with
    | |- context [callProvider ?f ?c ?i] =>
        destruct (callProvider f c i) as [t [d'| |]]
    end; cbn [fst snd];
    try (destruct (parse_sentiment (content d')) as [s sc]);
    cbn [fst snd]; intros H; try discriminate;
    injection H as <-; exists d'; now repeat split.
Qed.

Lemma callProvider_returns (fuel : nat) (c : AIClient)
    (input : ChatPromptInput) (d : ChatResult) :
  result (callProvider fuel c input) = Returned d ->
  exists r, d = decorate c r.
Proof.
  unfold callProvider, bind, emit, ret, result.
  destruct (executeWithRetry fuel c (chat_work c input) "chat")
    as [t [r| |]]; cbn [fst snd]; intros H; try discriminate.
  injection H as <-. now exists r.
Qed.

(** X10. A client built by the constructor tags every result: whatever
    hooks were registered afterwards, each chat-path method that returns
    hands back a result whose provider is "openai" or "gemini" (the
    configured one) and whose model is not empty, even when the provider's
    own result named no model. *)
Theorem constructed_client_tags_results (sdk : Providers)
    (config : AIClientConfig) (built c : AIClient) (fuel : nat) (rq : request)
    (out : TaskResult + ChatResult) :
  result (new_AIClient sdk config) = Returned built ->
  c_config c = c_config built ->
  result (invoke fuel c rq) = Returned out ->
  out_provider out = prop (cfg_provider config)
  /\ Spec.recognized (out_provider out)
  /\ truthy (out_model out) = true.
Proof.
  intros Hbuilt Hcfg Hout.
  destruct (invoke_returns fuel c rq out Hout) as (d & Hd & -> & ->).
  destruct (callProvider_returns fuel c _ d Hd) as [r ->].
  cbn [decorate provider model]. rewrite Hcfg.
  destruct (new_AIClient_cases sdk config)
    as [[_ E] | [(_ & _ & E) | (_ & Hp & c' & t & E & Hc)]];
    rewrite E in Hbuilt; cbn [result snd] in Hbuilt; try discriminate.
  injection Hbuilt as <-.
  assert (Hprov : prop (cfg_provider (spread defaults config))
                  = prop (cfg_provider config)).
  { cbn. now destruct (cfg_provider config). }
  assert (Hmod : prop (cfg_model (spread defaults config))
                 = prop (cfg_model config)).
  { cbn. now destruct (cfg_model config). }
  destruct Hc as [[-> Hm] | (m & -> & Hdef & _)].
  - rewrite Hprov, Hmod. repeat split; trivial.
    unfold or_else. now destruct (truthy (model r)) eqn:E'.
  - cbn [set_model cfg_provider cfg_model prop].
    change (spread_prop (cfg_provider defaults) (cfg_provider config))
      with (cfg_provider (spread defaults config)).
    rewrite Hprov. repeat split; trivial.
    unfold or_else. destruct (truthy (model r)) eqn:E'; [exact E'|].
    now destruct Hdef as [[_ ->]|[_ ->]].
Qed.

(** How [parseEnvConfig] resolves the provider and the credential. *)
Lemma parseEnvConfig_resolution (env : gmap string string) :
  let p := or_else (getenv env "AI_PROVIDER") (getenv env "PROVIDER") in
  let openaiKey := getenv env "OPENAI_API_KEY" in
  let geminiKey :=
    or_else (getenv env "GEMINI_API_KEY") (getenv env "GOOGLE_AI_API_KEY") in
  exists rp k,
    cfg_provider (parseEnvConfig env) = Some rp
    /\ cfg_apiKey (parseEnvConfig env) = Some k
    /\ ((p = VStr "openai" /\ truthy openaiKey = true
         /\ rp = VStr "openai" /\ k = openaiKey)
        \/ (p = VStr "gemini" /\ truthy geminiKey = true
            /\ rp = VStr "gemini" /\ k = geminiKey)
        \/ (truthy p = false /\ truthy openaiKey = true
            /\ rp = VStr "openai" /\ k = openaiKey)
        \/ (truthy p = false /\ truthy openaiKey = false
            /\ truthy geminiKey = true
            /\ rp = VStr "gemini" /\ k = geminiKey)
        \/ (rp = p /\ k = VUndefined
            /\ ~ (p = VStr "openai" /\ truthy openaiKey = true)
            /\ ~ (p = VStr "gemini" /\ truthy geminiKey = true)
            /\ ~ (truthy p = false
                  /\ (truthy openaiKey = true \/ truthy geminiKey = true)))).
Proof.
  intros p openaiKey geminiKey. unfold parseEnvConfig.
  fold p openaiKey geminiKey.
  destruct (strict_eq p (VStr "openai")) eqn:Ho;
    [apply strict_eq_string in Ho|];
    destruct (truthy openaiKey) eqn:Hok; cbn [andb].
  1: { eexists _, _. split; [reflexivity|]. split; [reflexivity|].
       left. repeat split; trivial; try now rewrite Ho. }
  all: destruct (strict_eq p (VStr "gemini")) eqn:Hg;
    [apply strict_eq_string in Hg|];
    destruct (truthy geminiKey) eqn:Hgk; cbn [andb];
    destruct (truthy p) eqn:Hp; cbn [negb];
    eexists _, _; (split; [reflexivity|]); (split; [reflexivity|]).
  all: try (rewrite Ho in Hg; discriminate Hg).
  all: try (rewrite Ho in Hp; discriminate Hp).
  all: try (rewrite Hg in Hp; discriminate Hp).
  all: try (right; left; repeat split; trivial; now rewrite Hg).
  all: try (right; right; left; now repeat split).
  all: try (right; right; right; left; now repeat split).
  all: right; right; right; right; repeat split; trivial;
    try (intros [H1 H2]; try congruence;
         try (rewrite H1 in Ho; discriminate Ho);
         try (rewrite H1 in Hg; discriminate Hg);
         try (destruct H2; congruence)).
Qed.

Lemma new_AIClient_succeeds (sdk : Providers) (config : AIClientConfig) :
  truthy (prop (cfg_apiKey config)) = true ->
  Spec.recognized (prop (cfg_provider config)) ->
  exists c t,
    new_AIClient sdk config = (t, Returned c)
    /\ cfg_provider (c_config c) = cfg_provider (spread defaults config)
    /\ cfg_apiKey (c_config c) = cfg_apiKey (spread defaults config)
    /\ (truthy (prop (cfg_model config)) = true ->
        cfg_model (c_config c) = cfg_model (spread defaults config)).
Proof.
  intros Hkey Hp.
  destruct (new_AIClient_cases sdk config)
    as [[Hk _] | [(_ & Hn & _) | (_ & _ & c & t & E & Hc)]];
    [congruence | contradiction |].
  exists c, t. split; [exact E|].
  destruct Hc as [[-> _] | (m & -> & _ & Hm)]; repeat split; trivial.
  intros H. congruence.
Qed.

(** X11. [fromEnv] fails in one way only: with the error that names the
    missing environment variables, before any provider is created. It
    succeeds exactly when the provider variable is "openai" and an OpenAI
    key is set, or it is "gemini" and a Gemini key is set, or no provider
    is named and some key is set; any other provider name is reported as
    missing variables, never as an unsupported provider. *)
Theorem fromEnv_fails_only_for_missing_variables (sdk : Providers)
    (env : gmap string string) :
  let p := or_else (getenv env "AI_PROVIDER") (getenv env "PROVIDER") in
  let openaiKey := getenv env "OPENAI_API_KEY" in
  let geminiKey :=
    or_else (getenv env "GEMINI_API_KEY") (getenv env "GOOGLE_AI_API_KEY") in
  (forall e, result (fromEnv sdk env) = Thrown e ->
     e = AIClientError MsgMissingEnv VUndefined VUndefined undefined
     /\ trace (fromEnv sdk env) = [])
  /\ ((exists c, result (fromEnv sdk env) = Returned c)
      <-> (p = VStr "openai" /\ truthy openaiKey = true)
          \/ (p = VStr "gemini" /\ truthy geminiKey = true)
          \/ (truthy p = false
              /\ (truthy openaiKey = true \/ truthy geminiKey = true))).
Proof.
  intros p openaiKey geminiKey.
  destruct (parseEnvConfig_resolution env) as (rp & k & Hrp & Hk & Hcases).
  fold p openaiKey geminiKey in Hcases.
  assert (Hgood : truthy rp = true -> truthy k = true ->
                  Spec.recognized rp /\ exists c t,
                    fromEnv sdk env = (t, Returned c)).
  { intros Hrt Hkt.
    assert (Hrec : Spec.recognized rp).
    { destruct Hcases as [H|[H|[H|[H|H]]]];
        try (destruct H as (_ & _ & -> & _); (now left) || (now right)).
      - destruct H as (_ & _ & _ & -> & _). now right.
      - destruct H as (_ & -> & _). discriminate. }
    split; [exact Hrec|].
    destruct (new_AIClient_succeeds sdk (parseEnvConfig env))
      as (c & t & E & _).
    { now rewrite Hk. }
    { now rewrite Hrp. }
    exists c, t. unfold fromEnv. rewrite Hrp, Hk. cbn [prop].
    rewrite Hrt, Hkt. exact E. }
  assert (Hbad : truthy rp = false \/ truthy k = false ->
                 fromEnv sdk env
                 = ([], Thrown (AIClientError MsgMissingEnv
                                              VUndefined VUndefined undefined))).
  { intros H. unfold fromEnv. rewrite Hrp, Hk. cbn [prop].
    destruct H as [-> | ->]; [reflexivity|]. now rewrite orb_true_r. }
  split.
  - intros e He.
    destruct (truthy rp) eqn:Hrt; [destruct (truthy k) eqn:Hkt|].
    + destruct (Hgood eq_refl eq_refl) as (_ & c & t & E).
      rewrite E in He. discriminate.
    + rewrite Hbad in * by now right. cbn in He. injection He as <-.
      now split.
    + rewrite Hbad in * by now left. cbn in He. injection He as <-.
      now split.
  - split.
    + intros [c Hc].
      destruct (truthy rp) eqn:Hrt; [destruct (truthy k) eqn:Hkt|].
      * destruct Hcases as [H|[H|[H|[H|H]]]].
        -- left. tauto.
        -- right. left. tauto.
        -- right. right. tauto.
        -- right. right. tauto.
        -- destruct H as (_ & -> & _). discriminate.
      * rewrite Hbad in Hc by now right. discriminate.
      * rewrite Hbad in Hc by now left. discriminate.
    + intros Hcond.
      assert (Hk' : truthy rp = true /\ truthy k = true).
      { destruct Hcases as [H|[H|[H|[H|H]]]].
        - destruct H as (_ & H & -> & ->). now split.
        - destruct H as (_ & H & -> & ->). now split.
        - destruct H as (_ & H & -> & ->). now split.
        - destruct H as (_ & _ & H & -> & ->). now split.
        - destruct H as (_ & _ & H1 & H2 & H3). tauto. }
      destruct (Hgood (proj1 Hk') (proj2 Hk')) as (_ & c & t & E).
      exists c. now rewrite E.
Qed.

(** X12. The credential of a client built by [fromEnv] belongs to its
    provider: the stored pair is "openai" with OPENAI_API_KEY, or "gemini"
    with GEMINI_API_KEY (GOOGLE_AI_API_KEY when that one is unset or
    empty); when no provider is named and both keys are set, OpenAI is
    chosen. The stored credential is never empty. *)
Theorem fromEnv_credential_matches_provider (sdk : Providers)
    (env : gmap string string) (c : AIClient) :
  result (fromEnv sdk env) = Returned c ->
  let p := or_else (getenv env "AI_PROVIDER") (getenv env "PROVIDER") in
  let openaiKey := getenv env "OPENAI_API_KEY" in
  let geminiKey :=
    or_else (getenv env "GEMINI_API_KEY") (getenv env "GOOGLE_AI_API_KEY") in
  truthy (prop (cfg_apiKey (c_config c))) = true
  /\ (cfg_provider (c_config c) = Some (VStr "openai")
      /\ cfg_apiKey (c_config c) = Some openaiKey
      \/ cfg_provider (c_config c) = Some (VStr "gemini")
         /\ cfg_apiKey (c_config c) = Some geminiKey)
  /\ (truthy p = false -> truthy openaiKey = true ->
      cfg_provider (c_config c) = Some (VStr "openai")).
Proof.
  intros Hc p openaiKey geminiKey.
  destruct (parseEnvConfig_resolution env) as (rp & k & Hrp & Hk & Hcases).
  fold p openaiKey geminiKey in Hcases.
  unfold fromEnv in Hc. rewrite Hrp, Hk in Hc. cbn [prop] in Hc.
  destruct (truthy rp) eqn:Hrt; [|discriminate].
  destruct (truthy k) eqn:Hkt; [|discriminate]. cbn [negb orb] in Hc.
  assert (Hrec : Spec.recognized rp).
  { destruct Hcases as [H|[H|[H|[H|H]]]];
      try (destruct H as (_ & _ & -> & _); (now left) || (now right)).
    - destruct H as (_ & _ & _ & -> & _). now right.
    - destruct H as (_ & -> & _). discriminate. }
  destruct (new_AIClient_succeeds sdk (parseEnvConfig env))
    as (c' & t & E & Hp' & Hk' & _).
  { now rewrite Hk. }
  { now rewrite Hrp. }
  rewrite E in Hc. cbn in Hc. injection Hc as <-.
  rewrite Hp', Hk'. cbn [spread cfg_provider cfg_apiKey defaults spread_prop].
  rewrite Hrp, Hk. cbn [prop]. split; [exact Hkt|]. split.
  - destruct Hcases as [H|[H|[H|[H|H]]]].
    + destruct H as (_ & _ & -> & ->). now left.
    + destruct H as (_ & _ & -> & ->). now right.
    + destruct H as (_ & _ & -> & ->). now left.
    + destruct H as (_ & _ & _ & -> & ->). now right.
    + destruct H as (_ & -> & _). discriminate.
  - intros Hp Ho.
    destruct Hcases as [H|[H|[H|[H|H]]]].
    + now destruct H as (_ & _ & -> & _).
    + destruct H as (H & _). rewrite H in Hp. discriminate.
    + now destruct H as (_ & _ & -> & _).
    + destruct H as (_ & H & _). congruence.
    + destruct H as (_ & -> & _). discriminate.
Qed.


(** One turn of the loop, by cases, with what decides each case. *)
Lemma retry_loop_turn {T} (c : AIClient) (fn : nat -> Attempt T)
    (operation : string) (mr : value) (fuel : nat) (last : exn) (a : nat) :
  let turn := retry_loop (S fuel) c fn operation mr last a in
  (less_eq (VNum (of_nat a)) mr = false
   /\ turn = ([], Thrown (if falsy last
                          then AIClientError (MsgFailedToExecute operation)
                                             VUndefined VUndefined undefined
                          else last)))
  \/ (exists r, less_eq (VNum (of_nat a)) mr = true
                /\ snd (fn a) = Fulfilled r
                /\ turn = (fst (fn a), Returned r))
  \/ (exists e, less_eq (VNum (of_nat a)) mr = true
                /\ failure_of c (fn a) = Some e
                /\ less (VNum (of_nat a)) mr && isRetryableError e = false
                /\ turn = (failed_round c fn a, Thrown (stop_error c mr a e)))
  \/ (exists e, failure_of c (fn a) = Some e
                /\ less (VNum (of_nat a)) mr = true
                /\ isRetryableError e = true
                /\ turn
                   = (failed_round c fn a ++ EvSleep (backoff c a)
                        :: trace (retry_loop fuel c fn operation mr e (S a)),
                      result (retry_loop fuel c fn operation mr e (S a)))).
Proof.
  intros turn. subst turn.
  destruct (less_eq (VNum (of_nat a)) mr) eqn:Hle.
  2: { left. split; [reflexivity|]. now apply retry_loop_exit. }
  right.
  destruct (failure_of c (fn a)) as [e|] eqn:He.
  - right.
    destruct (less (VNum (of_nat a)) mr && isRetryableError e) eqn:Hgo.
    + right. exists e. pose proof Hgo as Hgo'.
      apply andb_true_iff in Hgo' as [Hlt Hre].
      repeat split; trivial.
      apply retry_loop_retry_with; [exact He|].
      unfold retried. now rewrite He.
    + left. exists e. repeat split; trivial.
      now apply retry_loop_stop.
  - left. unfold failure_of, executeWithTimeout in He.
    destruct (fn a) as [t [r|e|]] eqn:Hfn; cbn in He; try discriminate.
    exists r. repeat split; trivial.
    rewrite <- Hfn. apply retry_loop_success; [exact Hle|].
    now rewrite Hfn.
Qed.

Lemma stop_error_last_not_retryable (c : AIClient) (mr : value) (k : nat)
    (e : exn) :
  strict_eq (VNum (of_nat k)) mr = true ->
  isRetryableError (stop_error c mr k e) = false.
Proof.
  intros H. unfold stop_error. rewrite H.
  destruct e as [[| | b | n | s] | cls m st sc rs cd p rt o]; reflexivity.
Qed.

Lemma retry_loop_throws_non_retryable (c : AIClient) (input : ChatPromptInput)
    (L : nat) :
  forall n fuel a last e,
    (a + n = L)%nat -> (n < fuel)%nat ->
    result (retry_loop fuel c (chat_work c input) "chat"
                       (num: (Z.of_nat L)) last a) = Thrown e ->
    isRetryableError e = false.
Proof.
  induction n as [|n IH]; intros fuel a last e Ha Hfuel;
    (destruct fuel as [|fuel]; [lia|]);
    destruct (retry_loop_turn c (chat_work c input) "chat"
                (num: (Z.of_nat L)) fuel last a)
      as [[Hle _] | [(r & _ & _ & E) | [(e' & _ & He' & Hgo & E)
                                       | (e' & He' & Hlt & Hre & E)]]].
  all: try (rewrite less_eq_of_nat in Hle; apply Z.leb_gt in Hle; lia).
  all: try (rewrite E; cbn [result snd]; discriminate).
  all: try (rewrite less_of_nat in Hlt; apply Z.ltb_lt in Hlt; lia).
  - (* the last permitted attempt fails *)
    rewrite E. cbn [result snd]. intros H. injection H as <-.
    apply stop_error_last_not_retryable.
    rewrite strict_eq_of_nat. apply Z.eqb_eq. lia.
  - (* an earlier attempt fails and the loop stops *)
    rewrite E. cbn [result snd]. intros H. injection H as <-.
    unfold stop_error.
    replace (strict_eq (VNum (of_nat a)) (num: (Z.of_nat L))) with false
      by (symmetry; rewrite strict_eq_of_nat; apply Z.eqb_neq; lia).
    apply andb_false_iff in Hgo as [Hlt | Hno]; [|exact Hno].
    rewrite less_of_nat in Hlt. apply Z.ltb_ge in Hlt. lia.
  - rewrite E. cbn [result snd]. intros H.
    apply (IH fuel (S a) e' e); [lia | lia | exact H].
Qed.

(** X14. No retryable failure escapes: with a retry bound that is a
    natural number, the error a failed call throws is never classified
    retryable -- a retryable failure is either retried or, on the last
    permitted attempt, wrapped in a RetryError. *)
Theorem thrown_error_is_not_retryable (fuel : nat) (c : AIClient)
    (input : ChatPromptInput) (L : nat) (e : exn) :
  retry_limit c = num: (Z.of_nat L) ->
  (L < fuel)%nat ->
  result (callProvider fuel c input) = Thrown e ->
  isRetryableError e = false.
Proof.
  intros Hlim Hfuel He.
  assert (Hx : result (executeWithRetry fuel c (chat_work c input) "chat")
               = Thrown e).
  { unfold callProvider, bind, emit, ret, result in *.
    destruct (executeWithRetry fuel c (chat_work c input) "chat")
      as [t [r| |]]; cbn [fst snd] in *; congruence. }
  unfold executeWithRetry in Hx. fold (retry_limit c) in Hx.
  rewrite Hlim in Hx.
  apply (retry_loop_throws_non_retryable c input L L fuel 0 undefined e);
    [lia | exact Hfuel | exact Hx].
Qed.

(* ===================================================================== *)
(** ** Strings: trimming and splitting *)
(* ===================================================================== *)

Lemma trimStart_length (s : string) :
  (String.length (trimStart s) <= String.length s)%nat.
Proof.
  induction s as [|ch s IH]; [reflexivity|].
  cbn [trimStart]. destruct (is_space ch); cbn [String.length]; lia.
Qed.

(** A string that [trimStart] leaves alone does not begin with a space. *)
Lemma trimStart_fixed (ch : ascii) (s : string) :
  trimStart (String ch s) = String ch s -> is_space ch = false.
Proof.
  cbn [trimStart]. destruct (is_space ch); [|reflexivity].
  intros H. pose proof (trimStart_length s) as Hl.
  rewrite H in Hl. cbn [String.length] in Hl. lia.
Qed.

Lemma trimStart_idempotent (s : string) : trimStart (trimStart s) = trimStart s.
Proof.
  induction s as [|ch s IH]; [reflexivity|].
  cbn [trimStart]. destruct (is_space ch) eqn:E; [exact IH|].
  cbn [trimStart]. now rewrite E.
Qed.

Lemma trimEnd_idempotent (s : string) : trimEnd (trimEnd s) = trimEnd s.
Proof.
  induction s as [|ch s IH]; [reflexivity|].
  cbn [trimEnd]. destruct (trimEnd s) as [|a r] eqn:E.
  - destruct (is_space ch) eqn:Hc; [reflexivity|].
    cbn [trimEnd]. now rewrite Hc.
  - cbn [trimEnd]. cbn [trimEnd] in IH. now rewrite IH.
Qed.



Lemma trimStart_trimEnd (s : string) :
  trimStart s = s -> trimStart (trimEnd s) = trimEnd s.
Proof.
  destruct s as [|ch s]; [reflexivity|]. intros H.
  apply trimStart_fixed in H.
  cbn [trimEnd]. destruct (trimEnd s).
  - rewrite H. cbn [trimStart]. now rewrite H.
  - cbn [trimStart]. now rewrite H.
Qed.

Lemma trim_idempotent (s : string) : trim (trim s) = trim s.
Proof.
  unfold trim.
  rewrite (trimStart_trimEnd (trimStart s)) by apply trimStart_idempotent.
  apply trimEnd_idempotent.
Qed.


Lemma lacks_trimStart (ch : ascii) (s : string) :
  lacks ch s = true -> lacks ch (trimStart s) = true.
Proof.
  induction s as [|a s IH]; [reflexivity|]. intros H.
  cbn [trimStart]. destruct (is_space a); [|exact H].
  cbn [lacks] in H. apply andb_true_iff in H. now apply IH.
Qed.

Lemma lacks_trimEnd (ch : ascii) (s : string) :
  lacks ch s = true -> lacks ch (trimEnd s) = true.
Proof.
  induction s as [|a s IH]; [reflexivity|]. intros H.
  cbn [lacks] in H. apply andb_true_iff in H as [Ha Hs].
  cbn [trimEnd]. specialize (IH Hs). destruct (trimEnd s) as [|b r].
  - destruct (is_space a); [reflexivity|]. cbn [lacks]. now rewrite Ha.
  - cbn [lacks] in *. now rewrite Ha, IH.
Qed.

Lemma lacks_trim (ch : ascii) (s : string) :
  lacks ch s = true -> lacks ch (trim s) = true.
Proof. intros H. now apply lacks_trimEnd, lacks_trimStart. Qed.

Lemma split_not_nil (sep : ascii) (s : string) : split sep s <> [].
Proof.
  destruct s as [|ch s]; [discriminate|]. cbn [split].
  destruct (Ascii.eqb ch sep); [discriminate|].
  now destruct (split sep s).
Qed.

(** No part of a split holds the separator. *)
Lemma split_lacks (sep : ascii) (s : string) :
  Forall (fun p => lacks sep p = true) (split sep s).
Proof.
  induction s as [|ch s IH]; [repeat constructor|].
  cbn [split]. destruct (Ascii.eqb ch sep) eqn:E.
  - constructor; [reflexivity | exact IH].
  - destruct (split sep s) as [|h t]; [repeat constructor; cbn; now rewrite E|].
    inversion IH as [|? ? Hh Ht]; subst. constructor; [|exact Ht].
    cbn [lacks]. now rewrite E, Hh.
Qed.

(** A string without the separator is its own single part. *)
Lemma split_whole (sep : ascii) (s : string) :
  lacks sep s = true -> split sep s = [s].
Proof.
  induction s as [|ch s IH]; [reflexivity|]. intros H.
  cbn [lacks] in H. apply andb_true_iff in H as [Hc Hs].
  cbn [split]. apply negb_true_iff in Hc. now rewrite Hc, (IH Hs).
Qed.

(** Splitting at the first separator. *)
Lemma split_at_first (sep : ascii) (s rest : string) :
  lacks sep s = true ->
  split sep (s +:+ String sep rest) = s :: split sep rest.
Proof.
  induction s as [|ch s IH]; intros H.
  - simpl. now rewrite Ascii.eqb_refl.
  - cbn [lacks] in H. apply andb_true_iff in H as [Hc Hs].
    apply negb_true_iff in Hc.
    simpl. rewrite Hc. simpl in IH. now rewrite (IH Hs).
Qed.

Lemma lower_char_idempotent (ch : ascii) :
  lower_char (lower_char ch) = lower_char ch.
Proof.
  destruct ch as [b0 b1 b2 b3 b4 b5 b6 b7].
  destruct b0, b1, b2, b3, b4, b5, b6, b7; reflexivity.
Qed.

Lemma is_space_lower_char (ch : ascii) : is_space (lower_char ch) = is_space ch.
Proof.
  destruct ch as [b0 b1 b2 b3 b4 b5 b6 b7].
  destruct b0, b1, b2, b3, b4, b5, b6, b7; reflexivity.
Qed.

Lemma toLowerCase_idempotent (s : string) :
  toLowerCase (toLowerCase s) = toLowerCase s.
Proof.
  induction s as [|ch s IH]; [reflexivity|].
  cbn [toLowerCase]. now rewrite lower_char_idempotent, IH.
Qed.

Lemma toLowerCase_length (s : string) :
  String.length (toLowerCase s) = String.length s.
Proof.
  induction s as [|ch s IH]; [reflexivity|].
  cbn [toLowerCase String.length]. now rewrite IH.
Qed.

Lemma trimStart_toLowerCase (s : string) :
  trimStart (toLowerCase s) = toLowerCase (trimStart s).
Proof.
  induction s as [|ch s IH]; [reflexivity|].
  cbn [toLowerCase trimStart]. rewrite is_space_lower_char.
  now destruct (is_space ch).
Qed.

Lemma trimEnd_toLowerCase (s : string) :
  trimEnd (toLowerCase s) = toLowerCase (trimEnd s).
Proof.
  induction s as [|ch s IH]; [reflexivity|].
  cbn [toLowerCase trimEnd]. rewrite IH, is_space_lower_char.
  destruct (trimEnd s); cbn [toLowerCase]; [now destruct (is_space ch)|].
  reflexivity.
Qed.

Lemma trim_toLowerCase (s : string) : trim (toLowerCase s) = toLowerCase (trim s).
Proof. unfold trim. now rewrite trimStart_toLowerCase, trimEnd_toLowerCase. Qed.

Lemma nonempty_true (s : string) : nonempty s = true <-> s <> "".
Proof.
  unfold nonempty. rewrite negb_true_iff. apply String.eqb_neq.
Qed.

(** What [parse_keywords] keeps is well formed. *)
Lemma parse_keywords_wellformed (text : string) :
  Forall keyword (parse_keywords text).
Proof.
  unfold parse_keywords. apply List.Forall_forall. intros k Hk.
  apply List.filter_In in Hk as [Hin Hne].
  apply in_map_iff in Hin as (p & <- & Hp).
  pose proof (split_lacks "," text) as Hl.
  rewrite List.Forall_forall in Hl. specialize (Hl p Hp).
  split; [now apply nonempty_true|]. split.
  - now apply lacks_trim.
  - apply trim_idempotent.
Qed.

Lemma split_join_comma (k : string) (ks : list string) :
  Forall keyword (k :: ks) ->
  split "," (join_comma (k :: ks)) = k :: List.map (String " ") ks.
Proof.
  revert k. induction ks as [|k2 ks IH]; intros k H.
  - inversion H as [|? ? (_ & Hk & _) _]; subst. cbn [join_comma List.map].
    now apply split_whole.
  - inversion H as [|? ? (_ & Hk & _) Hrest]; subst.
    change (join_comma (k :: k2 :: ks))
      with (k +:+ String "," (String " " (join_comma (k2 :: ks)))).
    rewrite (split_at_first "," k _ Hk). f_equal.
    cbn [split]. change (Ascii.eqb " " ",") with false. cbv iota.
    now rewrite (IH k2 Hrest).
Qed.

Lemma trim_after_space (k : string) : trim (String " " k) = trim k.
Proof. reflexivity. Qed.

(** X15. Keywords round trip: a list of well-formed keywords (not empty,
    no comma, no white space at either end) written out as a
    comma-separated list is read back unchanged by the keyword parser. *)
Theorem parse_keywords_join (ks : list string) :
  Forall keyword ks -> parse_keywords (join_comma ks) = ks.
Proof.
  intros H. unfold parse_keywords.
  destruct ks as [|k ks]; [reflexivity|].
  rewrite (split_join_comma k ks H). cbn [List.map List.filter].
  inversion H as [|? ? (Hne & _ & Htrim) Hrest]; subst.
  rewrite Htrim. replace (nonempty k) with true
    by (symmetry; now apply nonempty_true).
  f_equal. clear H Hne Htrim.
  induction Hrest as [|k2 ks (Hne & _ & Htrim) _ IH]; [reflexivity|].
  cbn [List.map List.filter]. rewrite trim_after_space, Htrim.
  replace (nonempty k2) with true by (symmetry; now apply nonempty_true).
  now rewrite IH.
Qed.

Lemma method_payload (fuel : nat) (c : AIClient) (input : ChatPromptInput)
    (f : ChatResult -> Payload) (tr : TaskResult) :
  result (r <- callProvider fuel c input;; ret (task_result (f r) r))
  = Returned tr ->
  exists r, payload tr = f (decorate c r).
Proof.
  unfold bind, ret, result.
  destruct (callProvider fuel c input) as [t [d| |]] eqn:E;
    cbn [fst snd]; intros H; try discriminate.
  injection H as <-.
  destruct (callProvider_returns fuel c input d) as [r ->];
    [now rewrite E|].
  now exists r.
Qed.

(** X16. Every keyword that [extractKeywords] returns is well formed: it is
    not empty, holds no comma and has no white space at either end,
    whatever text the provider answered. *)
Theorem extractKeywords_wellformed (fuel : nat) (c : AIClient)
    (prompt : string) (tr : TaskResult) :
  result (extractKeywords fuel c prompt) = Returned tr ->
  exists ks, payload tr = Keywords ks /\ Forall keyword ks.
Proof.
  intros H. unfold extractKeywords in H.
  destruct (method_payload fuel c _
              (fun r => Keywords (parse_keywords (content r))) tr H)
    as [r Hr].
  eexists. split; [exact Hr|]. apply parse_keywords_wellformed.
Qed.



(** X18. The language [detectLanguage] returns is the provider's text
    trimmed and lower-cased -- trimming or lower-casing it again changes
    nothing -- and the confidence is 0.9 exactly when that code has two
    characters, 0.7 otherwise. *)
Theorem detectLanguage_normalized (fuel : nat) (c : AIClient)
    (prompt : string) (tr : TaskResult) :
  result (detectLanguage fuel c prompt) = Returned tr ->
  exists language confidence,
    payload tr = Language language confidence
    /\ trim language = language
    /\ toLowerCase language = language
    /\ (String.length language = 2%nat /\ confidence = Fin (9 # 10)
        \/ String.length language <> 2%nat /\ confidence = Fin (7 # 10)).
Proof.
  intros H. unfold detectLanguage in H.
  destruct (method_payload fuel c _
              (fun r => Language (toLowerCase (trim (content r)))
                          (if (String.length (toLowerCase (trim (content r)))
                               =? 2)%nat
                           then Fin (9 # 10) else Fin (7 # 10))) tr H)
    as [r Hr].
  eexists _, _. split; [exact Hr|]. split; [|split].
  - now rewrite trim_toLowerCase, trim_idempotent.
  - apply toLowerCase_idempotent.
  - destruct (_ =? 2)%nat eqn:E.
    + left. split; [now apply Nat.eqb_eq | reflexivity].
    + right. split; [now apply Nat.eqb_neq | reflexivity].
Qed.

(** X19. Whatever the provider answers, [classifySentiment] returns one of
    the three labels and a score between 0 and 1. *)
Theorem classifySentiment_in_range (fuel : nat) (c : AIClient)
    (prompt : string) (tr : TaskResult) :
  result (classifySentiment fuel c prompt) = Returned tr ->
  exists sentiment q,
    payload tr = Sentiment sentiment (Fin q)
    /\ Spec.is_sentiment sentiment
    /\ (0 <= q)%Q /\ (q <= 1)%Q.
Proof.
  intros H. unfold classifySentiment in H.
  assert (Hp : exists r, payload tr
                         = Sentiment (fst (parse_sentiment (content r)))
                                     (snd (parse_sentiment (content r)))).
  { unfold bind, ret, result in H.
    destruct (callProvider fuel c _) as [t [d| |]]; cbn [fst snd] in H;
      try discriminate.
    exists d. destruct (parse_sentiment (content d)).
    cbn [fst snd] in *. now injection H as <-. }
  destruct Hp as [r Hr]. rewrite Hr. clear.
  set (text := content r).
  destruct (parse_sentiment_spec text) as [Hshort Hlong].
  destruct (Nat.lt_ge_cases (List.length (split "|" text)) 2) as [Hl | Hl].
  - rewrite (Hshort Hl). cbn [fst snd]. exists "neutral", (1 # 2).
    split; [reflexivity|]. split; [right; now left|].
    split; discriminate.
  - destruct (Hlong Hl) as (Hin & Hout & Hnan & Hnum).
    assert (Hs : Spec.is_sentiment (fst (parse_sentiment text))).
    { destruct (String.eqb (toLowerCase (trim (nth 0 (split "|" text) "")))
                           "positive"
                || String.eqb (toLowerCase (trim (nth 0 (split "|" text) "")))
                              "neutral"
                || String.eqb (toLowerCase (trim (nth 0 (split "|" text) "")))
                              "negative") eqn:E.
      - apply is_sentiment_decide in E. now rewrite (Hin E).
      - rewrite Hout; [right; now left|].
        rewrite <- is_sentiment_decide. now rewrite E. }
    destruct (isNaN (parseFloat (trim (nth 1 (split "|" text) "")))) eqn:E.
    + rewrite (Hnan eq_refl). eexists _, _. split; [reflexivity|].
      split; [exact Hs|]. split; discriminate.
    + specialize (Hnum eq_refl).
      destruct (snd (parse_sentiment text)) as [|q|neg];
        destruct (parseFloat (trim (nth 1 (split "|" text) ""))) as [|p|neg'];
        cbn [Spec.clamped] in Hnum; try contradiction; try discriminate.
      * eexists _, q. split; [reflexivity|]. split; [exact Hs|].
        destruct Hnum as [[_ ->] | [[_ ->] | (H0 & H1 & Hq)]].
        -- split; discriminate.
        -- split; discriminate.
        -- rewrite Hq. now split.
      * eexists _, q. split; [reflexivity|]. split; [exact Hs|].
        subst q. destruct neg'; split; discriminate.
Qed.

(* ===================================================================== *)
(** ** Streaming *)
(* ===================================================================== *)

Lemma forward_spec (s : chunks) :
  forward s
  = (List.map EvYield (delivered s),
     match failure s with
     | Some e => Thrown e
     | None => Returned tt
     end).
Proof.
  induction s as [|chunk rest IH|e]; [reflexivity| |reflexivity].
  cbn [forward delivered failure List.map]. unfold bind, emit.
  rewrite IH. cbn [app]. now destruct (failure rest).
Qed.

Lemma yielded_app (t1 t2 : list event) :
  yielded (t1 ++ t2) = yielded t1 ++ yielded t2.
Proof.
  induction t1 as [|e t1 IH]; [reflexivity|].
  destruct e; cbn [app yielded]; now rewrite ?IH.
Qed.

Lemma yielded_dispatch {A} (ev : nat -> A -> event) hooks i arg :
  (forall j x, match ev j x with EvYield _ => False | _ => True end) ->
  yielded (dispatch ev hooks i arg) = [].
Proof.
  intros H. rewrite dispatch_calls.
  induction (seq i (List.length hooks)) as [|j l IH]; [reflexivity|].
  cbn [List.map]. specialize (H j arg).
  destruct (ev j arg); cbn [yielded]; (contradiction || exact IH).
Qed.

Lemma yielded_map_EvYield (l : list ChatStreamChunk) :
  yielded (List.map EvYield l) = l.
Proof. induction l as [|x l IH]; [reflexivity|]. cbn. now rewrite IH. Qed.

(** X20. A stream that ends normally, read to its end, is forwarded
    unchanged: the request hooks are called once each, the provider's
    [chatStream] is called once with an input whose [stream] flag is
    [true] whatever the caller's options say, every chunk is handed to the
    consumer in order, and no error hook is called. *)
Theorem chatStream_forwards_chunks (c : AIClient) (msgs : list Message)
    (options : option ChatOptions)
    (provider_chatStream : ChatPromptInput -> chunks) :
  let input := chat_input c msgs options (VBool true) in
  chatStream (c_provider c) = Some provider_chatStream ->
  failure (provider_chatStream input) = None ->
  client_chatStream c msgs options
  = (dispatch request_event (requestHooks c) 0 (c_config c, input)
       ++ EvProviderChatStream input
          :: List.map EvYield (delivered (provider_chatStream input)),
     Returned tt)
  /\ yielded (trace (client_chatStream c msgs options))
     = delivered (provider_chatStream input)
  /\ in_stream input = VBool true.
Proof.
  intros input Hp Hok.
  assert (E : client_chatStream c msgs options
              = (dispatch request_event (requestHooks c) 0 (c_config c, input)
                   ++ EvProviderChatStream input
                      :: List.map EvYield (delivered (provider_chatStream input)),
                 Returned tt)).
  { unfold client_chatStream. rewrite Hp. fold input.
    unfold bind at 1. unfold emit at 1. unfold try_catch, bind, emit.
    rewrite forward_spec, Hok. reflexivity. }
  split; [exact E|]. split; [|reflexivity].
  rewrite E. cbn [trace fst]. rewrite yielded_app.
  rewrite (yielded_dispatch request_event) by (intros; exact I).
  cbn [app yielded]. apply yielded_map_EvYield.
Qed.

(** X21. A stream that fails is not retried: the chunks delivered before
    the failure have reached the consumer, every error hook is then called
    once with the failure itself, and the call throws an AIClientError
    "Streaming error" that carries the provider name and the failure as
    [originalError]. The provider's [chatStream] was called once, and the
    thrown error is not retryable. *)
Theorem chatStream_failure_is_wrapped (c : AIClient) (msgs : list Message)
    (options : option ChatOptions)
    (provider_chatStream : ChatPromptInput -> chunks) (e : exn) (m : Msg) :
  let input := chat_input c msgs options (VBool true) in
  chatStream (c_provider c) = Some provider_chatStream ->
  failure (provider_chatStream input) = Some e ->
  get_message e = inr m ->
  let error :=
    AIClientError (MsgStreamingError m) (prop (cfg_provider (c_config c)))
                  VUndefined e in
  client_chatStream c msgs options
  = (dispatch request_event (requestHooks c) 0 (c_config c, input)
       ++ (EvProviderChatStream input
             :: List.map EvYield (delivered (provider_chatStream input)))
       ++ dispatch EvErrorHook (errorHooks c) 0 e,
     Thrown error)
  /\ isRetryableError error = false
  /\ get_originalError error = e.
Proof.
  intros input Hp Hfail Hm error. split; [|now split].
  unfold client_chatStream. rewrite Hp. fold input.
  unfold bind at 1. unfold emit at 1. unfold try_catch.
  unfold bind at 1. unfold emit at 1. rewrite forward_spec, Hfail.
  cbn [fst snd app]. unfold bind, emit. rewrite Hm. unfold throw.
  now rewrite app_nil_r.
Qed.

(* ===================================================================== *)
(** ** Prompt templates *)
(* ===================================================================== *)

Lemma ends_with_refl (s : string) : ends_with s s.
Proof. now exists "". Qed.

Lemma ends_with_append (suffix a b : string) :
  ends_with suffix b -> ends_with suffix (a +:+ b).
Proof.
  intros [p ->]. exists (a +:+ p).
  induction a as [|ch a IH]; [reflexivity|].
  change (String ch (a +:+ p +:+ suffix) = String ch ((a +:+ p) +:+ suffix)).
  now rewrite IH.
Qed.

(** X22. Every template that takes a text puts it last, unchanged, after
    an empty line: whatever the options, the prompt ends with two line
    feeds followed by the caller's text. *)
Theorem templates_end_with_the_text (toString : number -> string)
    (text : string) :
  let tail := PROMPT_TEMPLATES.nl +:+ PROMPT_TEMPLATES.nl +:+ text in
  (forall options, ends_with tail (PROMPT_TEMPLATES.summarize text options))
  /\ (forall options, ends_with tail (PROMPT_TEMPLATES.fixGrammar text options))
  /\ (forall targetLang options,
        ends_with tail (PROMPT_TEMPLATES.translate text targetLang options))
  /\ (forall style options,
        ends_with tail (PROMPT_TEMPLATES.rewrite text style options))
  /\ (forall options,
        ends_with tail
          (PROMPT_TEMPLATES.summarizeToBullets toString text options))
  /\ (forall options,
        ends_with tail (PROMPT_TEMPLATES.extractKeywords toString text options))
  /\ ends_with tail (PROMPT_TEMPLATES.detectLanguage text)
  /\ ends_with tail (PROMPT_TEMPLATES.classifySentiment text).
Proof.
  intros tail. subst tail.
  unfold PROMPT_TEMPLATES.summarize, PROMPT_TEMPLATES.fixGrammar,
    PROMPT_TEMPLATES.translate, PROMPT_TEMPLATES.rewrite,
    PROMPT_TEMPLATES.summarizeToBullets, PROMPT_TEMPLATES.extractKeywords,
    PROMPT_TEMPLATES.detectLanguage, PROMPT_TEMPLATES.classifySentiment.
  repeat split; intros;
    repeat (apply ends_with_refl || apply ends_with_append).
Qed.

(* ===================================================================== *)
(** ** The providers *)
(* ===================================================================== *)

Lemma append_assoc (a b d : string) : (a +:+ b) +:+ d = a +:+ b +:+ d.
Proof.
  induction a as [|ch a IH]; [reflexivity|].
  change (String ch ((a +:+ b) +:+ d) = String ch (a +:+ b +:+ d)).
  now rewrite IH.
Qed.

Lemma append_empty_r (a : string) : a +:+ "" = a.
Proof.
  induction a as [|ch a IH]; [reflexivity|].
  change (String ch (a +:+ "") = String ch a). now rewrite IH.
Qed.

Lemma nonempty_append_r (a b : string) :
  nonempty b = true -> nonempty (a +:+ b) = true.
Proof. destruct a; [trivial | reflexivity]. Qed.

Lemma system_text_none (msgs : list Message) :
  existsb is_system msgs = false -> system_text msgs = "".
Proof.
  induction msgs as [|m rest IH]; [reflexivity|].
  cbn [existsb system_text]. destruct (is_system m); [discriminate|].
  exact IH.
Qed.

Lemma convert_fold (msgs : list Message) :
  forall contents systemInstruction,
    List.fold_left Gemini.convert msgs (contents, systemInstruction)
    = (contents
         ++ List.map gemini_content
                     (List.filter (fun m => negb (is_system m)) msgs),
       if existsb is_system msgs
       then Some (PROMPT_TEMPLATES.or_string systemInstruction ""
                  +:+ system_text msgs)
       else systemInstruction).
Proof.
  induction msgs as [|m rest IH]; intros contents systemInstruction.
  - cbn. now rewrite app_nil_r.
  - cbn [List.fold_left List.filter existsb system_text].
    assert (Hsys : is_system m
                   = match role m with system => true | _ => false end)
      by reflexivity.
    rewrite !Hsys. unfold Gemini.convert at 2.
    destruct (role m) eqn:Hrole; cbn [negb orb List.map]; rewrite IH.
    1, 2: unfold gemini_content at 2; rewrite Hrole, <- app_assoc;
      reflexivity.
    f_equal.
    unfold PROMPT_TEMPLATES.or_string at 1.
    rewrite (nonempty_append_r _ _
               (nonempty_append_r (msg_content m) PROMPT_TEMPLATES.nl
                                  eq_refl)).
    destruct (existsb is_system rest) eqn:Hrest.
    + now rewrite !append_assoc.
    + now rewrite (system_text_none rest Hrest), append_empty_r.
Qed.

Lemma system_text_some (msgs : list Message) :
  existsb is_system msgs = true -> nonempty (system_text msgs) = true.
Proof.
  induction msgs as [|m rest IH]; [discriminate|].
  cbn [existsb system_text]. destruct (is_system m); [|exact IH].
  intros _. apply nonempty_append_r. reflexivity.
Qed.

(** X23. The request sent to Gemini holds the conversation without its
    system messages, in order, the assistant's turns under the role
    "model" and all others under "user". It has a system instruction
    exactly when the conversation has a system message: the contents of
    the system messages, one per line, trimmed as a whole. *)
Theorem gemini_request_separates_system_messages (input : ChatPromptInput) :
  Gemini.g_contents (Gemini.request input)
  = List.map gemini_content
             (List.filter (fun m => negb (is_system m)) (messages input))
  /\ Gemini.g_systemInstruction (Gemini.request input)
     = (if existsb is_system (messages input)
        then Some (trim (system_text (messages input)))
        else None).
Proof.
  unfold Gemini.request. rewrite convert_fold. cbn [app].
  destruct (existsb is_system (messages input)) eqn:Hsys;
    cbn [Gemini.g_contents Gemini.g_systemInstruction];
    (split; [reflexivity|]); [|reflexivity].
  change (PROMPT_TEMPLATES.or_string None "" +:+ system_text (messages input))
    with (system_text (messages input)).
  now rewrite (system_text_some _ Hsys).
Qed.

(** X24. An OpenAI completion without a choice, or whose first choice has
    no message, makes the call fail at once (the retry bound being at
    least 0): the provider was called once, no back-off was slept, every
    error hook saw the plain Error "No response from OpenAI", and that
    same error reaches the caller, not wrapped in an AIClientError or a
    RetryError. *)
Theorem openai_empty_completion_fails_once (fuel : nat) (c : AIClient)
    (create : nat -> ChatPromptInput -> settled OpenAI.Completion)
    (stream : ChatPromptInput -> chunks) (input : ChatPromptInput)
    (response : OpenAI.Completion) :
  c_provider c = OpenAI.provider_over create stream ->
  create 0%nat input = Fulfilled response ->
  (forall choice, OpenAI.first_choice response = Some choice ->
                  OpenAI.message choice = None) ->
  less_eq (VNum (of_nat 0)) (retry_limit c) = true ->
  (0 < fuel)%nat ->
  callProvider fuel c input
  = (dispatch request_event (requestHooks c) 0 (c_config c, input)
       ++ EvProviderChat 0 input
          :: dispatch EvErrorHook (errorHooks c) 0 OpenAI.no_response,
     Thrown OpenAI.no_response)
  /\ attempts (trace (callProvider fuel c input)) = 1%nat
  /\ sleeps (trace (callProvider fuel c input)) = [].
Proof.
  intros Hp Hcreate Hempty Hle Hfuel.
  assert (Hchat : chat (c_provider c) 0 input = Rejected OpenAI.no_response).
  { rewrite Hp. cbn [chat OpenAI.provider_over]. rewrite Hcreate.
    unfold OpenAI.chat_outcome, OpenAI.to_result.
    destruct (OpenAI.first_choice response) as [choice|]; [|reflexivity].
    now rewrite (Hempty choice eq_refl). }
  assert (He : failure_of c (chat_work c input 0) = Some OpenAI.no_response).
  { unfold chat_work. rewrite Hchat. reflexivity. }
  assert (Hrun : executeWithRetry fuel c (chat_work c input) "chat"
                 = ([] ++ failed_round c (chat_work c input) 0,
                    Thrown (stop_error c (retry_limit c) 0 OpenAI.no_response))).
  { apply (run_stops c (chat_work c input) "chat" (retry_limit c) fuel 0
                     OpenAI.no_response); trivial.
    - split; [intros j Hj; lia | exact Hle].
    - apply andb_false_r. }
  unfold stop_error in Hrun. rewrite first_attempt_not_last in Hrun.
  assert (E : callProvider fuel c input
              = (dispatch request_event (requestHooks c) 0 (c_config c, input)
                   ++ EvProviderChat 0 input
                      :: dispatch EvErrorHook (errorHooks c) 0
                                  OpenAI.no_response,
                 Thrown OpenAI.no_response)).
  { rewrite (callProvider_thrown fuel c input OpenAI.no_response)
      by now rewrite Hrun.
    rewrite Hrun. cbn [trace fst app]. rewrite failed_round_chat, He.
    reflexivity. }
  split; [exact E|]. rewrite E. cbn [trace fst].
  rewrite attempts_app, sleeps_app.
  unfold request_event.
  rewrite (sleeps_dispatch (fun i a => EvRequestHook i (fst a) (snd a)))
    by reflexivity.
  cbn [sleeps app].
  rewrite (sleeps_dispatch EvErrorHook) by reflexivity.
  split; [|reflexivity].
  unfold attempts at 1 2.
  rewrite (dispatch_filter (fun i a => EvRequestHook i (fst a) (snd a))
                           is_attempt false) by reflexivity.
  cbn [List.filter is_attempt List.length plus].
  f_equal. apply attempts_dispatch_error.
Qed.

(* ===================================================================== *)
(** ** Concrete runs of the further properties *)
(* ===================================================================== *)

(** A provider answering 400 at once: the 400 reaches the caller after one
    request hook, one attempt and one error hook. *)
Lemma first_failure_propagates_unchanged_witness :
  callProvider 1 (Example.client Scenario.rejecting None) Example.hello
  = ([EvRequestHook 0
        (c_config (Example.client Scenario.rejecting None)) Example.hello;
      EvProviderChat 0 Example.hello;
      EvErrorHook 0 Example.bad_request],
     Thrown Example.bad_request).
Proof.
  apply (first_failure_propagates_unchanged 1
           (Example.client Scenario.rejecting None) Example.hello
           Example.bad_request);
    [reflexivity | reflexivity | reflexivity | lia].
Defined.

(** [maxRetries: 2] and a provider that always fails: at most 3 attempts. *)
Lemma attempts_bounded_witness :
  result (callProvider 3 Example.two_retries Example.hello) <> OutOfFuel
  /\ (1 <= attempts (trace (callProvider 3 Example.two_retries Example.hello))
      <= 3)%nat.
Proof.
  apply (attempts_bounded 3 Example.two_retries Example.hello 2);
    [reflexivity | lia].
Defined.

(** A 503 followed by an answer: two attempts, and the caller gets the
    answer. *)
Lemma success_after_retries_witness :
  result (callProvider 2 (Example.client Scenario.recovering None)
                       Example.hello)
  = Returned (decorate (Example.client Scenario.recovering None)
                       (Example.reply "Hi"))
  /\ attempts (trace (callProvider 2 (Example.client Scenario.recovering None)
                                   Example.hello))
     = 2%nat.
Proof.
  destruct (success_after_retries 2 (Example.client Scenario.recovering None)
              Example.hello 1 (Example.reply "Hi")) as [E Ha].
  - apply reaches_next; [apply reaches_first| |]; reflexivity.
  - reflexivity.
  - lia.
  - split; [now rewrite E | exact Ha].
Defined.

(** [maxRetries: 2], the default delay of 1000 ms and a provider that
    always fails: the run sleeps 1000 ms, then 2000 ms. *)
Lemma backoff_schedule_witness :
  sleeps (trace (callProvider 3 Example.two_retries Example.hello))
  = [of_Z 1000; of_Z 2000].
Proof.
  apply (backoff_schedule 3 Example.two_retries Example.hello 2 1000).
  - reflexivity.
  - lia.
  - apply reaches_next; [apply reaches_next; [apply reaches_first| |]| |];
      reflexivity.
  - reflexivity.
  - lia.
Defined.

(** [maxRetries: -1]: the provider is never called. *)
Lemma negative_bound_makes_no_attempt_witness :
  callProvider 1 (Example.client Example.failing (Some (num: (-1))))
               Example.hello
  = ([EvRequestHook 0
        (c_config (Example.client Example.failing (Some (num: (-1)))))
        Example.hello],
     Thrown (AIClientError (MsgFailedToExecute "chat")
                           VUndefined VUndefined undefined)).
Proof.
  apply (negative_bound_makes_no_attempt 1
           (Example.client Example.failing (Some (num: (-1))))
           Example.hello (-1)); [reflexivity | lia | lia].
Defined.

(** Registering one more error hook changes neither what the run returns
    nor its attempts and sleeps. *)
Lemma hooks_do_not_influence_call_witness :
  result (callProvider 3 Example.two_retries Example.hello)
  = result (callProvider 3 (onError Example.two_retries (fun _ => Normal))
                         Example.hello)
  /\ List.filter is_engine_step
       (trace (callProvider 3 Example.two_retries Example.hello))
     = List.filter is_engine_step
         (trace (callProvider 3
                   (onError Example.two_retries (fun _ => Normal))
                   Example.hello)).
Proof.
  apply (hooks_do_not_influence_call 3 Example.two_retries
           (onError Example.two_retries (fun _ => Normal)) Example.hello).
  split; reflexivity.
Defined.

(** A second response hook registered on a client that answers "Hi" is
    called after the first one, with the provider's result. *)
Lemma later_response_hook_is_called_last_witness :
  callProvider 1 (onResponse Example.responder (fun _ => Normal))
               Example.hello
  = (trace (callProvider 1 Example.responder Example.hello)
       ++ [EvResponseHook 1 (Example.reply "Hi")],
     result (callProvider 1 Example.responder Example.hello)).
Proof.
  apply (later_response_hook_is_called_last 1 Example.responder
           (fun _ => Normal) Example.hello (Example.reply "Hi")).
  reflexivity.
Defined.

(** The client [new AIClient({ provider: "openai", apiKey: "sk-test" })]
    stores the configuration of [Example.responder]; what a chat of that
    client returns is tagged "openai" and carries the default model. *)
Lemma constructed_client_tags_results_witness :
  result (invoke 1 Example.responder Example.greeting)
  = Returned (inr (decorate Example.responder (Example.reply "Hi")))
  /\ out_provider (inr (decorate Example.responder (Example.reply "Hi")))
     = VStr "openai"
  /\ truthy (out_model (inr (decorate Example.responder (Example.reply "Hi"))))
     = true.
Proof.
  split; [reflexivity|].
  destruct (new_AIClient (Example.sdk (Example.answering "Hi"))
                         (Example.config None))
    as [t [built| |]] eqn:E; try (vm_compute in E; discriminate E).
  destruct (constructed_client_tags_results
              (Example.sdk (Example.answering "Hi")) (Example.config None)
              built Example.responder 1 Example.greeting
              (inr (decorate Example.responder (Example.reply "Hi"))))
    as (Hp & _ & Hm).
  - now rewrite E.
  - vm_compute in E. injection E as _ <-. reflexivity.
  - reflexivity.
  - split; [exact Hp | exact Hm].
Defined.

(** [AI_PROVIDER=openai OPENAI_API_KEY=sk-test]: the client holds the
    OpenAI key. *)
Lemma fromEnv_credential_matches_provider_witness :
  exists c,
    result (fromEnv (Example.sdk Example.failing) Example.env) = Returned c
    /\ truthy (prop (cfg_apiKey (c_config c))) = true.
Proof.
  destruct (fromEnv (Example.sdk Example.failing) Example.env)
    as [t [c| |]] eqn:E; try (vm_compute in E; discriminate E).
  exists c. split; [reflexivity|].
  apply (fromEnv_credential_matches_provider (Example.sdk Example.failing)
           Example.env c).
  now rewrite E.
Defined.


(** [maxRetries: 2] and a provider that always fails with 503: what the
    caller catches is not retryable. *)
Lemma thrown_error_is_not_retryable_witness :
  exists e,
    result (callProvider 3 Example.two_retries Example.hello) = Thrown e
    /\ isRetryableError e = false.
Proof.
  destruct (result (callProvider 3 Example.two_retries Example.hello))
    as [r|e|] eqn:E; try (vm_compute in E; discriminate E).
  exists e. split; [reflexivity|].
  apply (thrown_error_is_not_retryable 3 Example.two_retries Example.hello
           2 e); [reflexivity | lia | exact E].
Defined.

(** ["api, rate limit"] is read back as its two keywords. *)
Lemma parse_keywords_join_witness :
  parse_keywords "api, rate limit" = ["api"; "rate limit"].
Proof.
  apply (parse_keywords_join ["api"; "rate limit"]).
  repeat constructor; try discriminate.
Defined.

(** The answer ["API, rate limit, ,Retry"]. *)
Lemma extractKeywords_wellformed_witness :
  exists tr ks,
    result (extractKeywords 1
              (Example.client (Example.answering "API, rate limit, ,Retry")
                              None)
              "Extract the keywords")
    = Returned tr
    /\ payload tr = Keywords ks
    /\ Forall keyword ks.
Proof.
  destruct (result (extractKeywords 1
              (Example.client (Example.answering "API, rate limit, ,Retry")
                              None)
              "Extract the keywords"))
    as [tr|e|] eqn:E; try (vm_compute in E; discriminate E).
  destruct (extractKeywords_wellformed 1
              (Example.client (Example.answering "API, rate limit, ,Retry")
                              None)
              "Extract the keywords" tr E) as (ks & Hp & Hk).
  exists tr, ks. now repeat split.
Defined.


(** The answer [" EN "]. *)
Lemma detectLanguage_normalized_witness :
  exists tr language confidence,
    result (detectLanguage 1 (Example.client (Example.answering " EN ") None)
                           "Detect")
    = Returned tr
    /\ payload tr = Language language confidence
    /\ trim language = language
    /\ toLowerCase language = language.
Proof.
  destruct (result (detectLanguage 1
                      (Example.client (Example.answering " EN ") None)
                      "Detect"))
    as [tr|e|] eqn:E; try (vm_compute in E; discriminate E).
  destruct (detectLanguage_normalized 1
              (Example.client (Example.answering " EN ") None) "Detect" tr E)
    as (language & confidence & Hp & Ht & Hl & _).
  exists tr, language, confidence. now repeat split.
Defined.

(** The answer ["positive|1.7"]: the score is brought back to the range. *)
Lemma classifySentiment_in_range_witness :
  exists tr sentiment q,
    result (classifySentiment 1
              (Example.client (Example.answering "positive|1.7") None)
              "Classify")
    = Returned tr
    /\ payload tr = Sentiment sentiment (Fin q)
    /\ (0 <= q)%Q /\ (q <= 1)%Q.
Proof.
  destruct (result (classifySentiment 1
              (Example.client (Example.answering "positive|1.7") None)
              "Classify"))
    as [tr|e|] eqn:E; try (vm_compute in E; discriminate E).
  destruct (classifySentiment_in_range 1
              (Example.client (Example.answering "positive|1.7") None)
              "Classify" tr E)
    as (sentiment & q & Hp & _ & H0 & H1).
  exists tr, sentiment, q. now repeat split.
Defined.

(** A stream of two chunks reaches the consumer as it is. *)
Lemma chatStream_forwards_chunks_witness :
  yielded (trace (client_chatStream
                    (Example.client Scenario.streaming None)
                    Scenario.conversation None))
  = [Scenario.hel; Scenario.lo].
Proof.
  destruct (chatStream_forwards_chunks
              (Example.client Scenario.streaming None)
              Scenario.conversation None
              (fun _ => StreamChunk Scenario.hel
                          (StreamChunk Scenario.lo StreamEnd)))
    as (_ & H & _); [reflexivity | reflexivity | exact H].
Defined.

(** A stream that breaks with status 503 after one chunk: the caller gets
    an AIClientError wrapping the 503. *)
Lemma chatStream_failure_is_wrapped_witness :
  result (client_chatStream (Example.client Scenario.breaking None)
                            Scenario.conversation None)
  = Thrown (AIClientError
              (MsgStreamingError (MsgValue (VStr "Service Unavailable")))
              (VStr "openai") VUndefined Example.unavailable)
  /\ yielded (trace (client_chatStream (Example.client Scenario.breaking None)
                                       Scenario.conversation None))
     = [Scenario.hel].
Proof.
  destruct (chatStream_failure_is_wrapped
              (Example.client Scenario.breaking None)
              Scenario.conversation None
              (fun _ => StreamChunk Scenario.hel
                          (StreamError Example.unavailable))
              Example.unavailable
              (MsgValue (VStr "Service Unavailable")))
    as (E & _); [reflexivity | reflexivity | reflexivity |].
  rewrite E. split; reflexivity.
Defined.

(** An OpenAI completion with no choice. *)
Lemma openai_empty_completion_fails_once_witness :
  result (callProvider 1
            (Example.client
               (OpenAI.provider_over Scenario.create Scenario.no_stream) None)
            Example.hello)
  = Thrown OpenAI.no_response
  /\ attempts (trace (callProvider 1
                        (Example.client
                           (OpenAI.provider_over Scenario.create
                                                 Scenario.no_stream) None)
                        Example.hello))
     = 1%nat.
Proof.
  destruct (openai_empty_completion_fails_once 1
              (Example.client
                 (OpenAI.provider_over Scenario.create Scenario.no_stream)
                 None)
              Scenario.create
              Scenario.no_stream Example.hello Scenario.empty_completion)
    as (E & Ha & _).
  - reflexivity.
  - reflexivity.
  - intros choice H. discriminate H.
  - reflexivity.
  - lia.
  - split; [now rewrite E | exact Ha].
Defined.
